(** * CodeQ: the indexing and retrieval core, embedded in Rocq

    The development follows the backend services of the repository and
    the handlers of the question routes:

    - [aiProvider.service.js]  -> [Module AiProvider]
    - [vectorStore.service.js] -> [Module VectorStore]
    - [qa.service.js]          -> [Module Qa]
    - [parser.service.js]      -> [Module Parser] (the folder structure)
    - [qa.routes.js]           -> [Module Routes]

    JavaScript strings are modelled by [string] (a sequence of code
    units below 256), JavaScript numbers that hold line numbers and
    counters by [nat] or [Z].  The numbers of the embedding vectors are
    real numbers in the services, which is exact arithmetic: rounding,
    overflow and underflow of IEEE doubles are outside that model.
    [Module Ieee] has [cosineSimilarity] once more on binary64 floats,
    for what depends on them.  Console output and network requests are
    recorded in an explicit state, exceptions are an explicit result;
    a call of the OpenAI SDK may also end before anything is sent,
    when the client cannot be made. *)

From Stdlib Require Import Floats Reals Lra Lia ZArith Ascii String.
From stdpp Require Import gmap strings list fin_maps pretty sorting.
From Equations Require Import Equations.

Open Scope string_scope.

(* ===================================================================== *)
(** * JavaScript strings and arrays *)
(* ===================================================================== *)

Module Js.

(** Code point of a character, [String.prototype.charCodeAt]. *)
Definition charCode (c : ascii) : Z := Z.of_N (N_of_ascii c).

(** White space and line terminators of ECMAScript that lie below
    code unit 256: TAB, LF, VT, FF, CR, SPACE and NBSP.  This is the
    class [\s] of regular expressions and what [trim] removes. *)
Definition isSpace (c : ascii) : bool :=
  let n := charCode c in
  ((9 <=? n) && (n <=? 13) || (n =? 32) || (n =? 160))%Z.

(** The class [\w] of regular expressions: [A-Za-z0-9_]. *)
Definition isWord (c : ascii) : bool :=
  let n := charCode c in
  ((65 <=? n) && (n <=? 90) || (97 <=? n) && (n <=? 122)
   || (48 <=? n) && (n <=? 57) || (n =? 95))%Z.

(** [toLowerCase] on one code unit below 256: the ASCII capitals and
    the Latin-1 capitals U+00C0..U+00DE (U+00D7 is the times sign). *)
Definition lowerChar (c : ascii) : ascii :=
  let n := charCode c in
  if ((65 <=? n) && (n <=? 90)
      || (192 <=? n) && (n <=? 222) && negb (n =? 215))%Z
  then ascii_of_N (Z.to_N (n + 32)) else c.

Fixpoint mapChars (f : ascii -> ascii) (s : string) : string :=
  match s with
  | EmptyString => EmptyString
  | String c s' => String (f c) (mapChars f s')
  end.

Definition toLowerCase (s : string) : string := mapChars lowerChar s.

Definition LF : ascii := ascii_of_nat 10.
Definition NL : string := String LF EmptyString.

(** [s.split('\n')]: never empty, the empty string gives one empty line. *)
Fixpoint splitLines (s : string) : list string :=
  match s with
  | EmptyString => [EmptyString]
  | String c s' =>
      if Ascii.eqb c LF then EmptyString :: splitLines s'
      else match splitLines s' with
           | h :: t => String c h :: t
           | [] => [String c EmptyString]
           end
  end.

(** [a.join('\n')]. *)
Definition joinLines (l : list string) : string := String.concat NL l.

Fixpoint trimStart (s : string) : string :=
  match s with
  | EmptyString => EmptyString
  | String c s' => if isSpace c then trimStart s' else s
  end.

Fixpoint trimEnd (s : string) : string :=
  match s with
  | EmptyString => EmptyString
  | String c s' =>
      match trimEnd s' with
      | EmptyString => if isSpace c then EmptyString else String c EmptyString
      | r => String c r
      end
  end.

Definition trim (s : string) : string := trimEnd (trimStart s).

(** [s.split(/\s+/)]: [inSpace] says that the previous character
    belonged to a separator. *)
Fixpoint splitSpacesFrom (inSpace : bool) (s : string) : list string :=
  match s with
  | EmptyString => [EmptyString]
  | String c s' =>
      if isSpace c then
        if inSpace then splitSpacesFrom true s'
        else EmptyString :: splitSpacesFrom true s'
      else match splitSpacesFrom false s' with
           | h :: t => String c h :: t
           | [] => [String c EmptyString]
           end
  end.

Definition splitSpaces (s : string) : list string := splitSpacesFrom false s.

(** [a.slice(start, end)] on an array, for indices that are natural
    numbers. *)
Definition slice {A} (start end_ : nat) (a : list A) : list A :=
  take (end_ - start) (drop start a).

(** [a.slice(0, end)] where [end] may be negative: a negative end
    counts from the end of the array. *)
Definition sliceTo {A} (end_ : Z) (a : list A) : list A :=
  if (end_ <? 0)%Z
  then take (Z.to_nat (Z.max (Z.of_nat (length a) + end_) 0)) a
  else take (Z.to_nat end_) a.

(** [s.slice(0, n)] on a string. *)
Definition stringSliceTo (n : nat) (s : string) : string := String.substring 0 n s.

(** [s.startsWith(p)]. *)
Definition startsWith (s p : string) : bool := String.prefix p s.

(** [[...new Set(a)]]: the distinct elements in order of first
    occurrence. *)
Fixpoint distinctFrom (seen : list string) (a : list string) : list string :=
  match a with
  | [] => []
  | x :: a' =>
      if bool_decide (x ∈ seen) then distinctFrom seen a'
      else x :: distinctFrom (x :: seen) a'
  end.

Definition distinct (a : list string) : list string := distinctFrom [] a.

(** A string is truthy when it is not empty. *)
Definition truthy (s : string) : bool := negb (String.eqb s EmptyString).

(** [a.includes(x)] on an array of strings. *)
Definition includes (a : list string) (x : string) : bool := bool_decide (x ∈ a).

End Js.

(* ===================================================================== *)
(** * Data model *)
(* ===================================================================== *)

(** A detected code structure, [extractCodeStructures] of the parser. *)
Module CodeStructure.
Record t := mk {
  type : string;
  name : string;
  line : nat;
  lineContent : string
}.
End CodeStructure.

(** A parsed file, [parseFile] of the parser. *)
Module File.
Record t := mk {
  path : string;
  fileName : string;
  extension : string;
  language : string;
  content : string;
  lineCount : nat;
  size : nat;
  structures : list CodeStructure.t;
  folder : string
}.
End File.

(** A chunk object.  The three last properties are optional, as in the
    source: [isSummary] is only set on the summary chunk, [embedding] is
    added by [indexProject] and removed by [searchCode], [similarity] is
    added by [searchCode].  An embedding that is [undefined] and an
    absent one are both [None]. *)
Module Chunk.
Record t := mk {
  content : string;
  startLine : nat;
  endLine : nat;
  path : string;
  fileName : string;
  language : string;
  folder : string;
  isSummary : option bool;
  embedding : option (list R);
  similarity : option R
}.

Definition withEmbedding (c : t) (e : option (list R)) : t :=
  mk (content c) (startLine c) (endLine c) (path c) (fileName c)
     (language c) (folder c) (isSummary c) e (similarity c).

Definition withSimilarity (c : t) (s : R) : t :=
  mk (content c) (startLine c) (endLine c) (path c) (fileName c)
     (language c) (folder c) (isSummary c) (embedding c) (Some s).

Definition withoutEmbedding (c : t) : t :=
  mk (content c) (startLine c) (endLine c) (path c) (fileName c)
     (language c) (folder c) (isSummary c) None (similarity c).
End Chunk.

(* ===================================================================== *)
(** * vectorStore.service.js: the chunker *)
(* ===================================================================== *)

Module Chunker.

Definition chunkSize : nat := 50.
Definition overlap : nat := 10.

(** [createFileSummary]. *)
Definition structureLine (s : CodeStructure.t) : string :=
  "- " +:+ CodeStructure.type s +:+ ": " +:+ CodeStructure.name s
  +:+ " (line " +:+ pretty (CodeStructure.line s) +:+ ")" +:+ Js.NL.

Definition createFileSummary (file : File.t) : string :=
  let summary :=
    "File: " +:+ File.path file +:+ Js.NL
    +:+ "Language: " +:+ File.language file +:+ Js.NL in
  let summary :=
    if bool_decide (0 < length (File.structures file)) then
      fold_left (fun acc s => acc +:+ structureLine s)
                (File.structures file)
                (summary +:+ Js.NL +:+ "Code structures:" +:+ Js.NL)
    else summary in
  let firstLines :=
    Js.joinLines (Js.slice 0 20 (Js.splitLines (File.content file))) in
  summary +:+ Js.NL +:+ "Content preview:" +:+ Js.NL +:+ firstLines.

(** The text of the window that starts at index [i]. *)
Definition chunkLines (lines : list string) (i : nat) : list string :=
  Js.slice i (i + chunkSize) lines.

Definition windowChunk (file : File.t) (lines : list string) (i : nat) : Chunk.t :=
  Chunk.mk (Js.joinLines (chunkLines lines i))
           (i + 1)
           (Nat.min (i + chunkSize) (length lines))
           (File.path file) (File.fileName file)
           (File.language file) (File.folder file)
           None None None.

(** The test [chunkLines.join('\n').trim().length > 0]. *)
Definition windowNonEmpty (lines : list string) (i : nat) : bool :=
  bool_decide (0 < String.length (Js.trim (Js.joinLines (chunkLines lines i)))).

(** The [for] loop of [chunkContent]: [i] advances by
    [chunkSize - overlap] while [i < lines.length]. *)
Equations? windowLoop (file : File.t) (lines : list string) (i : nat)
    (chunks : list Chunk.t) : list Chunk.t
    by wf (length lines - i) lt :=
  windowLoop file lines i chunks with lt_dec i (length lines) => {
    | left _ :=
        windowLoop file lines (i + (chunkSize - overlap))
          (if windowNonEmpty lines i
           then chunks ++ [windowChunk file lines i]
           else chunks);
    | right _ := chunks }.
Proof. unfold chunkSize, overlap. lia. Qed.

Definition summaryChunk (file : File.t) (lines : list string) : Chunk.t :=
  Chunk.mk (createFileSummary file) 1 (length lines)
           (File.path file) (File.fileName file)
           (File.language file) (File.folder file)
           (Some true) None None.

(** [chunkContent]. *)
Definition chunkContent (file : File.t) : list Chunk.t :=
  let lines := Js.splitLines (File.content file) in
  let chunks := windowLoop file lines 0 [] in
  summaryChunk file lines :: chunks.

End Chunker.

(* ===================================================================== *)
(** * Effects: exceptions, console, network, the project map *)
(* ===================================================================== *)

(** Index statistics and the value stored per project. *)
Module Stats.
Record t := mk {
  totalFiles : nat;
  totalChunks : nat;
  languages : list string
}.
End Stats.

Module Store.
Record t := mk {
  vectors : list Chunk.t;
  files : list File.t;
  indexedAt : string;
  stats : Stats.t
}.
End Store.

(** A thrown JavaScript exception with its [message]. *)
Inductive JsError :=
| Error (message : string)
| TypeError (message : string).

Definition messageOf (e : JsError) : string :=
  match e with Error m => m | TypeError m => m end.

(** The lines the services write with [console.log], [console.warn]
    and [console.error], one constructor per call site. *)
Inductive LogLine :=
| LogProvider (name : option string) (message : string)
| ErrOpenAIEmbedding (message : string)
| ErrOpenAICompletion (message : string)
| ErrOllamaEmbedding (message : string)
| WarnFallingBack
| ErrOllamaCompletion (message : string)
| ErrGroqCompletion (message : string)
| LogIndexing (projectId : string) (files : nat)
| LogProcessed (chunks : nat)
| WarnCouldNotEmbed (path : string) (message : string)
| WarnMoreErrors (more : nat)
| LogIndexed (chunks : nat) (projectId : string)
| LogProcessingQuestion (projectId question : string)
| ErrGeneratingAnswer (message : string)
| ErrExplainingFile (message : string).

(** The requests the services send to a provider. *)
Inductive Request :=
| OpenAIEmbeddings (model : option string) (input : string)
| OpenAIChat (model : option string) (systemPrompt userPrompt : string)
| GroqChat (model : option string) (systemPrompt userPrompt : string)
| OllamaEmbeddings (baseUrl : option string) (model : option string) (prompt : string)
| OllamaChat (baseUrl : option string) (model : option string) (systemPrompt userPrompt : string).

(** How [await getOpenAIClient().embeddings.create(...)] and its like
    end.  The client is made on first use: when [new OpenAI(...)]
    throws, as the SDK does when it is given no API key, the call ends
    there and nothing is sent ([NoClient]).  Otherwise the request is
    sent and the promise resolves or rejects.  A [fetch] ends with a
    rejected promise, a response that is not [ok], or a body. *)
Inductive Settled (A : Type) :=
| Resolved (a : A)
| Rejected (message : string)
| NoClient (message : string).
Arguments Resolved {A} a.
Arguments Rejected {A} message.
Arguments NoClient {A} message.

Inductive Fetched (A : Type) :=
| FetchRejected (message : string)
| FetchNotOk (statusText : string)
| FetchBody (data : A).
Arguments FetchRejected {A} message.
Arguments FetchNotOk {A} statusText.
Arguments FetchBody {A} data.

(** The process environment and the providers' behaviour.  Each oracle
    receives the number of requests sent before, so that a provider may
    answer the same request differently over time. *)
Record Env := mkEnv {
  AI_PROVIDER : option string;
  OPENAI_API_KEY : option string;
  GROQ_API_KEY : option string;
  OLLAMA_BASE_URL : option string;
  now : string;
  sdkEmbedding : nat -> Request -> Settled (option (list R));
  sdkChat : nat -> Request -> Settled string;
  fetchEmbedding : nat -> Request -> Fetched (option (list R));
  fetchChat : nat -> Request -> Fetched string
}.

Record State := mkState {
  vectorStores : gmap string Store.t;
  console : list LogLine;
  requests : list Request
}.

Inductive Result (A : Type) :=
| Ok (a : A)
| Throw (e : JsError).
Arguments Ok {A} a.
Arguments Throw {A} e.

(** Computations of the services: they read the environment, update
    the state and return or throw. *)
Definition M (A : Type) : Type := Env -> State -> Result A * State.

Definition ret {A} (a : A) : M A := fun _ st => (Ok a, st).

Definition bind {A B} (m : M A) (k : A -> M B) : M B :=
  fun env st =>
    match m env st with
    | (Ok a, st') => k a env st'
    | (Throw e, st') => (Throw e, st')
    end.

Definition throw {A} (e : JsError) : M A := fun _ st => (Throw e, st).

(** [try { m } catch (error) { handler error }]. *)
Definition tryCatch {A} (m : M A) (handler : JsError -> M A) : M A :=
  fun env st =>
    match m env st with
    | (Ok a, st') => (Ok a, st')
    | (Throw e, st') => handler e env st'
    end.

Declare Scope js_scope.
Delimit Scope js_scope with js.
Notation "x <- m ;; k" := (bind m (fun x => k))
  (at level 100, m at next level, right associativity) : js_scope.
Notation "m ;;; k" := (bind m (fun _ => k))
  (at level 100, right associativity) : js_scope.
Open Scope js_scope.

Definition askEnv : M Env := fun env st => (Ok env, st).

Definition getStores : M (gmap string Store.t) :=
  fun _ st => (Ok (vectorStores st), st).

Definition setStores (m : gmap string Store.t) : M unit :=
  fun _ st => (Ok tt, mkState m (console st) (requests st)).

Definition consoleWrite (l : LogLine) : M unit :=
  fun _ st => (Ok tt, mkState (vectorStores st) (console st ++ [l]) (requests st)).

Definition record (r : Request) : State -> State :=
  fun st => mkState (vectorStores st) (console st) (requests st ++ [r]).

(** The state after the requests [r] were sent and [lines] were written. *)
Definition after (st : State) (r : list Request) (lines : list LogLine) : State :=
  mkState (vectorStores st) (console st ++ lines) (requests st ++ r).

(** Awaiting a call of the OpenAI SDK; a request is recorded when it
    is sent. *)
Definition awaitSdk {A} (oracle : Env -> nat -> Request -> Settled A)
    (r : Request) : M A :=
  fun env st =>
    match oracle env (length (requests st)) r with
    | Resolved a => (Ok a, record r st)
    | Rejected m => (Throw (Error m), record r st)
    | NoClient m => (Throw (Error m), st)
    end.

(** Awaiting [fetch]: the response, not yet inspected. *)
Definition awaitFetch {A} (oracle : Env -> nat -> Request -> Fetched A)
    (r : Request) : M (Fetched A) :=
  fun env st => (Ok (oracle env (length (requests st)) r), record r st).

(* ===================================================================== *)
(** * aiProvider.service.js *)
(* ===================================================================== *)

Module AiProvider.

(** [AI_PROVIDERS]. *)
Definition OPENAI : string := "openai".
Definition OLLAMA : string := "ollama".
Definition GROQ : string := "groq".
Definition DEMO : string := "demo".

(** [process.env.AI_PROVIDER?.toLowerCase() || AI_PROVIDERS.DEMO]. *)
Definition getProvider (env : Env) : string :=
  match AI_PROVIDER env with
  | Some v => if Js.truthy (Js.toLowerCase v) then Js.toLowerCase v else DEMO
  | None => DEMO
  end.

(** The value of [providerConfigs[key]], when it is not [undefined].
    A property the object does not have is [None]. *)
Record Config := mkConfig {
  name : option string;
  embeddingModel : option string;
  chatModel : option string;
  requiresKey : option bool;
  keyEnvVar : option string;
  baseUrl : option string
}.

Definition orElse (v : option string) (d : string) : string :=
  match v with
  | Some s => if Js.truthy s then s else d
  | None => d
  end.

(** [providerConfigs[key]]: the four own properties, then the
    properties every object literal inherits from [Object.prototype].
    Two of those have a name [getProvider] can return, [constructor]
    (the function [Object], whose [name] is "Object") and [__proto__]
    (the prototype itself); the others contain capitals.  Every other
    key gives [undefined]. *)
Definition providerConfigs (env : Env) (key : string) : option Config :=
  if String.eqb key OPENAI then
    Some (mkConfig (Some "OpenAI") (Some "text-embedding-3-small")
                   (Some "gpt-4o-mini") (Some true) (Some "OPENAI_API_KEY") None)
  else if String.eqb key OLLAMA then
    Some (mkConfig (Some "Ollama (Local)") (Some "nomic-embed-text")
                   (Some "llama3.2") (Some false) None
                   (Some (orElse (OLLAMA_BASE_URL env) "http://localhost:11434")))
  else if String.eqb key GROQ then
    Some (mkConfig (Some "Groq (Free Tier)") None
                   (Some "llama-3.1-8b-instant") (Some true) (Some "GROQ_API_KEY") None)
  else if String.eqb key DEMO then
    Some (mkConfig (Some "Demo Mode") None None (Some false) None None)
  else if String.eqb key "constructor" then
    Some (mkConfig (Some "Object") None None None None None)
  else if String.eqb key "__proto__" then
    Some (mkConfig None None None None None None)
  else None.

(** Reading a property of [config], which throws when [config] is
    [undefined]. *)
Definition property {A} (config : option Config) (field : Config -> A)
    (fieldName : string) : M A :=
  match config with
  | Some c => ret (field c)
  | None => throw (TypeError ("Cannot read properties of undefined (reading '"
                              +:+ fieldName +:+ "')"))
  end.

(** [{ ...providerConfigs[key] }]: the spread copies the own
    enumerable properties of the value.  The four configurations are
    object literals and are copied whole; the function [Object] and
    [Object.prototype] have no such property, and spreading
    [undefined] adds nothing. *)
Definition spread (env : Env) (key : string) : Config :=
  if String.eqb key OPENAI || String.eqb key OLLAMA
     || String.eqb key GROQ || String.eqb key DEMO
  then match providerConfigs env key with
       | Some c => c
       | None => mkConfig None None None None None None
       end
  else mkConfig None None None None None None.

(** [getProviderConfig]: [{ provider, ...providerConfigs[provider] }],
    and the [name] of that object. *)
Definition getProviderConfig (env : Env) : string * Config :=
  (getProvider env, spread env (getProvider env)).

Definition getProviderConfigName (env : Env) : option string :=
  name (snd (getProviderConfig env)).

(** ** The offline embedding *)

(** [ToInt32], [<<] and [&] on 32-bit integers. *)
Definition toInt32 (z : Z) : Z := ((z + 2 ^ 31) mod 2 ^ 32 - 2 ^ 31)%Z.
Definition shiftLeft (a n : Z) : Z := toInt32 (Z.shiftl (toInt32 a) n).
Definition bitAnd (a b : Z) : Z := Z.land (toInt32 a) (toInt32 b).

Fixpoint hashFrom (str : string) (hash : Z) : Z :=
  match str with
  | EmptyString => hash
  | String c str' =>
      let char := Js.charCode c in
      let hash := (shiftLeft hash 5 - hash + char)%Z in
      let hash := bitAnd hash hash in
      hashFrom str' hash
  end.

(** [simpleHash]. *)
Definition simpleHash (str : string) : Z := hashFrom str 0.

Definition dimensions : nat := 384.

(** [text.toLowerCase().replace(/[^\w\s]/g, ' ').split(/\s+/)
    .filter(w => w.length > 2)]. *)
Definition replaceNonWord (c : ascii) : ascii :=
  if Js.isWord c || Js.isSpace c then c else " "%char.

Definition tokenize (text : string) : list string :=
  filter (fun w => 2 < String.length w)
         (Js.splitSpaces (Js.mapChars replaceNonWord (Js.toLowerCase text))).

(** [Math.abs(hash) % 384]. *)
Definition position (word : string) : nat :=
  Z.to_nat (Z.abs (simpleHash word) mod 384).

(** [1 / (1 + idx * 0.1)]. *)
Definition weight (idx : nat) : R := 1 / (1 + INR idx * (1 / 10)).

(** [words.forEach((word, idx) => ...)], from index [idx] on. *)
Fixpoint accumulate (idx : nat) (words : list string) (embedding : list R) : list R :=
  match words with
  | [] => embedding
  | word :: words' =>
      accumulate (S idx) words'
                 (alter (fun v => (v + weight idx)%R) (position word) embedding)
  end.

(** [Math.sqrt(embedding.reduce((sum, val) => sum + val * val, 0))]. *)
Definition magnitudeOf (embedding : list R) : R :=
  sqrt (fold_left (fun sum val => (sum + val * val)%R) embedding 0%R).

(** [createSimpleEmbedding]. *)
Definition createSimpleEmbedding (text : string) : list R :=
  let words := tokenize text in
  let embedding := accumulate 0 words (replicate dimensions 0%R) in
  let magnitude := magnitudeOf embedding in
  if Rgt_dec magnitude 0
  then map (fun v => (v / magnitude)%R) embedding
  else embedding.

(** ** The demo completion *)

Definition CR : ascii := ascii_of_nat 13.

(** Line terminators, which [.] does not match. *)
Definition isLineTerminator (c : ascii) : bool := Ascii.eqb c Js.LF || Ascii.eqb c CR.

(** [(.+?)(?:\n|$)] at the start of [s]: the shortest non-empty run
    without line terminator that a line feed or the end follows. *)
Fixpoint lazyLine (s : string) : option string :=
  match s with
  | EmptyString => None
  | String c s' =>
      if isLineTerminator c then None
      else match s' with
           | EmptyString => Some (String c EmptyString)
           | String d _ =>
               if Ascii.eqb d Js.LF then Some (String c EmptyString)
               else match lazyLine s' with
                    | Some r => Some (String c r)
                    | None => None
                    end
           end
  end.

(** [\s*(.+?)(?:\n|$)]: the greedy [\s*] gives characters back one
    by one until the rest matches. *)
Fixpoint spacesThenLazyLine (s : string) : option string :=
  match s with
  | EmptyString => None
  | String c s' =>
      if Js.isSpace c then
        match spacesThenLazyLine s' with
        | Some r => Some r
        | None => lazyLine s
        end
      else lazyLine s
  end.

Fixpoint dropChars (n : nat) (s : string) : string :=
  match n, s with
  | S n', String _ s' => dropChars n' s'
  | _, _ => s
  end.

(** [userPrompt.match(/Question:\s*(.+?)(?:\n|$)/i)], group 1 of the
    leftmost match. *)
Fixpoint matchQuestion (s : string) : option string :=
  match s with
  | EmptyString => None
  | String _ s' =>
      let here :=
        if String.prefix "question:" (Js.toLowerCase s)
        then spacesThenLazyLine (dropChars 9 s) else None in
      match here with
      | Some r => Some r
      | None => matchQuestion s'
      end
  end.

(** [[^\n]+] at the start of [s]: the longest run without line feed. *)
Fixpoint greedyLine (s : string) : string :=
  match s with
  | EmptyString => EmptyString
  | String c s' => if Ascii.eqb c Js.LF then EmptyString else String c (greedyLine s')
  end.

(** [\s*([^\n]+)]: group 1 and the number of characters matched. *)
Fixpoint spacesThenGreedyLine (s : string) : option (string * nat) :=
  match s with
  | EmptyString => None
  | String c s' =>
      if Js.isSpace c then
        match spacesThenGreedyLine s' with
        | Some (r, n) => Some (r, S n)
        | None =>
            if Ascii.eqb c Js.LF then None
            else Some (greedyLine s, String.length (greedyLine s))
        end
      else Some (greedyLine s, String.length (greedyLine s))
  end.

(** [userPrompt.matchAll(/File:\s*([^\n]+)/g)], the groups 1 of the
    successive matches; [skip] characters belong to the previous
    match. *)
Fixpoint matchFilesFrom (skip : nat) (s : string) : list string :=
  match s with
  | EmptyString => []
  | String _ s' =>
      match skip with
      | S k => matchFilesFrom k s'
      | O =>
          let here :=
            if String.prefix "File:" s
            then spacesThenGreedyLine (dropChars 5 s) else None in
          match here with
          | Some (r, n) => r :: matchFilesFrom (4 + n) s'
          | None => matchFilesFrom 0 s'
          end
      end
  end.

Definition matchFiles (s : string) : list string := matchFilesFrom 0 s.

Definition quote : string := String (ascii_of_nat 34) EmptyString.

(** [generateDemoCompletion]. *)
Definition generateDemoCompletion (userPrompt : string) : string :=
  let question :=
    match matchQuestion userPrompt with
    | Some q => q
    | None => "your question"
    end in
  let files := Js.slice 0 3 (matchFiles userPrompt) in
  let response := "## Demo Mode Response" +:+ Js.NL +:+ Js.NL in
  let response := response +:+ "I analyzed your codebase to answer: "
                  +:+ quote +:+ question +:+ quote +:+ Js.NL +:+ Js.NL in
  let response :=
    if bool_decide (0 < length files) then
      fold_left (fun acc file => acc +:+ "- `" +:+ file +:+ "`" +:+ Js.NL)
                files (response +:+ "### Relevant Files Found:" +:+ Js.NL)
      +:+ Js.NL
    else response in
  let response := response +:+ "### Analysis:" +:+ Js.NL in
  let response := response +:+ "In **demo mode**, I'm providing a simulated response. " in
  let response := response +:+ "The semantic search found relevant code sections based on keyword matching." +:+ Js.NL +:+ Js.NL in
  let response := response +:+ "To get AI-powered answers, configure one of these providers:" +:+ Js.NL +:+ Js.NL in
  let response := response +:+ "1. **Ollama (Free, Local)**" +:+ Js.NL in
  let response := response +:+ "   - Install: `brew install ollama` or download from ollama.ai" +:+ Js.NL in
  let response := response +:+ "   - Run: `ollama serve` then `ollama pull llama3.2`" +:+ Js.NL in
  let response := response +:+ "   - Set: `AI_PROVIDER=ollama`" +:+ Js.NL +:+ Js.NL in
  let response := response +:+ "2. **Groq (Free Tier)**" +:+ Js.NL in
  let response := response +:+ "   - Get API key from console.groq.com" +:+ Js.NL in
  let response := response +:+ "   - Set: `AI_PROVIDER=groq` and `GROQ_API_KEY=your-key`" +:+ Js.NL +:+ Js.NL in
  let response := response +:+ "3. **OpenAI**" +:+ Js.NL in
  let response := response +:+ "   - Set: `AI_PROVIDER=openai` and `OPENAI_API_KEY=your-key`" +:+ Js.NL in
  response.

(** ** The provider calls *)

(** The bound of [text.slice(0, 8000)]. *)
Definition inputLimit : nat := 80 * 100.

(** [createOpenAIEmbedding]: [getOpenAIClient()] and the request are
    one awaited call of the SDK inside the [try]; its failure is logged
    and thrown again. *)
Definition createOpenAIEmbedding (text : string) (config : option Config)
    : M (option (list R)) :=
  tryCatch
    (model <- property config embeddingModel "embeddingModel";;
     awaitSdk sdkEmbedding (OpenAIEmbeddings model (Js.stringSliceTo inputLimit text)))
    (fun error =>
       consoleWrite (ErrOpenAIEmbedding (messageOf error));;;
       throw error).

(** [generateOpenAICompletion], with [getOpenAIClient()] inside the
    [try] as well. *)
Definition generateOpenAICompletion (systemPrompt userPrompt : string)
    (config : option Config) : M string :=
  tryCatch
    (model <- property config chatModel "chatModel";;
     awaitSdk sdkChat (OpenAIChat model systemPrompt userPrompt))
    (fun error =>
       consoleWrite (ErrOpenAICompletion (messageOf error));;;
       throw error).

(** [createOllamaEmbedding]: any failure falls back to the offline
    embedding. *)
Definition createOllamaEmbedding (text : string) (config : option Config)
    : M (option (list R)) :=
  tryCatch
    (url <- property config baseUrl "baseUrl";;
     model <- property config embeddingModel "embeddingModel";;
     response <- awaitFetch fetchEmbedding
                   (OllamaEmbeddings url model (Js.stringSliceTo inputLimit text));;
     match response with
     | FetchRejected m => throw (Error m)
     | FetchNotOk statusText => throw (Error ("Ollama error: " +:+ statusText))
     | FetchBody data => ret data
     end)
    (fun error =>
       consoleWrite (ErrOllamaEmbedding (messageOf error));;;
       consoleWrite WarnFallingBack;;;
       ret (Some (createSimpleEmbedding text))).

(** [generateOllamaCompletion]: any failure is replaced by one fixed
    error. *)
Definition generateOllamaCompletion (systemPrompt userPrompt : string)
    (config : option Config) : M string :=
  tryCatch
    (url <- property config baseUrl "baseUrl";;
     model <- property config chatModel "chatModel";;
     response <- awaitFetch fetchChat (OllamaChat url model systemPrompt userPrompt);;
     match response with
     | FetchRejected m => throw (Error m)
     | FetchNotOk statusText => throw (Error ("Ollama error: " +:+ statusText))
     | FetchBody data => ret data
     end)
    (fun error =>
       consoleWrite (ErrOllamaCompletion (messageOf error));;;
       throw (Error "Ollama is not running. Start it with: ollama serve")).

(** [generateGroqCompletion], with [getGroqClient()] inside the
    [try]. *)
Definition generateGroqCompletion (systemPrompt userPrompt : string)
    (config : option Config) : M string :=
  tryCatch
    (model <- property config chatModel "chatModel";;
     awaitSdk sdkChat (GroqChat model systemPrompt userPrompt))
    (fun error =>
       consoleWrite (ErrGroqCompletion (messageOf error));;;
       throw error).

(** [createEmbedding]: the [switch] on the provider key. *)
Definition createEmbedding (text : string) : M (option (list R)) :=
  env <- askEnv;;
  let provider := getProvider env in
  let config := providerConfigs env provider in
  if String.eqb provider OPENAI then createOpenAIEmbedding text config
  else if String.eqb provider OLLAMA then createOllamaEmbedding text config
  else if String.eqb provider GROQ || String.eqb provider DEMO
  then ret (Some (createSimpleEmbedding text))
  else ret (Some (createSimpleEmbedding text)).

(** [generateCompletion]. *)
Definition generateCompletion (systemPrompt userPrompt : string) : M string :=
  env <- askEnv;;
  let provider := getProvider env in
  let config := providerConfigs env provider in
  if String.eqb provider OPENAI
  then generateOpenAICompletion systemPrompt userPrompt config
  else if String.eqb provider OLLAMA
  then generateOllamaCompletion systemPrompt userPrompt config
  else if String.eqb provider GROQ
  then generateGroqCompletion systemPrompt userPrompt config
  else if String.eqb provider DEMO
  then ret (generateDemoCompletion userPrompt)
  else ret (generateDemoCompletion userPrompt).

(** ** Provider status *)

Record Status := mkStatus {
  statusProvider : string;
  statusName : option string;
  isConfigured : bool;
  statusMessage : string
}.

(** [process.env[name]] for the names the configurations mention. *)
Definition processEnv (env : Env) (varName : option string) : option string :=
  match varName with
  | Some v =>
      if String.eqb v "OPENAI_API_KEY" then OPENAI_API_KEY env
      else if String.eqb v "GROQ_API_KEY" then GROQ_API_KEY env
      else None
  | None => None
  end.

(** A value inside a template literal. *)
Definition interpolate (v : option string) : string :=
  match v with Some s => s | None => "undefined" end.

Definition isTruthy (v : option string) : bool :=
  match v with Some s => Js.truthy s | None => false end.

(** [getProviderStatus]: [config.name] is read first, whatever the
    key. *)
Definition getProviderStatus : M Status :=
  env <- askEnv;;
  let provider := getProvider env in
  let config := providerConfigs env provider in
  configName <- property config name "name";;
  requires <- property config requiresKey "requiresKey";;
  if bool_decide (requires = Some true) then
    keyVar <- property config keyEnvVar "keyEnvVar";;
    model <- property config chatModel "chatModel";;
    let apiKey := processEnv env keyVar in
    ret (mkStatus provider configName (isTruthy apiKey)
           (if isTruthy apiKey
            then "Using " +:+ interpolate configName +:+ " with " +:+ interpolate model
            else "Missing " +:+ interpolate keyVar +:+ " environment variable"))
  else if String.eqb provider OLLAMA then
    url <- property config baseUrl "baseUrl";;
    ret (mkStatus provider configName true
           ("Using Ollama at " +:+ interpolate url +:+ ". Make sure Ollama is running."))
  else if String.eqb provider DEMO then
    ret (mkStatus provider configName true
           "Demo mode - semantic search works, AI responses are simulated")
  else ret (mkStatus provider configName true "").

(** The statements the module runs when it is imported:
    [const status = getProviderStatus()] and the two [console.log]. *)
Definition moduleLoad : M unit :=
  status <- getProviderStatus;;
  consoleWrite (LogProvider (statusName status) (statusMessage status)).

End AiProvider.

(* ===================================================================== *)
(** * vectorStore.service.js: the project index *)
(* ===================================================================== *)

Module Options.
(** The [options] of [searchCode]: a missing, [undefined] or [null]
    property is [None]; [limit] is an integer. *)
Record t := mk {
  language : option string;
  folder : option string;
  limit : option Z
}.
Definition none : t := mk None None None.
End Options.

Module VectorStore.

(** Running the body of a [for ... of] loop over [items], the loop
    variables being threaded through. *)
Fixpoint forOf {A S} (items : list A) (body : A -> S -> M S) (s : S) : M S :=
  match items with
  | [] => ret s
  | x :: items' => s' <- body x s;; forOf items' body s'
  end.

Definition when (b : bool) (m : M unit) : M unit := if b then m else ret tt.

(** The local variables of [indexProject]. *)
Record Progress := mkProgress {
  vectors : list Chunk.t;
  processedChunks : nat;
  errors : nat
}.

(** The [try]/[catch] around one chunk. *)
Definition embedChunk (chunk : Chunk.t) (p : Progress) : M Progress :=
  tryCatch
    (embedding <- AiProvider.createEmbedding (Chunk.content chunk);;
     let processed := S (processedChunks p) in
     when (Nat.eqb (processed mod 10) 0) (consoleWrite (LogProcessed processed));;;
     ret (mkProgress (vectors p ++ [Chunk.withEmbedding chunk embedding])
                     processed (errors p)))
    (fun error =>
       let errors' := S (errors p) in
       when (Nat.leb errors' 3)
            (consoleWrite (WarnCouldNotEmbed (Chunk.path chunk) (messageOf error)));;;
       ret (mkProgress (vectors p) (processedChunks p) errors')).

(** [indexProject]. *)
Definition indexProject (projectId : string) (files : list File.t) : M Stats.t :=
  consoleWrite (LogIndexing projectId (length files));;;
  p <- forOf files
         (fun file p => forOf (Chunker.chunkContent file) embedChunk p)
         (mkProgress [] 0 0);;
  when (Nat.ltb 3 (errors p)) (consoleWrite (WarnMoreErrors (errors p - 3)));;;
  env <- askEnv;;
  stores <- getStores;;
  setStores (<[projectId :=
                 Store.mk (vectors p) files (now env)
                   (Stats.mk (length files) (length (vectors p))
                             (Js.distinct (map File.language files)))]> stores);;;
  consoleWrite (LogIndexed (length (vectors p)) projectId);;;
  stores <- getStores;;
  match stores !! projectId with
  | Some store => ret (Store.stats store)
  | None => throw (TypeError "Cannot read properties of undefined (reading 'stats')")
  end.

(** The loop of [cosineSimilarity] over the common indices. *)
Definition sums (vecA vecB : list R) : R * R * R :=
  fold_left
    (fun '(dotProduct, normA, normB) '(a, b) =>
       (dotProduct + a * b, normA + a * a, normB + b * b)%R)
    (combine vecA vecB) (0, 0, 0)%R.

(** [cosineSimilarity]; [None] is a vector that is [null] or
    [undefined]. *)
Definition cosineSimilarity (vecA vecB : option (list R)) : R :=
  match vecA, vecB with
  | Some a, Some b =>
      if bool_decide (length a ≠ length b) then 0%R
      else
        let '(dotProduct, normA, normB) := sums a b in
        let denominator := (sqrt normA * sqrt normB)%R in
        if Rgt_dec denominator 0 then (dotProduct / denominator)%R else 0%R
  | _, _ => 0%R
  end.

(** The comparator [(a, b) => b.similarity - a.similarity]; a
    missing similarity makes the difference [NaN], here [None]. *)
Definition bySimilarity (a b : Chunk.t) : option R :=
  match Chunk.similarity b, Chunk.similarity a with
  | Some sb, Some sa => Some (sb - sa)%R
  | _, _ => None
  end.

(** [Array.prototype.sort] with a comparator.  The sort is stable and
    a comparator result that is [NaN] counts as 0, so an element moves
    behind another one only when the comparator is positive.  For a
    consistent comparator every stable sort gives the list computed
    here by insertion. *)
Definition positive (v : option R) : bool :=
  match v with
  | Some r => if Rgt_dec r 0 then true else false
  | None => false
  end.

Fixpoint insert {A} (compareFn : A -> A -> option R) (x : A) (sorted : list A) : list A :=
  match sorted with
  | [] => [x]
  | y :: sorted' =>
      if positive (compareFn x y) then y :: insert compareFn x sorted'
      else x :: sorted
  end.

Definition sort {A} (compareFn : A -> A -> option R) (a : list A) : list A :=
  foldr (insert compareFn) [] a.

(** [options.limit || 10]. *)
Definition limitOrDefault (limit : option Z) : Z :=
  match limit with
  | Some n => if (n =? 0)%Z then 10%Z else n
  | None => 10%Z
  end.

Definition optionTruthy (v : option string) : bool :=
  match v with Some s => Js.truthy s | None => false end.

(** The part of [searchCode] after the query has been embedded. *)
Definition rank (queryEmbedding : option (list R)) (stored : list Chunk.t)
    (options : Options.t) : list Chunk.t :=
  let results :=
    map (fun chunk =>
           Chunk.withSimilarity chunk
             (cosineSimilarity queryEmbedding (Chunk.embedding chunk)))
        stored in
  let results :=
    if optionTruthy (Options.language options)
    then filter (fun r => Some (Chunk.language r) = Options.language options) results
    else results in
  let results :=
    match Options.folder options with
    | Some folder =>
        if Js.truthy folder
        then filter (fun r => Js.startsWith (Chunk.folder r) folder = true) results
        else results
    | None => results
    end in
  let results := sort bySimilarity results in
  map Chunk.withoutEmbedding
      (Js.sliceTo (limitOrDefault (Options.limit options)) results).

Definition projectNotFound (projectId : string) : JsError :=
  Error ("Project " +:+ projectId
         +:+ " not found. Please upload and index a codebase first.").

(** [searchCode]. *)
Definition searchCode (projectId query : string) (options : Options.t)
    : M (list Chunk.t) :=
  stores <- getStores;;
  match stores !! projectId with
  | None => throw (projectNotFound projectId)
  | Some store =>
      queryEmbedding <- AiProvider.createEmbedding query;;
      ret (rank queryEmbedding (Store.vectors store) options)
  end.

(** [getProjectStats], [getProjectFiles], [projectExists],
    [deleteProject]. *)
Definition getProjectStats (projectId : string) : M (option Stats.t) :=
  stores <- getStores;; ret (Store.stats <$> stores !! projectId).

Definition getProjectFiles (projectId : string) : M (option (list File.t)) :=
  stores <- getStores;; ret (Store.files <$> stores !! projectId).

Definition projectExists (projectId : string) : M bool :=
  stores <- getStores;; ret (bool_decide (is_Some (stores !! projectId))).

Definition deleteProject (projectId : string) : M bool :=
  stores <- getStores;;
  setStores (delete projectId stores);;;
  ret (bool_decide (is_Some (stores !! projectId))).

End VectorStore.

(* ===================================================================== *)
(** * cosineSimilarity on doubles *)
(* ===================================================================== *)

(** [cosineSimilarity] once more, on the numbers of JavaScript: IEEE
    754 binary64 floating-point numbers ([float]).  Every [*], [+=],
    [/] and [Math.sqrt] rounds to the nearest double, overflows to an
    infinity and underflows to zero; a comparison with [NaN] is false.
    [VectorStore.cosineSimilarity] is the same function in exact
    arithmetic. *)
Module Ieee.

(** The loop: the three accumulators after the common indices. *)
Fixpoint sums (vecA vecB : list float) (dotProduct normA normB : float)
    : float * float * float :=
  match vecA, vecB with
  | a :: vecA', b :: vecB' =>
      sums vecA' vecB' (dotProduct + a * b)%float (normA + a * a)%float
           (normB + b * b)%float
  | _, _ => (dotProduct, normA, normB)
  end.

Definition cosineSimilarity (vecA vecB : option (list float)) : float :=
  match vecA, vecB with
  | Some a, Some b =>
      if bool_decide (length a ≠ length b) then 0%float
      else
        let '(dotProduct, normA, normB) := sums a b 0%float 0%float 0%float in
        let denominator := (PrimFloat.sqrt normA * PrimFloat.sqrt normB)%float in
        if (0 <? denominator)%float then (dotProduct / denominator)%float
        else 0%float
  | _, _ => 0%float
  end.

(** The value of [normA] after the loop over a vector. *)
Definition sumSquares (v : list float) : float :=
  fold_left (fun norm x => (norm + x * x)%float) v 0%float.


End Ieee.

(* ===================================================================== *)
(** * qa.service.js *)
(* ===================================================================== *)

Inductive Confidence := high | medium | low.

Module Reference.
(** [similarity] is [Math.round(chunk.similarity * 100)], [None] when
    that is [NaN]. *)
Record t := mk {
  file : string;
  fileName : string;
  startLine : nat;
  endLine : nat;
  language : string;
  folder : string;
  similarity : option Z;
  preview : string;
  isSummary : bool
}.
End Reference.

Module Answer.
(** The object [answerQuestion] returns.  A property the object does
    not have is [None]; [provider] holds [getProviderConfig().name],
    which may itself be [undefined]. *)
Record t := mk {
  answer : string;
  references : list Reference.t;
  confidence : Confidence;
  relevantFiles : option (list string);
  provider : option (option string)
}.
End Answer.

Module Explanation.
Record t := mk {
  explanation : string;
  path : string;
  fileName : string;
  language : string;
  lineCount : nat;
  structures : list CodeStructure.t;
  provider : option string
}.
End Explanation.

Module Qa.

(** [buildContext]. *)
Definition buildContext (chunks : list Chunk.t) : string :=
  fold_left
    (fun context chunk =>
       context
       +:+ Js.NL +:+ "--- File: " +:+ Chunk.path chunk
       +:+ " (lines " +:+ pretty (Chunk.startLine chunk)
       +:+ "-" +:+ pretty (Chunk.endLine chunk) +:+ ") ---" +:+ Js.NL
       +:+ Chunk.content chunk
       +:+ Js.NL)
    chunks "".

Definition answerSystemPrompt : string :=
  "You are a helpful code assistant analyzing a codebase. Your job is to answer questions about the code accurately and helpfully.

Guidelines:
- Always reference specific files and line numbers when discussing code
- Explain code in clear, understandable terms
- If you're not sure about something, say so
- Provide code examples when helpful
- Focus on the most relevant parts of the code for the question
- If asked about specific functions or features, explain what they do and how they work".

Definition answerUserPrompt (question context : string) : string :=
  "Based on the following code context from the codebase, please answer this question:

Question: " +:+ question +:+ "

Code Context:
" +:+ context +:+ "

Please provide a clear, detailed answer with specific file and line references where applicable.".

(** [generateAnswer]. *)
Definition generateAnswer (question context : string) : M string :=
  tryCatch
    (AiProvider.generateCompletion answerSystemPrompt
                                   (answerUserPrompt question context))
    (fun error =>
       consoleWrite (ErrGeneratingAnswer (messageOf error));;;
       throw (Error ("Failed to generate answer: " +:+ messageOf error))).

(** [Math.round]: the integer nearest to [x], halves going up. *)
Definition round (x : R) : Z := Int_part (x + / 2).

(** [formatReferences]. *)
Definition formatReference (chunk : Chunk.t) : Reference.t :=
  Reference.mk
    (Chunk.path chunk) (Chunk.fileName chunk)
    (Chunk.startLine chunk) (Chunk.endLine chunk)
    (Chunk.language chunk) (Chunk.folder chunk)
    ((fun s => round (s * 100)) <$> Chunk.similarity chunk)
    (Js.joinLines (Js.slice 0 5 (Js.splitLines (Chunk.content chunk))))
    (match Chunk.isSummary chunk with Some b => b | None => false end).

Definition formatReferences (chunks : list Chunk.t) : list Reference.t :=
  map formatReference chunks.

(** The confidence label: [similarity > 0.8], [similarity > 0.6];
    both tests fail on a missing similarity. *)
Definition confidenceOf (similarity : option R) : Confidence :=
  match similarity with
  | Some s =>
      if Rgt_dec s (8 / 10) then high
      else if Rgt_dec s (6 / 10) then medium
      else low
  | None => low
  end.

Definition noResultsAnswer : string :=
  "I couldn't find any relevant code in the codebase to answer your question. Please make sure the codebase is properly indexed.".

(** [answerQuestion]: the caller's options with [limit: 8]. *)
Definition answerQuestion (projectId question : string) (options : Options.t)
    : M Answer.t :=
  consoleWrite (LogProcessingQuestion projectId question);;;
  relevantChunks <- VectorStore.searchCode projectId question
                      (Options.mk (Options.language options)
                                  (Options.folder options) (Some 8%Z));;
  match relevantChunks with
  | [] => ret (Answer.mk noResultsAnswer [] low None None)
  | top :: _ =>
      let context := buildContext relevantChunks in
      answer <- generateAnswer question context;;
      let references := formatReferences relevantChunks in
      env <- askEnv;;
      ret (Answer.mk answer references
                     (confidenceOf (Chunk.similarity top))
                     (Some (Js.distinct (map Chunk.path relevantChunks)))
                     (Some (AiProvider.getProviderConfigName env)))
  end.

(** [files.some(f => f.structures?.some(s => s.type === type))]. *)
Definition hasStructure (type : string) (files : list File.t) : bool :=
  existsb (fun f => existsb (fun s => String.eqb (CodeStructure.type s) type)
                            (File.structures f))
          files.

(** [getSuggestedQuestions]; [push] appends to the array. *)
Definition push (a : list string) (x : string) : list string := (a ++ [x])%list.

Definition getSuggestedQuestions (projectId : string) : M (list string) :=
  files <- VectorStore.getProjectFiles projectId;;
  match files with
  | None => ret []
  | Some files =>
      if Nat.eqb (length files) 0 then ret []
      else
        let suggestions := [] in
        let hasComponents := hasStructure "component" files in
        let hasClasses := hasStructure "class" files in
        let hasInterfaces := hasStructure "interface" files in
        let languages := Js.distinct (map File.language files) in
        let suggestions :=
          push suggestions "What is the overall architecture of this codebase?" in
        let suggestions :=
          push suggestions "What are the main entry points of this application?" in
        let suggestions :=
          if Js.includes languages "typescript" || Js.includes languages "javascript"
          then push (push suggestions "Where is the main configuration located?")
                    "How is error handling implemented?"
          else suggestions in
        let suggestions :=
          if hasComponents
          then push suggestions "What are the main UI components in this project?"
          else suggestions in
        let suggestions :=
          if hasClasses
          then push suggestions "What are the main classes and their responsibilities?"
          else suggestions in
        let suggestions :=
          if hasInterfaces
          then push suggestions "What data models or interfaces are defined?"
          else suggestions in
        let suggestions := push suggestions "Where is authentication handled?" in
        let suggestions := push suggestions "How is data validation implemented?" in
        ret (Js.slice 0 8 suggestions)
  end.

Definition fileNotFound (filePath : string) : JsError :=
  Error ("File " +:+ filePath +:+ " not found in project").

Definition explainSystemPrompt : string :=
  "You are a code documentation expert. Analyze the given code file and provide a clear, structured explanation.".

Definition explainUserPrompt (file : File.t) : string :=
  "Please analyze and explain this " +:+ File.language file +:+ " file:

File: " +:+ File.path file +:+ "

```" +:+ File.language file +:+ "
" +:+ File.content file +:+ "
```

Provide:
1. A brief overview of what this file does
2. Key functions/classes and their purposes
3. How this file likely fits into the larger application
4. Any notable patterns or best practices used".

(** [files?.find(f => f.path === filePath)]. *)
Definition findFile (files : option (list File.t)) (filePath : string) : option File.t :=
  match files with
  | Some fs => List.find (fun f => String.eqb (File.path f) filePath) fs
  | None => None
  end.

(** [explainFile]. *)
Definition explainFile (projectId filePath : string) : M Explanation.t :=
  files <- VectorStore.getProjectFiles projectId;;
  match findFile files filePath with
  | None => throw (fileNotFound filePath)
  | Some file =>
      tryCatch
        (explanation <- AiProvider.generateCompletion explainSystemPrompt
                          (explainUserPrompt file);;
         env <- askEnv;;
         ret (Explanation.mk explanation (File.path file) (File.fileName file)
                (File.language file) (File.lineCount file) (File.structures file)
                (AiProvider.getProviderConfigName env)))
        (fun error =>
           consoleWrite (ErrExplainingFile (messageOf error));;;
           throw error)
  end.

End Qa.

(* ===================================================================== *)
(** * parser.service.js: the folder structure *)
(* ===================================================================== *)

(** An entry of the [files] array of a folder. *)
Module FolderFile.
Record t := mk {
  name : string;
  path : string;
  language : string;
  lineCount : nat
}.
End FolderFile.

(** A folder as [getFolderStructure] returns it. *)
Module FolderInfo.
Record t := mk {
  path : string;
  files : list FolderFile.t;
  fileCount : nat;
  languages : list string
}.
End FolderInfo.

Module Parser.

(** [set.add(x)] on a [Set] of strings, held as the list of its
    elements in insertion order. *)
Definition setAdd (x : string) (s : list string) : list string :=
  if bool_decide (x ∈ s) then s else (s ++ [x])%list.

(** The [Map] of [getFolderStructure] is held as the list of its values
    in insertion order; the key of a value is its [path].
    [folders.has(folder)]: *)
Definition has (folder : string) (folders : list FolderInfo.t) : bool :=
  existsb (fun info => String.eqb (FolderInfo.path info) folder) folders.

(** The updates of the object [folders.get(folder)]. *)
Fixpoint update (folder : string) (f : FolderInfo.t -> FolderInfo.t)
    (folders : list FolderInfo.t) : list FolderInfo.t :=
  match folders with
  | [] => []
  | info :: folders' =>
      if String.eqb (FolderInfo.path info) folder then f info :: folders'
      else info :: update folder f folders'
  end.

(** The body of [files.forEach]. *)
Definition addFile (folders : list FolderInfo.t) (file : File.t)
    : list FolderInfo.t :=
  let folder := if Js.truthy (File.folder file) then File.folder file else "/" in
  let folders :=
    if has folder folders then folders
    else (folders ++ [FolderInfo.mk folder [] 0 []])%list in
  update folder
    (fun folderInfo =>
       FolderInfo.mk
         (FolderInfo.path folderInfo)
         (FolderInfo.files folderInfo
          ++ [FolderFile.mk (File.fileName file) (File.path file)
                            (File.language file) (File.lineCount file)])%list
         (S (FolderInfo.fileCount folderInfo))
         (setAdd (File.language file) (FolderInfo.languages folderInfo)))
    folders.

(** [getFolderStructure]; the final [map] turns each set of languages
    into the array of its elements, which the list already is. *)
Definition getFolderStructure (files : list File.t) : list FolderInfo.t :=
  fold_left addFile files [].

End Parser.

(* ===================================================================== *)
(** * qa.routes.js: the handlers of the question routes *)
(* ===================================================================== *)

(** The console of the server: the lines of the services, and the lines
    the handlers write themselves, one constructor per call site. *)
Inductive ServerLine :=
| FromService (line : LogLine)
| LogQuestion (projectId question : string)
| ErrQA (error : JsError)
| ErrSuggestions (error : JsError)
| ErrExplainFile (error : JsError).

Record Server := mkServer {
  projects : gmap string Store.t;
  terminal : list ServerLine;
  traffic : list Request
}.

(** The JSON bodies the handlers send. *)
Inductive Payload :=
| Failure (error : string) (message : option string)
| Answered (result : Answer.t)
| Suggested (suggestions : list string)
| Explained (result : Explanation.t).

(** [res.status(status).json(payload)]; [res.json] sends status 200. *)
Record Response := mkResponse {
  status : nat;
  payload : Payload
}.

(** The bodies of the two POST requests, as [express.json()] leaves them
    in [req.body]: a property that is missing or [null] is [None], a
    property that is present is a string ([options] an object). *)
Module AskBody.
Record t := mk {
  projectId : option string;
  question : option string;
  options : option Options.t
}.
End AskBody.

Module ExplainBody.
Record t := mk {
  projectId : option string;
  filePath : option string
}.
End ExplainBody.

Module Routes.

(** Computations of the handlers. *)
Definition H (A : Type) : Type := Env -> Server -> Result A * Server.

Definition ret {A} (a : A) : H A := fun _ sv => (Ok a, sv).

Definition bind {A B} (m : H A) (k : A -> H B) : H B :=
  fun env sv =>
    match m env sv with
    | (Ok a, sv') => k a env sv'
    | (Throw e, sv') => (Throw e, sv')
    end.

Definition tryCatch {A} (m : H A) (handler : JsError -> H A) : H A :=
  fun env sv =>
    match m env sv with
    | (Ok a, sv') => (Ok a, sv')
    | (Throw e, sv') => handler e env sv'
    end.

Declare Scope routes_scope.
Notation "x <- m ;; k" := (bind m (fun x => k))
  (at level 100, m at next level, right associativity) : routes_scope.
Notation "m ;;; k" := (bind m (fun _ => k))
  (at level 100, right associativity) : routes_scope.
Local Open Scope routes_scope.

Definition consoleWrite (l : ServerLine) : H unit :=
  fun _ sv => (Ok tt, mkServer (projects sv) (terminal sv ++ [l]) (traffic sv)).

(** Calling a service: it works on the project map and sends its
    requests after those sent before; the lines it writes go to the
    console in the order written. *)
Definition service {A} (m : M A) : H A :=
  fun env sv =>
    let '(result, st) := m env (mkState (projects sv) [] (traffic sv)) in
    (result,
     mkServer (vectorStores st) (terminal sv ++ map FromService (console st))%list
              (requests st)).

(** [res.status(status).json(...)] and [res.json(...)]. *)
Definition respond (status : nat) (payload : Payload) : H Response :=
  ret (mkResponse status payload).

Definition projectNotFound : Payload :=
  Failure "Project not found" (Some "Please upload a codebase first").

(** [router.post('/ask', ...)]. *)
Definition ask (body : AskBody.t) : H Response :=
  tryCatch
    (let projectId := AskBody.projectId body in
     let question := AskBody.question body in
     let options :=
       match AskBody.options body with Some o => o | None => Options.none end in
     match projectId with
     | None => respond 400 (Failure "Project ID is required" None)
     | Some projectId =>
         if negb (Js.truthy projectId)
         then respond 400 (Failure "Project ID is required" None)
         else
           match question with
           | None => respond 400 (Failure "Question is required" None)
           | Some question =>
               if negb (Js.truthy question)
                  || Nat.eqb (String.length (Js.trim question)) 0
               then respond 400 (Failure "Question is required" None)
               else
                 found <- service (VectorStore.projectExists projectId);;
                 if negb found then respond 404 projectNotFound
                 else
                   consoleWrite (LogQuestion projectId question);;;
                   result <- service (Qa.answerQuestion projectId (Js.trim question)
                                                        options);;
                   respond 200 (Answered result)
           end
     end)
    (fun error =>
       consoleWrite (ErrQA error);;;
       respond 500 (Failure "Failed to answer question" (Some (messageOf error)))).

(** [router.get('/suggestions/:projectId', ...)]. *)
Definition suggestions (projectId : string) : H Response :=
  tryCatch
    (found <- service (VectorStore.projectExists projectId);;
     if negb found then respond 404 projectNotFound
     else
       suggestions <- service (Qa.getSuggestedQuestions projectId);;
       respond 200 (Suggested suggestions))
    (fun error =>
       consoleWrite (ErrSuggestions error);;;
       respond 500 (Failure "Failed to get suggestions" (Some (messageOf error)))).

(** [router.post('/explain-file', ...)]. *)
Definition explainFile (body : ExplainBody.t) : H Response :=
  tryCatch
    (let projectId := ExplainBody.projectId body in
     let filePath := ExplainBody.filePath body in
     match projectId with
     | None => respond 400 (Failure "Project ID is required" None)
     | Some projectId =>
         if negb (Js.truthy projectId)
         then respond 400 (Failure "Project ID is required" None)
         else
           match filePath with
           | None => respond 400 (Failure "File path is required" None)
           | Some filePath =>
               if negb (Js.truthy filePath)
               then respond 400 (Failure "File path is required" None)
               else
                 found <- service (VectorStore.projectExists projectId);;
                 if negb found then respond 404 projectNotFound
                 else
                   result <- service (Qa.explainFile projectId filePath);;
                   respond 200 (Explained result)
           end
     end)
    (fun error =>
       consoleWrite (ErrExplainFile error);;;
       respond 500 (Failure "Failed to explain file" (Some (messageOf error)))).

End Routes.

(* ===================================================================== *)
(** * Vocabulary of the specification *)
(* ===================================================================== *)

Module Spec.

(** A string without visible text: every character is white space. *)
Fixpoint isBlank (s : string) : bool :=
  match s with
  | EmptyString => true
  | String c s' => Js.isSpace c && isBlank s'
  end.

(** [ceil(a / b)] on natural numbers. *)
Definition ceilDiv (a b : nat) : nat := (a + b - 1) / b.

(** The distance between two window starts. *)
Definition stride : nat := Chunker.chunkSize - Chunker.overlap.

(** The window starts of a file of [L] lines, counted from [i]: the
    values [i], [i + 40], [i + 80], ... below [L]. *)
Definition startsFrom (i L : nat) : list nat :=
  map (fun k => i + k * stride) (seq 0 (ceilDiv (L - i) stride)).

Definition windowStarts (L : nat) : list nat := startsFrom 0 L.

(** The number of windowed chunks as the specification states it:
    [ceil(max(L - 10, 0) / 40) + 1]. *)
Definition claimedWindows (L : nat) : nat :=
  ceilDiv (Nat.max (L - 10) 0) 40 + 1.

(** The chunks of a list that are not the summary chunk. *)
Definition windowed (chunks : list Chunk.t) : list Chunk.t :=
  filter (fun c => Chunk.isSummary c ≠ Some true) chunks.

(** The inner product, the sum of squares and the Euclidean norm of
    vectors of real numbers. *)
Fixpoint dot (a b : list R) : R :=
  match a, b with
  | x :: a', y :: b' => (x * y + dot a' b')%R
  | _, _ => 0%R
  end.

Definition sumSquares (v : list R) : R := dot v v.

Definition norm (v : list R) : R := sqrt (sumSquares v).

(** A vector with an entry that is not zero. *)
Definition nonZero (v : list R) : Prop := Exists (fun x => x <> 0%R) v.


(** A vector without negative entry. *)
Definition nonNegative (v : option (list R)) : Prop :=
  match v with
  | Some l => Forall (fun x => (0 <= x)%R) l
  | None => True
  end.


Fixpoint allChars (p : ascii -> bool) (s : string) : bool :=
  match s with
  | EmptyString => true
  | String c s' => p c && allChars p s'
  end.

(** The contribution [1/(1 + 0.1 * index)] of the token at [index]. *)
Definition contribution (index : nat) : R := 1 / (1 + 1 / 10 * INR index).

(** The sum of the contributions of the tokens that hash to [bucket],
    the first token of the list standing at [index]. *)
Fixpoint bucketSumFrom (index : nat) (tokens : list string) (bucket : nat) : R :=
  match tokens with
  | [] => 0%R
  | token :: tokens' =>
      ((if decide (AiProvider.position token = bucket)
        then contribution index else 0)
       + bucketSumFrom (S index) tokens' bucket)%R
  end.

(** The hash-bucketed bag of words, before it is normalized. *)
Definition hashedBag (tokens : list string) : list R :=
  map (bucketSumFrom 0 tokens) (seq 0 AiProvider.dimensions).

(** L2 normalization; a vector of norm zero is returned as it is. *)
Definition normalize (v : list R) : list R :=
  if Req_dec_T (norm v) 0 then v else map (fun x => (x / norm v)%R) v.

(** The offline embedding as the specification describes it. *)
Definition offlineEmbedding (text : string) : list R :=
  normalize (hashedBag (AiProvider.tokenize text)).

(** Equality of real numbers is decidable (classically). *)
#[global] Instance R_eq_dec : EqDecision R := Req_dec_T.

(** The similarity a ranked chunk carries. *)
Definition score (c : Chunk.t) : R :=
  match Chunk.similarity c with Some s => s | None => 0%R end.

(** The order of the ranking: the first chunk scores at least as high
    as the second. *)
Definition scoresAtLeast (a b : Chunk.t) : Prop := (score b <= score a)%R.

(** A stored chunk with the similarity of its embedding to the query. *)
Definition scored (queryEmbedding : option (list R)) (c : Chunk.t) : Chunk.t :=
  Chunk.withSimilarity c
    (VectorStore.cosineSimilarity queryEmbedding (Chunk.embedding c)).

(** The filters of a search: an exact language, a folder prefix; an
    absent or empty filter admits every chunk. *)
Definition admits (options : Options.t) (c : Chunk.t) : Prop :=
  match Options.language options with
  | Some l => l = EmptyString \/ Chunk.language c = l
  | None => True
  end
  /\ match Options.folder options with
     | Some f => f = EmptyString \/ Js.startsWith (Chunk.folder c) f = true
     | None => True
     end.

#[global] Instance admits_dec options c : Decision (admits options c).
Proof.
  unfold admits.
  destruct (Options.language options), (Options.folder options); apply _.
Defined.

(** The candidates of a search, in the order of the store: the stored
    chunks the filters admit, scored against the query. *)
Definition candidates (queryEmbedding : option (list R)) (stored : list Chunk.t)
    (options : Options.t) : list Chunk.t :=
  filter (admits options) (map (scored queryEmbedding) stored).

(** All chunks of the files, in the order in which [indexProject]
    embeds them. *)
Definition chunksOf (files : list File.t) : list Chunk.t :=
  flat_map Chunker.chunkContent files.

(** The request [createEmbedding] sends to OpenAI for a chunk. *)
Definition openaiRequest (c : Chunk.t) : Request :=
  OpenAIEmbeddings (Some "text-embedding-3-small")
                   (Js.stringSliceTo AiProvider.inputLimit (Chunk.content c)).

(** With OpenAI, when [n] requests were sent before the call for the
    first chunk: the chunks whose call is resolved, with their
    embeddings, the path and message of the others, and the requests
    that are sent (none for a call that ends without client). *)
Fixpoint embeddedFrom (env : Env) (n : nat) (chunks : list Chunk.t) : list Chunk.t :=
  match chunks with
  | [] => []
  | c :: chunks' =>
      match sdkEmbedding env n (openaiRequest c) with
      | Resolved v => Chunk.withEmbedding c v :: embeddedFrom env (S n) chunks'
      | Rejected _ => embeddedFrom env (S n) chunks'
      | NoClient _ => embeddedFrom env n chunks'
      end
  end.

Fixpoint failuresFrom (env : Env) (n : nat) (chunks : list Chunk.t)
    : list (string * string) :=
  match chunks with
  | [] => []
  | c :: chunks' =>
      match sdkEmbedding env n (openaiRequest c) with
      | Resolved _ => failuresFrom env (S n) chunks'
      | Rejected m => (Chunk.path c, m) :: failuresFrom env (S n) chunks'
      | NoClient m => (Chunk.path c, m) :: failuresFrom env n chunks'
      end
  end.

Fixpoint sentFrom (env : Env) (n : nat) (chunks : list Chunk.t) : list Request :=
  match chunks with
  | [] => []
  | c :: chunks' =>
      match sdkEmbedding env n (openaiRequest c) with
      | Resolved _ | Rejected _ => openaiRequest c :: sentFrom env (S n) chunks'
      | NoClient _ => sentFrom env n chunks'
      end
  end.

(** The warnings of [indexProject]: one per failed chunk, and the
    count of those that were not logged one by one. *)
Definition isIndexWarning (line : LogLine) : bool :=
  match line with
  | WarnCouldNotEmbed _ _ | WarnMoreErrors _ => true
  | _ => false
  end.

Definition indexWarnings (lines : list LogLine) : list LogLine :=
  List.filter isIndexWarning lines.

Definition couldNotEmbed (failure : string * string) : LogLine :=
  WarnCouldNotEmbed (fst failure) (snd failure).

(** The error lines of [createOpenAIEmbedding]: one per failed call. *)
Definition isEmbeddingError (line : LogLine) : bool :=
  match line with
  | ErrOpenAIEmbedding _ => true
  | _ => false
  end.

Definition embeddingErrors (lines : list LogLine) : list LogLine :=
  List.filter isEmbeddingError lines.

Definition embeddingError (failure : string * string) : LogLine :=
  ErrOpenAIEmbedding (snd failure).

(** A string without line feed: one line of a text. *)
Definition isLine (s : string) : bool :=
  allChars (fun c => negb (Ascii.eqb c Js.LF)) s.

(** The polynomial hash of base 31 over the character codes of a
    string, [acc 31^n + c0 31^(n-1) + ... + c(n-1)], as an unbounded
    integer. *)
Fixpoint polynomial (str : string) (acc : Z) : Z :=
  match str with
  | EmptyString => acc
  | String c str' => polynomial str' (31 * acc + Js.charCode c)
  end.

(** A chunk as [indexProject] stores it when no embedding service is
    used: with the offline embedding of its content. *)
Definition embeddedOffline (c : Chunk.t) : Chunk.t :=
  Chunk.withEmbedding c
    (Some (AiProvider.createSimpleEmbedding (Chunk.content c))).

(** The folder a file is listed under: its [folder], or [/] when that
    is empty. *)
Definition folderOf (file : File.t) : string :=
  if Js.truthy (File.folder file) then File.folder file else "/".

(** The files of a folder, in the order of the input. *)
Definition filesIn (folder : string) (files : list File.t) : list File.t :=
  filter (fun f => folderOf f = folder) files.

Definition entryOf (file : File.t) : FolderFile.t :=
  FolderFile.mk (File.fileName file) (File.path file)
                (File.language file) (File.lineCount file).

(** The description of a folder read off the list of files. *)
Definition folderInfoOf (files : list File.t) (folder : string) : FolderInfo.t :=
  FolderInfo.mk folder
                (map entryOf (filesIn folder files))
                (length (filesIn folder files))
                (Js.distinct (map File.language (filesIn folder files))).

(** The progress lines of an index run that embeds [n] chunks after
    [m] others: one for each multiple of 10 among the counts
    [m + 1 .. m + n]. *)
Definition progressLines (m n : nat) : list LogLine :=
  map LogProcessed (filter (fun k => k mod 10 = 0) (seq (S m) n)).

(** The state a service called by a handler starts from, and the server
    after the requests [r] were sent and [lines] were written. *)
Definition serviceState (sv : Server) : State :=
  mkState (projects sv) [] (traffic sv).

Definition serverAfter (sv : Server) (r : list Request) (lines : list ServerLine)
    : Server :=
  mkServer (projects sv) (terminal sv ++ lines)%list (traffic sv ++ r)%list.

End Spec.

(* ===================================================================== *)
(** * Sample inputs *)
(* ===================================================================== *)

Module Sample.

(** A JavaScript file of the given text, as the parser describes it. *)
Definition fileOf (path content : string) : File.t :=
  File.mk path path ".js" "javascript" content
          (length (Js.splitLines content)) (String.length content) [] ".".

(** [s.repeat(n)]. *)
Definition repeatString (n : nat) (s : string) : string :=
  String.concat "" (replicate n s).

(** [n] lines that all read [x]. *)
Definition linesOfX (n : nat) : string := Js.joinLines (replicate n "x").

(** An environment in which every provider call fails. *)
Definition offline (provider : option string) : Env :=
  mkEnv provider None None None "2024-01-01T00:00:00.000Z"
        (fun _ _ => Rejected "connect ECONNREFUSED")
        (fun _ _ => Rejected "connect ECONNREFUSED")
        (fun _ _ => FetchRejected "fetch failed")
        (fun _ _ => FetchRejected "fetch failed").

(** A process with [AI_PROVIDER=openai] and an API key whose requests
    are all rejected, and one without API key, whose client cannot be
    made: [new OpenAI] throws with the message of the SDK. *)
Definition openaiDown : Env :=
  mkEnv (Some "openai") (Some "sk-test") None None "2024-01-01T00:00:00.000Z"
        (fun _ _ => Rejected "connect ECONNREFUSED")
        (fun _ _ => Rejected "connect ECONNREFUSED")
        (fun _ _ => FetchRejected "fetch failed")
        (fun _ _ => FetchRejected "fetch failed").

Definition missingKey : string :=
  "The OPENAI_API_KEY environment variable is missing or empty; either provide it, or instantiate the OpenAI client with an apiKey option, like new OpenAI({ apiKey: 'My API Key' }).".

Definition openaiNoKey : Env :=
  mkEnv (Some "openai") None None None "2024-01-01T00:00:00.000Z"
        (fun _ _ => NoClient missingKey)
        (fun _ _ => NoClient missingKey)
        (fun _ _ => FetchRejected "fetch failed")
        (fun _ _ => FetchRejected "fetch failed").

(** An Ollama server that answers every embedding request with the
    vector [(1)]. *)
Definition ollamaOnes : Env :=
  mkEnv (Some "ollama") None None None "2024-01-01T00:00:00.000Z"
        (fun _ _ => Rejected "connect ECONNREFUSED")
        (fun _ _ => Rejected "connect ECONNREFUSED")
        (fun _ _ => FetchBody (Some [1%R]))
        (fun _ _ => FetchRejected "fetch failed").


(** An indexed chunk of one line with the given embedding. *)
Definition indexed (path : string) (embedding : list R) : Chunk.t :=
  Chunk.mk "x" 1 1 path path "javascript" "." None (Some embedding) None.

(** What a search returns for such a chunk. *)
Definition found (path : string) (similarity : R) : Chunk.t :=
  Chunk.mk "x" 1 1 path path "javascript" "." None None (Some similarity).

(** A state with one project, [p], of two chunks whose embeddings point
    in opposite directions. *)
Definition opposite : list Chunk.t :=
  [indexed "a.js" [1%R]; indexed "b.js" [(-1)%R]].

Definition oneProject (vectors : list Chunk.t) (files : list File.t) : State :=
  mkState {[ "p" := Store.mk vectors files "2024-01-01T00:00:00.000Z"
                      (Stats.mk (length files) (length vectors)
                                (Js.distinct (map File.language files))) ]}
          [] [].

(** A process started with [AI_PROVIDER=mistral], a key that is not one
    of the four recognized ones. *)
Definition mistral : Env := offline (Some "mistral").

(** The project [p] with the file [app.js] of the specification's
    scenario, its chunks not embedded yet. *)
Definition appJs : File.t :=
  fileOf "app.js" (repeatString 3 ("function add(a,b){return a+b}" +:+ Js.NL)).

(** A project without chunks. *)
Definition emptyProject : State := oneProject [] [appJs].

(** A file of 130 lines: a summary chunk and four windowed chunks. *)
Definition longJs : File.t := fileOf "long.js" (linesOfX 130).

(** A file of one line, and a question with the tokens of that line. *)
Definition sumJs : File.t := fileOf "sum.js" "add numbers".
Definition sumQuestion : string := "Add numbers!".

(** A server that holds the projects of the state [st] and has written
    and sent nothing yet. *)
Definition serving (st : State) : Server := mkServer (vectorStores st) [] [].

End Sample.

(* ===================================================================== *)
(** * Facts about strings *)
(* ===================================================================== *)

Lemma splitLines_nonempty (s : string) : 0 < length (Js.splitLines s).
Proof.
  induction s as [|c s IH]; simpl; [lia|].
  destruct (Ascii.eqb c Js.LF); simpl; [lia|].
  destruct (Js.splitLines s); simpl; lia.
Qed.

Lemma joinLines_cons (x y : string) (l : list string) :
  Js.joinLines (x :: y :: l) = x +:+ Js.NL +:+ Js.joinLines (y :: l).
Proof. reflexivity. Qed.

Lemma joinLines_splitLines (s : string) : Js.joinLines (Js.splitLines s) = s.
Proof.
  induction s as [|c s IH]; [reflexivity|].
  simpl. destruct (Ascii.eqb_spec c Js.LF) as [->|Hc].
  - pose proof (splitLines_nonempty s) as Hlen.
    destruct (Js.splitLines s) as [|h t]; [simpl in Hlen; lia|].
    rewrite joinLines_cons, IH. reflexivity.
  - pose proof (splitLines_nonempty s) as Hlen.
    destruct (Js.splitLines s) as [|h t]; [simpl in Hlen; lia|].
    destruct t as [|h' t].
    + unfold Js.joinLines in *. simpl in *. now subst.
    + rewrite joinLines_cons in *. rewrite <- IH. reflexivity.
Qed.

Lemma isBlank_app (a b : string) :
  Spec.isBlank (a +:+ b) = Spec.isBlank a && Spec.isBlank b.
Proof.
  induction a as [|c a IH]; simpl; [reflexivity|].
  rewrite IH. now rewrite andb_assoc.
Qed.

Lemma isBlank_joinLines (l : list string) :
  Spec.isBlank (Js.joinLines l) = forallb Spec.isBlank l.
Proof.
  induction l as [|x l IH]; [reflexivity|].
  destruct l as [|y l].
  - simpl. now rewrite andb_true_r.
  - rewrite joinLines_cons, !isBlank_app, IH. reflexivity.
Qed.

Lemma trimStart_blank (s : string) :
  Spec.isBlank (Js.trimStart s) = Spec.isBlank s.
Proof.
  induction s as [|c s IH]; simpl; [reflexivity|].
  destruct (Js.isSpace c) eqn:Hc; simpl; [exact IH | now rewrite Hc].
Qed.

Lemma trimEnd_empty (s : string) :
  Js.trimEnd s = EmptyString <-> Spec.isBlank s = true.
Proof.
  induction s as [|c s IH]; simpl; [tauto|].
  destruct (Js.trimEnd s) eqn:Ht.
  - destruct (Js.isSpace c); simpl.
    + tauto.
    + split; discriminate.
  - split; [discriminate|].
    intros H. apply andb_true_iff in H as [_ H].
    apply IH in H. discriminate.
Qed.

Lemma trim_empty (s : string) :
  Js.trim s = EmptyString <-> Spec.isBlank s = true.
Proof.
  unfold Js.trim. rewrite trimEnd_empty, trimStart_blank. tauto.
Qed.

Lemma string_length_pos (s : string) :
  0 < String.length s <-> s <> EmptyString.
Proof. destruct s; simpl; split; (lia || congruence). Qed.

Lemma windowNonEmpty_spec (lines : list string) (i : nat) :
  Chunker.windowNonEmpty lines i
  = negb (forallb Spec.isBlank (Chunker.chunkLines lines i)).
Proof.
  unfold Chunker.windowNonEmpty.
  rewrite <- isBlank_joinLines.
  destruct (Spec.isBlank _) eqn:Hb; simpl.
  - apply bool_decide_eq_false. rewrite string_length_pos.
    apply trim_empty in Hb. congruence.
  - apply bool_decide_eq_true. rewrite string_length_pos.
    intros He. apply trim_empty in He. congruence.
Qed.

(* ===================================================================== *)
(** * The definitions at work *)
(* ===================================================================== *)

Example splitLines_blank_line :
  Js.splitLines ("a" +:+ Js.NL +:+ Js.NL +:+ "b") = ["a"; ""; "b"].
Proof. reflexivity. Qed.

Example splitLines_final_newline : Js.splitLines ("a" +:+ Js.NL) = ["a"; ""].
Proof. reflexivity. Qed.

Example trim_both_ends : Js.trim (" " +:+ Js.NL +:+ "a b ") = "a b".
Proof. reflexivity. Qed.

Example splitSpaces_runs : Js.splitSpaces " ab  c " = [""; "ab"; "c"; ""].
Proof. reflexivity. Qed.

Example getProvider_default : AiProvider.getProvider (Sample.offline None) = "demo".
Proof. reflexivity. Qed.

Example getProvider_lower_case :
  AiProvider.getProvider (Sample.offline (Some "OpenAI")) = "openai".
Proof. reflexivity. Qed.

Example simpleHash_abc : AiProvider.simpleHash "abc" = 96354%Z.
Proof. reflexivity. Qed.

(** The hash wraps around at 32 bits and may be negative; the bucket
    is taken from its absolute value. *)
Example simpleHash_wraps :
  AiProvider.simpleHash "zzzzzz" = (-685785664)%Z
  /\ AiProvider.position "zzzzzz" = 64.
Proof. vm_compute. split; reflexivity. Qed.

Example tokenize_sentence :
  AiProvider.tokenize "Hello, World! a bc def_1" = ["hello"; "world"; "def_1"].
Proof. reflexivity. Qed.

Example chunks_of_five_lines :
  map (fun c => (Chunk.startLine c, Chunk.endLine c, Chunk.isSummary c))
      (Chunker.chunkContent (Sample.fileOf "a.js" (Sample.linesOfX 5)))
  = [(1, 5, Some true); (1, 5, None)].
Proof. reflexivity. Qed.

(** The question pattern ignores case, so in the prompt of
    [generateAnswer] it first matches the words [this question:] of the
    opening sentence, and the group is the next line that holds text. *)
Example demo_question :
  AiProvider.matchQuestion (Qa.answerUserPrompt "what does add do?" "")
  = Some "Question: what does add do?".
Proof. reflexivity. Qed.

Example demo_files :
  AiProvider.matchFiles
    (Qa.buildContext [Sample.found "a.js" 1; Sample.found "lib/b.js" 1])
  = ["a.js (lines 1-1) ---"; "lib/b.js (lines 1-1) ---"].
Proof. reflexivity. Qed.

(* ===================================================================== *)
(** * The chunker *)
(* ===================================================================== *)

Lemma stride_eq : Spec.stride = 40.
Proof. reflexivity. Qed.

Lemma ceilDiv_zero : Spec.ceilDiv 0 Spec.stride = 0.
Proof. reflexivity. Qed.

Lemma ceilDiv_step (a : nat) :
  0 < a -> Spec.ceilDiv a Spec.stride = S (Spec.ceilDiv (a - Spec.stride) Spec.stride).
Proof.
  intros Ha. unfold Spec.ceilDiv, Spec.stride, Chunker.chunkSize, Chunker.overlap.
  change (50 - 10) with 40.
  destruct (le_lt_dec 40 a) as [Hge|Hlt].
  - replace (a + 40 - 1) with ((a - 40 + 40 - 1) + 1 * 40) by lia.
    rewrite Nat.div_add by lia. lia.
  - replace (a - 40) with 0 by lia.
    change ((0 + 40 - 1) / 40) with 0.
    symmetry. apply Nat.div_unique with (r := a - 1); lia.
Qed.

Lemma startsFrom_done (i L : nat) : L <= i -> Spec.startsFrom i L = [].
Proof.
  intros H. unfold Spec.startsFrom. replace (L - i) with 0 by lia.
  now rewrite ceilDiv_zero.
Qed.

Lemma startsFrom_step (i L : nat) :
  i < L -> Spec.startsFrom i L = i :: Spec.startsFrom (i + Spec.stride) L.
Proof.
  intros H. unfold Spec.startsFrom.
  rewrite (ceilDiv_step (L - i)) by lia.
  replace (L - i - Spec.stride) with (L - (i + Spec.stride)) by lia.
  rewrite <- cons_seq, <- seq_shift, map_cons, map_map.
  f_equal; [lia|]. apply map_ext. intros k. rewrite stride_eq. lia.
Qed.

Lemma windowLoop_spec (file : File.t) (lines : list string) (i : nat)
    (chunks : list Chunk.t) :
  Chunker.windowLoop file lines i chunks
  = (chunks ++ map (Chunker.windowChunk file lines)
                   (filter (fun j => Chunker.windowNonEmpty lines j = true)
                           (Spec.startsFrom i (length lines))))%list.
Proof.
  funelim (Chunker.windowLoop file lines i chunks).
  - rewrite H, (startsFrom_step i (length lines)) by lia.
    rewrite filter_cons. fold Spec.stride.
    destruct (Chunker.windowNonEmpty lines i); case_decide; try congruence.
    now rewrite <- app_assoc.
  - rewrite startsFrom_done by lia. now rewrite app_nil_r.
Qed.

Lemma startsFrom_length (i L : nat) :
  length (Spec.startsFrom i L) = Spec.ceilDiv (L - i) Spec.stride.
Proof. unfold Spec.startsFrom. now rewrite length_map, length_seq. Qed.

Lemma startsFrom_elem (i L j : nat) :
  j ∈ Spec.startsFrom i L <-> exists k, j = i + k * Spec.stride /\ j < L.
Proof.
  remember (Spec.ceilDiv (L - i) Spec.stride) as n eqn:Hn.
  revert i Hn. induction n as [|n IH]; intros i Hn.
  - destruct (le_lt_dec L i) as [Hle|Hlt].
    + rewrite startsFrom_done by lia. split.
      * intros H. inversion H.
      * intros (k & -> & Hk). lia.
    + rewrite (ceilDiv_step (L - i)) in Hn by lia. discriminate.
  - destruct (le_lt_dec L i) as [Hle|Hlt].
    + replace (L - i) with 0 in Hn by lia. rewrite ceilDiv_zero in Hn. discriminate.
    + rewrite startsFrom_step by lia. rewrite elem_of_cons.
      rewrite (ceilDiv_step (L - i)) in Hn by lia.
      injection Hn as Hn.
      replace (L - i - Spec.stride) with (L - (i + Spec.stride)) in Hn by lia.
      rewrite (IH _ Hn). rewrite stride_eq. split.
      * intros [->|(k & -> & Hk)]; [exists 0; lia | exists (S k); lia].
      * intros ([|k] & -> & Hk); [left; lia | right; exists k; lia].
Qed.


Lemma filter_all {A} (P : A -> Prop) `{forall x, Decision (P x)} (l : list A) :
  Forall P l -> filter P l = l.
Proof.
  induction 1 as [|x l Hx Hl IH]; [reflexivity|].
  rewrite filter_cons, IH. now case_decide.
Qed.

Lemma nonblank_line (lines : list string) :
  forallb Spec.isBlank lines = false ->
  exists j line, lines !! j = Some line /\ Spec.isBlank line = false.
Proof.
  induction lines as [|x lines IH]; simpl; [discriminate|].
  destruct (Spec.isBlank x) eqn:Hx; simpl.
  - intros H. destruct (IH H) as (j & line & Hj & Hb).
    now exists (S j), line.
  - intros _. now exists 0, x.
Qed.

Lemma window_has_text (lines : list string) (i j : nat) (line : string) :
  i <= j < i + Chunker.chunkSize ->
  lines !! j = Some line ->
  Spec.isBlank line = false ->
  Chunker.windowNonEmpty lines i = true.
Proof.
  intros Hij Hj Hb. rewrite windowNonEmpty_spec.
  apply negb_true_iff. apply not_true_is_false. intros Hall.
  rewrite forallb_forall in Hall.
  assert (Hin : In line (Chunker.chunkLines lines i)).
  { apply list_elem_of_In. apply list_elem_of_lookup. exists (j - i).
    unfold Chunker.chunkLines, Js.slice.
    rewrite lookup_take_lt by lia. rewrite lookup_drop.
    now replace (i + (j - i)) with j by lia. }
  apply Hall in Hin. congruence.
Qed.

Lemma start_of_line (j L : nat) :
  j < L -> (j / Spec.stride) * Spec.stride ∈ Spec.windowStarts L.
Proof.
  intros Hj. apply startsFrom_elem. exists (j / Spec.stride).
  split; [lia|]. rewrite stride_eq.
  pose proof (Nat.div_mod_eq j 40). lia.
Qed.

Lemma windowChunk_not_summary (file : File.t) (lines : list string) (l : list nat) :
  Spec.windowed (map (Chunker.windowChunk file lines) l)
  = map (Chunker.windowChunk file lines) l.
Proof.
  apply filter_all. apply Forall_forall. intros c Hc.
  apply list_elem_of_fmap in Hc as (i & -> & _). discriminate.
Qed.

(** C1, the claim as the specification states it, fails on the
    specification's own example: a file of 100 lines that all hold text
    has 3 windowed chunks (lines 1-50, 41-90, 81-100) where the stated
    formula [ceil(max(L-10,0)/40)+1] gives 4; and a file of 45 lines,
    shorter than one window of 50 lines, has 2 windowed chunks (lines
    1-45 and 41-45), not one.  A file of two spaces has the summary
    chunk only. *)
Lemma C1_counterexample :
  let chunks100 := Chunker.chunkContent (Sample.fileOf "a.js" (Sample.linesOfX 100)) in
  let chunks45 := Chunker.chunkContent (Sample.fileOf "a.js" (Sample.linesOfX 45)) in
  length (Js.splitLines (Sample.linesOfX 100)) = 100
  /\ map (fun c => (Chunk.startLine c, Chunk.endLine c)) (Spec.windowed chunks100)
     = [(1, 50); (41, 90); (81, 100)]
  /\ Spec.claimedWindows 100 = 4
  /\ length (Js.splitLines (Sample.linesOfX 45)) = 45
  /\ map (fun c => (Chunk.startLine c, Chunk.endLine c)) (Spec.windowed chunks45)
     = [(1, 45); (41, 45)]
  /\ length (Chunker.chunkContent (Sample.fileOf "a.js" "  ")) = 1.
Proof. vm_compute. repeat split; reflexivity. Qed.

(** C1, amended.  For every file, with [L >= 1] lines: [chunkContent]
    returns the summary chunk (the only chunk flagged [isSummary],
    lines 1 to [L]) followed by one windowed chunk for each start index
    0, 40, 80, ... below [L] whose trimmed joined text is not empty.
    So there are at most [ceil(L/40)] windowed chunks, and exactly
    [ceil(L/40)] when every window holds text; a file of at most 40
    lines that holds text has exactly one windowed chunk, which spans
    the whole file; and every file that holds text has at least 2
    chunks. *)
Theorem C1_chunkContent_windows (file : File.t) :
  let lines := Js.splitLines (File.content file) in
  let L := length lines in
  let starts :=
    filter (fun i => Chunker.windowNonEmpty lines i = true) (Spec.windowStarts L) in
  1 <= L
  /\ Chunker.chunkContent file
     = Chunker.summaryChunk file lines :: map (Chunker.windowChunk file lines) starts
  /\ Chunk.isSummary (Chunker.summaryChunk file lines) = Some true
  /\ Chunk.startLine (Chunker.summaryChunk file lines) = 1
  /\ Chunk.endLine (Chunker.summaryChunk file lines) = L
  /\ Spec.windowed (Chunker.chunkContent file)
     = map (Chunker.windowChunk file lines) starts
  /\ length (Spec.windowed (Chunker.chunkContent file)) <= Spec.ceilDiv L 40
  /\ (Forall (fun i => Chunker.windowNonEmpty lines i = true) (Spec.windowStarts L) ->
      length (Spec.windowed (Chunker.chunkContent file)) = Spec.ceilDiv L 40)
  /\ (L <= 40 -> Spec.isBlank (File.content file) = false ->
      Spec.windowed (Chunker.chunkContent file)
      = [Chunk.mk (File.content file) 1 L (File.path file) (File.fileName file)
                  (File.language file) (File.folder file) None None None])
  /\ (Spec.isBlank (File.content file) = false ->
      2 <= length (Chunker.chunkContent file)).
Proof.
  intros lines L starts.
  assert (HL : 1 <= L) by apply splitLines_nonempty.
  assert (Hchunks : Chunker.chunkContent file
            = Chunker.summaryChunk file lines
              :: map (Chunker.windowChunk file lines) starts).
  { unfold Chunker.chunkContent. fold lines. now rewrite windowLoop_spec. }
  assert (Hwin : Spec.windowed (Chunker.chunkContent file)
            = map (Chunker.windowChunk file lines) starts).
  { rewrite Hchunks. unfold Spec.windowed at 1. rewrite filter_cons.
    case_decide as Hs; [now contradict Hs|]. apply windowChunk_not_summary. }
  assert (Hlen : length (Spec.windowStarts L) = Spec.ceilDiv L 40).
  { unfold Spec.windowStarts. rewrite startsFrom_length.
    now replace (L - 0) with L by lia. }
  assert (Htext : Spec.isBlank (File.content file) = false ->
            exists j line, j < L /\ lines !! j = Some line
                           /\ Spec.isBlank line = false).
  { intros Hb. rewrite <- (joinLines_splitLines (File.content file)) in Hb.
    rewrite isBlank_joinLines in Hb.
    destruct (nonblank_line _ Hb) as (j & line & Hj & Hline).
    exists j, line. repeat split; try assumption.
    now apply lookup_lt_Some in Hj. }
  repeat split; try assumption; try reflexivity.
  - rewrite Hwin, length_map, <- Hlen. apply length_filter.
  - intros Hall. rewrite Hwin, length_map. unfold starts.
    now rewrite filter_all.
  - intros Hsmall Hb. rewrite Hwin. unfold starts.
    destruct (Htext Hb) as (j & line & Hj & Hline & Hlb).
    assert (Hstarts : Spec.windowStarts L = [0]).
    { unfold Spec.windowStarts. rewrite startsFrom_step by lia.
      rewrite startsFrom_done; [reflexivity | rewrite stride_eq; lia]. }
    rewrite Hstarts, filter_cons.
    rewrite (window_has_text lines 0 j line) by (try assumption; unfold Chunker.chunkSize; lia).
    simpl. unfold Chunker.windowChunk, Chunker.chunkLines, Js.slice.
    rewrite drop_0, take_ge by (unfold Chunker.chunkSize; fold lines L; lia).
    unfold lines at 1. rewrite joinLines_splitLines.
    fold L. replace (Nat.min (0 + Chunker.chunkSize) L) with L
      by (unfold Chunker.chunkSize; lia).
    reflexivity.
  - intros Hb. rewrite Hchunks. simpl. rewrite length_map.
    destruct (Htext Hb) as (j & line & Hj & Hline & Hlb).
    assert (Hin : (j / Spec.stride) * Spec.stride ∈ starts).
    { apply list_elem_of_filter. split; [|now apply start_of_line].
      apply (window_has_text lines _ j line); try assumption.
      rewrite stride_eq. unfold Chunker.chunkSize.
      pose proof (Nat.div_mod_eq j 40).
      pose proof (Nat.mod_upper_bound j 40). lia. }
    destruct starts; [inversion Hin | simpl; lia].
Qed.

(* ===================================================================== *)
(** * Cosine similarity *)
(* ===================================================================== *)

Lemma sums_from (a b : list R) (d na nb : R) :
  length a = length b ->
  fold_left
    (fun '(dotProduct, normA, normB) '(x, y) =>
       (dotProduct + x * y, normA + x * x, normB + y * y)%R)
    (combine a b) (d, na, nb)
  = (d + Spec.dot a b, na + Spec.sumSquares a, nb + Spec.sumSquares b)%R.
Proof.
  revert b d na nb. induction a as [|x a IH]; intros [|y b] d na nb Hlen;
    simpl in Hlen; try discriminate.
  - simpl. unfold Spec.sumSquares. simpl. f_equal; [f_equal|]; lra.
  - simpl. rewrite IH by lia. unfold Spec.sumSquares. simpl.
    f_equal; [f_equal|]; lra.
Qed.

Lemma sums_spec (a b : list R) :
  length a = length b ->
  VectorStore.sums a b = (Spec.dot a b, Spec.sumSquares a, Spec.sumSquares b).
Proof.
  intros Hlen. unfold VectorStore.sums. rewrite sums_from by assumption.
  f_equal; [f_equal|]; lra.
Qed.

Lemma dot_comm (a b : list R) : Spec.dot a b = Spec.dot b a.
Proof.
  revert b. induction a as [|x a IH]; intros [|y b]; simpl; try reflexivity.
  rewrite IH. lra.
Qed.

Lemma sumSquares_nonneg (v : list R) : (0 <= Spec.sumSquares v)%R.
Proof.
  unfold Spec.sumSquares. induction v as [|x v IH]; simpl; [lra|].
  pose proof (Rle_0_sqr x) as Hx. unfold Rsqr in Hx. lra.
Qed.

Lemma sumSquares_pos (v : list R) : Spec.nonZero v -> (0 < Spec.sumSquares v)%R.
Proof.
  unfold Spec.nonZero, Spec.sumSquares.
  induction 1 as [x v Hx | x v Hv IH]; simpl.
  - pose proof (sumSquares_nonneg v) as Hv. unfold Spec.sumSquares in Hv.
    assert (0 < x * x)%R by (apply Rsqr_pos_lt in Hx; exact Hx). lra.
  - pose proof (Rle_0_sqr x) as Hx. unfold Rsqr in Hx. lra.
Qed.

Lemma sumSquares_zero (v : list R) :
  Spec.sumSquares v = 0%R <-> Forall (fun x => x = 0%R) v.
Proof.
  unfold Spec.sumSquares. induction v as [|x v IH]; simpl.
  - split; [constructor | reflexivity].
  - pose proof (sumSquares_nonneg v) as Hv. unfold Spec.sumSquares in Hv.
    pose proof (Rle_0_sqr x) as Hx. unfold Rsqr in Hx.
    split.
    + intros H. assert (x * x = 0)%R by lra. assert (Spec.dot v v = 0)%R by lra.
      constructor; [|now apply IH].
      apply Rmult_integral in H0. tauto.
    + intros H. inversion H as [|? ? Hx0 Hv0]; subst.
      apply IH in Hv0. rewrite Hv0. lra.
Qed.

Lemma norm_zero (v : list R) : Spec.norm v = 0%R <-> Spec.sumSquares v = 0%R.
Proof.
  unfold Spec.norm. split.
  - intros H. apply sqrt_eq_0; [apply sumSquares_nonneg | exact H].
  - intros ->. apply sqrt_0.
Qed.

Lemma norm_nonneg (v : list R) : (0 <= Spec.norm v)%R.
Proof. apply sqrt_pos. Qed.

(** The value [cosineSimilarity] computes on two arrays of one length. *)
Lemma cosineSimilarity_eq (a b : list R) :
  length a = length b ->
  VectorStore.cosineSimilarity (Some a) (Some b)
  = if Rgt_dec (Spec.norm a * Spec.norm b) 0
    then (Spec.dot a b / (Spec.norm a * Spec.norm b))%R
    else 0%R.
Proof.
  intros Hlen. unfold VectorStore.cosineSimilarity.
  rewrite bool_decide_eq_false_2 by tauto.
  now rewrite sums_spec.
Qed.

(** ** On doubles *)

Lemma float_mul_comm (x y : float) : (x * y)%float = (y * x)%float.
Proof.
  apply Prim2SF_inj. rewrite !FloatAxioms.mul_spec.
  destruct (Prim2SF x) as [sx|sx| |sx mx ex], (Prim2SF y) as [sy|sy| |sy my ey];
    cbn; try rewrite (xorb_comm sx sy); try reflexivity.
  now rewrite Pos.mul_comm, Z.add_comm.
Qed.

(** [0 * y] is a zero or [NaN], so [0 * y > 0] is false. *)
Lemma zero_times_not_positive (y : float) : (0 <? 0 * y)%float = false.
Proof.
  rewrite FloatAxioms.ltb_spec, FloatAxioms.mul_spec.
  change (Prim2SF 0) with (S754_zero false).
  destruct (Prim2SF y) as [s|s| |s m e]; reflexivity.
Qed.

Lemma square_of_zero (x : float) : (x =? 0)%float = true -> (x * x)%float = 0%float.
Proof.
  intros H. rewrite FloatAxioms.eqb_spec in H.
  apply Prim2SF_inj. rewrite FloatAxioms.mul_spec.
  change (Prim2SF 0) with (S754_zero false) in *.
  destruct (Prim2SF x) as [[|]|[|]| |[|] m e]; cbn in H; try discriminate;
    reflexivity.
Qed.

Lemma sums_swap (a b : list float) (d na nb : float) :
  Ieee.sums b a d nb na
  = let '(d', na', nb') := Ieee.sums a b d na nb in (d', nb', na').
Proof.
  revert b d na nb. induction a as [|x a IH]; intros [|y b] d na nb;
    try reflexivity.
  cbn [Ieee.sums]. rewrite IH, (float_mul_comm y x). reflexivity.
Qed.

Lemma sums_norms (a b : list float) (d na nb : float) :
  length a = length b ->
  exists d',
    Ieee.sums a b d na nb
    = (d', fold_left (fun norm x => (norm + x * x)%float) a na,
           fold_left (fun norm x => (norm + x * x)%float) b nb).
Proof.
  revert b d na nb. induction a as [|x a IH]; intros [|y b] d na nb Hlen;
    try discriminate.
  - now exists d.
  - cbn [Ieee.sums fold_left]. apply IH. now injection Hlen.
Qed.

Lemma ieee_symmetric (a b : option (list float)) :
  Ieee.cosineSimilarity a b = Ieee.cosineSimilarity b a.
Proof.
  destruct a as [a|], b as [b|]; try reflexivity.
  unfold Ieee.cosineSimilarity.
  destruct (decide (length a = length b)) as [Hlen|Hlen].
  - rewrite !bool_decide_eq_false_2 by (intros H; apply H; congruence).
    rewrite (sums_swap a b).
    destruct (Ieee.sums a b 0 0 0) as [[d na] nb].
    now rewrite (float_mul_comm (PrimFloat.sqrt nb)).
  - now rewrite !bool_decide_eq_true_2 by congruence.
Qed.

Lemma ieee_zero_norm (a b : list float) :
  Ieee.sumSquares a = 0%float ->
  Ieee.cosineSimilarity (Some a) (Some b) = 0%float.
Proof.
  intros Hzero. unfold Ieee.cosineSimilarity.
  case_bool_decide as Hlen; [reflexivity|].
  destruct (sums_norms a b 0 0 0) as (d & ->).
  { destruct (decide (length a = length b)); [assumption | contradiction]. }
  fold (Ieee.sumSquares a). rewrite Hzero.
  change (PrimFloat.sqrt 0) with 0%float.
  now rewrite zero_times_not_positive.
Qed.

Lemma ieee_zero_vector (v : list float) :
  Forall (fun x => (x =? 0)%float = true) v -> Ieee.sumSquares v = 0%float.
Proof.
  unfold Ieee.sumSquares. induction 1 as [|x v Hx _ IH]; [reflexivity|].
  cbn [fold_left]. rewrite (square_of_zero x Hx). exact IH.
Qed.





(* ===================================================================== *)
(** * The offline embedding *)
(* ===================================================================== *)

Lemma weight_contribution (idx : nat) : AiProvider.weight idx = Spec.contribution idx.
Proof.
  unfold AiProvider.weight, Spec.contribution. f_equal. lra.
Qed.

Lemma contribution_pos (idx : nat) : (0 < Spec.contribution idx)%R.
Proof.
  unfold Spec.contribution. pose proof (pos_INR idx) as Hi.
  apply Rdiv_lt_0_compat; lra.
Qed.

Lemma position_lt (word : string) : AiProvider.position word < AiProvider.dimensions.
Proof.
  unfold AiProvider.position, AiProvider.dimensions.
  pose proof (Z.mod_pos_bound (Z.abs (AiProvider.simpleHash word)) 384). lia.
Qed.

Lemma accumulate_length (words : list string) (idx : nat) (e : list R) :
  length (AiProvider.accumulate idx words e) = length e.
Proof.
  revert idx e. induction words as [|w words IH]; intros idx e; simpl;
    [reflexivity|]. now rewrite IH, length_alter.
Qed.

Lemma accumulate_lookup (words : list string) (idx : nat) (e : list R)
    (j : nat) (x : R) :
  e !! j = Some x ->
  AiProvider.accumulate idx words e !! j
  = Some (x + Spec.bucketSumFrom idx words j)%R.
Proof.
  revert idx e x. induction words as [|w words IH]; intros idx e x Hj; simpl.
  - rewrite Hj. f_equal. lra.
  - destruct (decide (AiProvider.position w = j)) as [Heq|Hne].
    + rewrite (IH _ _ (x + AiProvider.weight idx)%R).
      * rewrite weight_contribution. f_equal. lra.
      * rewrite Heq, list_lookup_alter_eq, Hj. reflexivity.
    + rewrite (IH _ _ x).
      * f_equal. lra.
      * now rewrite list_lookup_alter_ne.
Qed.

Lemma accumulate_spec (words : list string) :
  AiProvider.accumulate 0 words (replicate AiProvider.dimensions 0%R)
  = Spec.hashedBag words.
Proof.
  apply list_eq. intros j. unfold Spec.hashedBag.
  destruct (decide (j < AiProvider.dimensions)) as [Hj|Hj].
  - rewrite (accumulate_lookup _ _ _ _ 0%R) by (now apply lookup_replicate_2).
    rewrite list_lookup_fmap, lookup_seq_lt by assumption. simpl.
    f_equal. lra.
  - rewrite !lookup_ge_None_2; [reflexivity | |].
    + rewrite length_map, length_seq. lia.
    + rewrite accumulate_length, length_replicate. lia.
Qed.

Lemma fold_squares (e : list R) (a : R) :
  fold_left (fun sum val => (sum + val * val)%R) e a = (a + Spec.sumSquares e)%R.
Proof.
  revert a. unfold Spec.sumSquares.
  induction e as [|x e IH]; intros a; simpl; [lra|].
  rewrite IH. lra.
Qed.

Lemma magnitudeOf_norm (e : list R) : AiProvider.magnitudeOf e = Spec.norm e.
Proof.
  unfold AiProvider.magnitudeOf, Spec.norm. rewrite fold_squares. f_equal. lra.
Qed.

Lemma bucketSumFrom_nonneg (tokens : list string) (idx j : nat) :
  (0 <= Spec.bucketSumFrom idx tokens j)%R.
Proof.
  revert idx. induction tokens as [|t tokens IH]; intros idx; simpl; [lra|].
  pose proof (IH (S idx)). pose proof (contribution_pos idx).
  case_decide; lra.
Qed.

Lemma hashedBag_length (tokens : list string) :
  length (Spec.hashedBag tokens) = 384.
Proof. unfold Spec.hashedBag. now rewrite length_map, length_seq. Qed.

Lemma hashedBag_nil : Spec.hashedBag [] = replicate 384 0%R.
Proof.
  apply list_eq. intros j. unfold Spec.hashedBag.
  destruct (decide (j < 384)) as [Hj|Hj].
  - rewrite list_lookup_fmap, lookup_seq_lt by assumption.
    symmetry. now apply lookup_replicate_2.
  - rewrite !lookup_ge_None_2; [reflexivity | |].
    + rewrite length_replicate. lia.
    + rewrite length_map, length_seq. unfold AiProvider.dimensions. lia.
Qed.

Lemma hashedBag_nonZero (tokens : list string) :
  tokens <> [] -> Spec.nonZero (Spec.hashedBag tokens).
Proof.
  destruct tokens as [|t tokens]; [congruence|]. intros _.
  apply Exists_exists.
  exists (Spec.bucketSumFrom 0 (t :: tokens) (AiProvider.position t)). split.
  - apply list_elem_of_lookup. exists (AiProvider.position t).
    unfold Spec.hashedBag.
    rewrite list_lookup_fmap, lookup_seq_lt by apply position_lt.
    reflexivity.
  - simpl. rewrite decide_True by reflexivity.
    pose proof (contribution_pos 0).
    pose proof (bucketSumFrom_nonneg tokens 1 (AiProvider.position t)). lra.
Qed.

Lemma sumSquares_scaled (v : list R) (m : R) :
  m <> 0%R ->
  Spec.sumSquares (map (fun x => (x / m)%R) v) = (Spec.sumSquares v / (m * m))%R.
Proof.
  intros Hm. unfold Spec.sumSquares.
  induction v as [|x v IH]; simpl; [field; assumption|].
  rewrite IH. field. assumption.
Qed.

Lemma norm_normalized (v : list R) :
  Spec.norm v <> 0%R ->
  Spec.norm (map (fun x => (x / Spec.norm v)%R) v) = 1%R.
Proof.
  intros Hn. unfold Spec.norm at 1. rewrite sumSquares_scaled by assumption.
  unfold Spec.norm. rewrite sqrt_sqrt by apply sumSquares_nonneg.
  assert (Spec.sumSquares v <> 0%R) by (intros H; apply Hn, norm_zero, H).
  replace (Spec.sumSquares v / Spec.sumSquares v)%R with 1%R by (field; assumption).
  apply sqrt_1.
Qed.

Lemma createSimpleEmbedding_spec (text : string) :
  AiProvider.createSimpleEmbedding text = Spec.offlineEmbedding text.
Proof.
  unfold AiProvider.createSimpleEmbedding, Spec.offlineEmbedding, Spec.normalize.
  rewrite accumulate_spec, magnitudeOf_norm.
  pose proof (norm_nonneg (Spec.hashedBag (AiProvider.tokenize text))).
  destruct (Rgt_dec _ _), (Req_dec_T _ _); try reflexivity; lra.
Qed.

Lemma offline_nonNegative (text : string) :
  Spec.nonNegative (Some (AiProvider.createSimpleEmbedding text)).
Proof.
  rewrite createSimpleEmbedding_spec. unfold Spec.offlineEmbedding, Spec.normalize.
  set (bag := Spec.hashedBag (AiProvider.tokenize text)).
  assert (Hbag : Forall (fun x => (0 <= x)%R) bag).
  { unfold bag, Spec.hashedBag. apply Forall_forall. intros x Hx.
    apply list_elem_of_fmap in Hx as (j & -> & _). apply bucketSumFrom_nonneg. }
  unfold Spec.nonNegative. destruct (Req_dec_T _ _) as [_|Hn]; [exact Hbag|].
  pose proof (norm_nonneg bag) as Hpos.
  apply Forall_forall. intros x Hx.
  apply list_elem_of_fmap in Hx as (y & -> & Hy).
  rewrite Forall_forall in Hbag. specialize (Hbag y Hy).
  unfold Rdiv. apply Rle_mult_inv_pos; lra.
Qed.







(* ===================================================================== *)
(** * Sorting *)
(* ===================================================================== *)

Lemma filter_none {A} (P : A -> Prop) `{forall x, Decision (P x)} (l : list A) :
  Forall (fun x => ~ P x) l -> filter P l = [].
Proof.
  induction 1 as [|x l Hx Hl IH]; [reflexivity|].
  rewrite filter_cons, IH. now case_decide.
Qed.

Section SortFacts.

Context {A : Type}.
Variable compareFn : A -> A -> option R.
Variable key : A -> R.
Variable ok : A -> Prop.

(** The comparator orders the admissible elements by decreasing key. *)
Hypothesis compare_key :
  forall x y, ok x -> ok y ->
    (VectorStore.positive (compareFn x y) = true <-> (key x < key y)%R).

Lemma insert_split (x : A) (l : list A) :
  ok x -> Forall ok l ->
  exists l1 l2,
    l = (l1 ++ l2)%list
    /\ VectorStore.insert compareFn x l = (l1 ++ x :: l2)%list
    /\ Forall (fun y => (key x < key y)%R) l1
    /\ match l2 with
       | [] => True
       | y :: _ => (key y <= key x)%R
       end.
Proof.
  intros Hx Hl. induction Hl as [|y l Hy Hl IH].
  - exists [], []. simpl. repeat split; constructor.
  - simpl. destruct (VectorStore.positive (compareFn x y)) eqn:Hp.
    + destruct IH as (l1 & l2 & -> & Hins & Hl1 & Hl2).
      exists (y :: l1), l2. rewrite Hins. repeat split; try assumption.
      constructor; [|assumption]. now apply compare_key.
    + exists [], (y :: l). repeat split; [constructor|].
      apply Rnot_lt_le. intros Hlt. apply compare_key in Hlt; try assumption.
      congruence.
Qed.

Lemma insert_perm (x : A) (l : list A) :
  VectorStore.insert compareFn x l ≡ₚ x :: l.
Proof.
  induction l as [|y l IH]; simpl; [reflexivity|].
  destruct (VectorStore.positive (compareFn x y)); [|reflexivity].
  rewrite IH. apply perm_swap.
Qed.

Lemma sort_perm (l : list A) : VectorStore.sort compareFn l ≡ₚ l.
Proof.
  induction l as [|x l IH]; simpl; [reflexivity|].
  unfold VectorStore.sort in *. simpl. now rewrite insert_perm, IH.
Qed.

Lemma sort_ok (l : list A) : Forall ok l -> Forall ok (VectorStore.sort compareFn l).
Proof. intros H. now rewrite sort_perm. Qed.

Lemma insert_sorted (x : A) (l : list A) :
  ok x -> Forall ok l ->
  StronglySorted (fun a b => (key b <= key a)%R) l ->
  StronglySorted (fun a b => (key b <= key a)%R) (VectorStore.insert compareFn x l).
Proof.
  intros Hx Hl Hs.
  destruct (insert_split x l Hx Hl) as (l1 & l2 & -> & -> & Hl1 & Hl2).
  apply StronglySorted_app in Hs as (_ & Hs1 & Hs2).
  apply StronglySorted_app_2; try assumption.
  - intros a b Ha Hb.
    rewrite Forall_forall in Hl1. specialize (Hl1 a Ha).
    apply elem_of_cons in Hb as [->|Hb]; [lra|].
    destruct l2 as [|y l2]; [inversion Hb|].
    inversion Hs2 as [|? ? _ Hy]; subst.
    apply elem_of_cons in Hb as [->|Hb]; [lra|].
    rewrite Forall_forall in Hy. specialize (Hy b Hb). lra.
  - constructor; [assumption|].
    destruct l2 as [|y l2]; [constructor|].
    inversion Hs2 as [|? ? _ Hy]; subst.
    constructor; [exact Hl2|].
    eapply Forall_impl; [exact Hy|]. intros z Hz. lra.
Qed.

Lemma sort_sorted (l : list A) :
  Forall ok l -> StronglySorted (fun a b => (key b <= key a)%R) (VectorStore.sort compareFn l).
Proof.
  induction 1 as [|x l Hx Hl IH]; [constructor|].
  unfold VectorStore.sort in *. simpl.
  apply insert_sorted; try assumption. now apply sort_ok.
Qed.

(** Stability: the elements of one key keep their order. *)
Lemma insert_stable (x : A) (l : list A) (s : R) :
  ok x -> Forall ok l ->
  filter (fun a => key a = s) (VectorStore.insert compareFn x l)
  = filter (fun a => key a = s) (x :: l).
Proof.
  intros Hx Hl.
  destruct (insert_split x l Hx Hl) as (l1 & l2 & -> & -> & Hl1 & _).
  rewrite filter_app, !filter_cons, filter_app.
  case_decide as Hs; [|reflexivity].
  rewrite (filter_none _ l1); [reflexivity|].
  eapply Forall_impl; [exact Hl1|]. intros y Hy. simpl in Hy. lra.
Qed.

Lemma sort_stable (l : list A) (s : R) :
  Forall ok l ->
  filter (fun a => key a = s) (VectorStore.sort compareFn l)
  = filter (fun a => key a = s) l.
Proof.
  induction 1 as [|x l Hx Hl IH]; [reflexivity|].
  unfold VectorStore.sort in *. simpl.
  rewrite insert_stable by (try assumption; now apply sort_ok).
  now rewrite !filter_cons, IH.
Qed.

End SortFacts.

Lemma bySimilarity_key (x y : Chunk.t) :
  is_Some (Chunk.similarity x) -> is_Some (Chunk.similarity y) ->
  VectorStore.positive (VectorStore.bySimilarity x y) = true
  <-> (Spec.score x < Spec.score y)%R.
Proof.
  intros [sx Hx] [sy Hy]. unfold VectorStore.bySimilarity, Spec.score.
  rewrite Hx, Hy. simpl. destruct (Rgt_dec (sy - sx) 0); split; intros; try lra;
    discriminate.
Qed.

(* ===================================================================== *)
(** * The range of the similarity *)
(* ===================================================================== *)

Lemma cauchy_schwarz (a b : list R) :
  (Spec.dot a b * Spec.dot a b <= Spec.sumSquares a * Spec.sumSquares b)%R.
Proof.
  revert b. induction a as [|x a IH]; intros [|y b].
  - unfold Spec.sumSquares. simpl. lra.
  - unfold Spec.sumSquares at 1. simpl. lra.
  - unfold Spec.sumSquares at 2. simpl. lra.
  - specialize (IH b).
    pose proof (sumSquares_nonneg a) as Ha.
    pose proof (sumSquares_nonneg b) as Hb.
    unfold Spec.sumSquares in *. simpl.
    set (d := Spec.dot a b) in *. set (sa := Spec.dot a a) in *.
    set (sb := Spec.dot b b) in *.
    assert (Hmix : (2 * (x * y) * d <= x * x * sb + y * y * sa)%R).
    { destruct (Rle_lt_dec (2 * (x * y) * d) (x * x * sb + y * y * sa)) as [H|H];
        [exact H|exfalso].
      assert (H1 : (0 <= x * x * sb + y * y * sa)%R) by nra.
      assert (H2 : ((x * x * sb + y * y * sa) * (x * x * sb + y * y * sa)
                    < (2 * (x * y) * d) * (2 * (x * y) * d))%R) by nra.
      assert (H3 : (0 <= (x * y) * (x * y))%R) by nra.
      assert (H4 : ((x * y) * (x * y) * (d * d) <= (x * y) * (x * y) * (sa * sb))%R)
        by (apply Rmult_le_compat_l; assumption).
      assert (H5 : (0 <= (x * x * sb - y * y * sa) * (x * x * sb - y * y * sa))%R)
        by apply Rle_0_sqr.
      nra. }
    nra.
Qed.

Lemma quotient_bounds (d n lo hi : R) :
  (0 < n)%R -> (lo * n <= d <= hi * n)%R -> (lo <= d / n <= hi)%R.
Proof.
  intros Hn [Hlo Hhi].
  assert (Hinv : (0 < / n)%R) by now apply Rinv_0_lt_compat.
  unfold Rdiv. split.
  - replace lo with ((lo * n) * / n)%R by (field; lra).
    apply Rmult_le_compat_r; lra.
  - replace hi with ((hi * n) * / n)%R by (field; lra).
    apply Rmult_le_compat_r; lra.
Qed.

Lemma cosineSimilarity_range (a b : option (list R)) :
  (-1 <= VectorStore.cosineSimilarity a b <= 1)%R.
Proof.
  destruct a as [a|], b as [b|]; try (simpl; lra).
  destruct (decide (length a = length b)) as [Hlen|Hlen].
  - rewrite cosineSimilarity_eq by assumption.
    destruct (Rgt_dec _ _) as [Hpos|_]; [|lra].
    pose proof (cauchy_schwarz a b) as Hcs.
    assert (Hsq : ((Spec.norm a * Spec.norm b) * (Spec.norm a * Spec.norm b)
                   = Spec.sumSquares a * Spec.sumSquares b)%R).
    { unfold Spec.norm.
      replace (sqrt (Spec.sumSquares a) * sqrt (Spec.sumSquares b)
               * (sqrt (Spec.sumSquares a) * sqrt (Spec.sumSquares b)))%R
        with ((sqrt (Spec.sumSquares a) * sqrt (Spec.sumSquares a))
              * (sqrt (Spec.sumSquares b) * sqrt (Spec.sumSquares b)))%R by ring.
      rewrite !sqrt_sqrt by apply sumSquares_nonneg. reflexivity. }
    set (n := (Spec.norm a * Spec.norm b)%R) in *. set (d := Spec.dot a b) in *.
    rewrite <- Hsq in Hcs.
    apply quotient_bounds; [lra|]. split; nra.
  - unfold VectorStore.cosineSimilarity.
    rewrite bool_decide_eq_true_2 by assumption. lra.
Qed.

Lemma dot_nonneg (a b : list R) :
  Forall (fun x => (0 <= x)%R) a -> Forall (fun x => (0 <= x)%R) b ->
  (0 <= Spec.dot a b)%R.
Proof.
  intros Ha. revert b. induction Ha as [|x a Hx Ha IH]; intros b Hb; simpl; [lra|].
  destruct Hb as [|y b Hy Hb]; [lra|].
  specialize (IH b Hb). nra.
Qed.

Lemma cosineSimilarity_nonneg (a b : option (list R)) :
  Spec.nonNegative a -> Spec.nonNegative b ->
  (0 <= VectorStore.cosineSimilarity a b)%R.
Proof.
  destruct a as [a|], b as [b|]; try (simpl; lra). simpl. intros Ha Hb.
  destruct (decide (length a = length b)) as [Hlen|Hlen].
  - change (0 <= VectorStore.cosineSimilarity (Some a) (Some b))%R.
    rewrite cosineSimilarity_eq by assumption.
    destruct (Rgt_dec _ _) as [Hpos|_]; [|lra].
    pose proof (dot_nonneg a b Ha Hb) as Hd.
    unfold Rdiv. apply Rle_mult_inv_pos; lra.
  - rewrite bool_decide_eq_true_2 by assumption. lra.
Qed.

(* ===================================================================== *)
(** * Search *)
(* ===================================================================== *)

Lemma truthy_spec (s : string) : Js.truthy s = true <-> s <> EmptyString.
Proof.
  unfold Js.truthy. destruct (String.eqb_spec s EmptyString); simpl; split;
    congruence.
Qed.

Lemma filters_spec (options : Options.t) (results : list Chunk.t) :
  match Options.folder options with
  | Some folder =>
      if Js.truthy folder
      then filter (fun r => Js.startsWith (Chunk.folder r) folder = true)
                  (if VectorStore.optionTruthy (Options.language options)
                   then filter (fun r => Some (Chunk.language r) = Options.language options) results
                   else results)
      else if VectorStore.optionTruthy (Options.language options)
           then filter (fun r => Some (Chunk.language r) = Options.language options) results
           else results
  | None =>
      if VectorStore.optionTruthy (Options.language options)
      then filter (fun r => Some (Chunk.language r) = Options.language options) results
      else results
  end
  = filter (Spec.admits options) results.
Proof.
  destruct options as [[l|] [f|] lim]; unfold Spec.admits; simpl.
  - destruct (Js.truthy f) eqn:Hf, (Js.truthy l) eqn:Hl.
    all: try apply truthy_spec in Hf; try apply truthy_spec in Hl.
    all: try (apply not_true_iff_false in Hf; rewrite truthy_spec in Hf).
    all: try (apply not_true_iff_false in Hl; rewrite truthy_spec in Hl).
    + rewrite list_filter_filter. apply list_filter_iff. intros x.
      split; [intros [H1 H2]; split; right; congruence|].
      intros [[H1|H1] [H2|H2]]; try congruence. split; congruence.
    + rewrite <- (filter_all (fun _ : Chunk.t => True) results) at 1
        by (apply Forall_forall; auto).
      rewrite list_filter_filter. apply list_filter_iff. intros x.
      assert (l = EmptyString) by (destruct (decide (l = EmptyString)); tauto).
      split; [intros [H1 _]; split; [left|right]; assumption|].
      intros [_ [H2|H2]]; [congruence | tauto].
    + apply list_filter_iff. intros x.
      assert (f = EmptyString) by (destruct (decide (f = EmptyString)); tauto).
      split; [intros H1; split; [right; congruence | left; assumption]|].
      intros [[H1|H1] _]; congruence.
    + symmetry. apply filter_all, Forall_forall. intros x _.
      assert (f = EmptyString) by (destruct (decide (f = EmptyString)); tauto).
      assert (l = EmptyString) by (destruct (decide (l = EmptyString)); tauto).
      split; left; assumption.
  - destruct (Js.truthy l) eqn:Hl.
    + apply truthy_spec in Hl. apply list_filter_iff. intros x.
      split; [intros H1; split; [right; congruence | exact I]|].
      intros [[H1|H1] _]; congruence.
    + apply not_true_iff_false in Hl. rewrite truthy_spec in Hl.
      symmetry. apply filter_all, Forall_forall. intros x _.
      assert (l = EmptyString) by (destruct (decide (l = EmptyString)); tauto).
      split; [left; assumption | exact I].
  - destruct (Js.truthy f) eqn:Hf.
    + apply truthy_spec in Hf. apply list_filter_iff. intros x.
      split; [intros H1; split; [exact I | right; assumption]|].
      intros [_ [H1|H1]]; congruence.
    + apply not_true_iff_false in Hf. rewrite truthy_spec in Hf.
      symmetry. apply filter_all, Forall_forall. intros x _.
      assert (f = EmptyString) by (destruct (decide (f = EmptyString)); tauto).
      split; [exact I | left; assumption].
  - symmetry. apply filter_all, Forall_forall. intros x _. split; exact I.
Qed.

Lemma rank_spec (queryEmbedding : option (list R)) (stored : list Chunk.t)
    (options : Options.t) :
  VectorStore.rank queryEmbedding stored options
  = map Chunk.withoutEmbedding
        (Js.sliceTo (VectorStore.limitOrDefault (Options.limit options))
           (VectorStore.sort VectorStore.bySimilarity
              (Spec.candidates queryEmbedding stored options))).
Proof.
  unfold VectorStore.rank, Spec.candidates.
  rewrite <- filters_spec.
  destruct (Options.folder options) as [f|]; [destruct (Js.truthy f)|];
    reflexivity.
Qed.

Lemma searchCode_found (projectId query : string) (options : Options.t)
    (env : Env) (st : State) (store : Store.t) :
  vectorStores st !! projectId = Some store ->
  VectorStore.searchCode projectId query options env st
  = match AiProvider.createEmbedding query env st with
    | (Ok q, st') => (Ok (VectorStore.rank q (Store.vectors store) options), st')
    | (Throw e, st') => (Throw e, st')
    end.
Proof.
  intros Hs. unfold VectorStore.searchCode, bind, getStores. simpl.
  rewrite Hs. destruct (AiProvider.createEmbedding query env st) as [[q|e] st'];
    reflexivity.
Qed.

Lemma searchCode_missing (projectId query : string) (options : Options.t)
    (env : Env) (st : State) :
  vectorStores st !! projectId = None ->
  VectorStore.searchCode projectId query options env st
  = (Throw (VectorStore.projectNotFound projectId), st).
Proof.
  intros Hs. unfold VectorStore.searchCode, bind, getStores. simpl.
  now rewrite Hs.
Qed.

Lemma candidates_scored (q : option (list R)) (stored : list Chunk.t)
    (options : Options.t) :
  Forall (fun c => is_Some (Chunk.similarity c)
                   /\ (-1 <= Spec.score c <= 1)%R
                   /\ exists c0, c0 ∈ stored /\ c = Spec.scored q c0)
         (Spec.candidates q stored options).
Proof.
  unfold Spec.candidates. apply Forall_forall. intros c Hc.
  apply list_elem_of_filter in Hc as [_ Hc].
  apply list_elem_of_fmap in Hc as (c0 & -> & Hc0).
  split; [eexists; reflexivity|].
  split; [apply cosineSimilarity_range|].
  now exists c0.
Qed.

Lemma sliceTo_take {A} (k : Z) (l : list A) :
  exists m, Js.sliceTo k l = take m l /\ ((0 <= k)%Z -> m = Z.to_nat k).
Proof.
  unfold Js.sliceTo. destruct (Z.ltb_spec k 0).
  - eexists. split; [reflexivity | lia].
  - eexists. split; [reflexivity | reflexivity].
Qed.

Lemma take_sorted {A} (R : relation A) (m : nat) (l : list A) :
  StronglySorted R l -> StronglySorted R (take m l).
Proof.
  intros Hs. rewrite <- (take_drop m l) in Hs.
  now apply StronglySorted_app_1_l in Hs.
Qed.

Lemma filter_take_prefix {A} (P : A -> Prop) `{forall x, Decision (P x)}
    (m : nat) (l : list A) :
  filter P (take m l) `prefix_of` filter P l.
Proof.
  rewrite <- (take_drop m l) at 2. rewrite filter_app.
  now apply prefix_app_r.
Qed.

Lemma score_withoutEmbedding (c : Chunk.t) :
  Spec.score (Chunk.withoutEmbedding c) = Spec.score c.
Proof. reflexivity. Qed.

Lemma filter_score_map (s : R) (l : list Chunk.t) :
  filter (fun r => Spec.score r = s) (map Chunk.withoutEmbedding l)
  = map Chunk.withoutEmbedding (filter (fun c => Spec.score c = s) l).
Proof.
  induction l as [|c l IH]; [reflexivity|].
  simpl. rewrite !filter_cons, IH, score_withoutEmbedding.
  now case_decide.
Qed.

Lemma prefix_map {A B} (f : A -> B) (l1 l2 : list A) :
  l1 `prefix_of` l2 -> map f l1 `prefix_of` map f l2.
Proof. intros [k ->]. exists (map f k). apply map_app. Qed.

(** What [rank] returns: a prefix of the stable descending sort of the
    candidates, without the embeddings. *)
Lemma rank_properties (q : option (list R)) (stored : list Chunk.t)
    (options : Options.t) :
  let candidates := Spec.candidates q stored options in
  let results := VectorStore.rank q stored options in
  exists ranked m,
    ranked ≡ₚ candidates
    /\ StronglySorted Spec.scoresAtLeast ranked
    /\ (forall s, filter (fun c => Spec.score c = s) ranked
                  = filter (fun c => Spec.score c = s) candidates)
    /\ results = map Chunk.withoutEmbedding (take m ranked)
    /\ ((0 <= VectorStore.limitOrDefault (Options.limit options))%Z ->
        m = Z.to_nat (VectorStore.limitOrDefault (Options.limit options)))
    /\ StronglySorted Spec.scoresAtLeast results
    /\ (forall s, filter (fun r => Spec.score r = s) results
                  `prefix_of` map Chunk.withoutEmbedding
                                  (filter (fun c => Spec.score c = s) candidates))
    /\ Forall (fun r => Chunk.embedding r = None
                        /\ exists s, Chunk.similarity r = Some s
                                     /\ (-1 <= s <= 1)%R) results
    /\ (Spec.nonNegative q ->
        Forall (fun c => Spec.nonNegative (Chunk.embedding c)) stored ->
        Forall (fun r => (0 <= Spec.score r)%R) results).
Proof.
  intros candidates results.
  set (ranked := VectorStore.sort VectorStore.bySimilarity candidates).
  pose proof (candidates_scored q stored options) as Hcand. fold candidates in Hcand.
  assert (Hok : Forall (fun c => is_Some (Chunk.similarity c)) candidates).
  { eapply Forall_impl; [exact Hcand|]. now intros c [H _]. }
  assert (Hperm : ranked ≡ₚ candidates) by apply sort_perm.
  assert (Hsorted : StronglySorted Spec.scoresAtLeast ranked).
  { apply (sort_sorted VectorStore.bySimilarity Spec.score
             (fun c => is_Some (Chunk.similarity c)) bySimilarity_key).
    exact Hok. }
  assert (Hstable : forall s, filter (fun c => Spec.score c = s) ranked
                              = filter (fun c => Spec.score c = s) candidates).
  { intros s.
    apply (sort_stable VectorStore.bySimilarity Spec.score
             (fun c => is_Some (Chunk.similarity c)) bySimilarity_key).
    exact Hok. }
  destruct (sliceTo_take (VectorStore.limitOrDefault (Options.limit options)) ranked)
    as (m & Hslice & Hm).
  assert (Hres : results = map Chunk.withoutEmbedding (take m ranked)).
  { unfold results. rewrite rank_spec. fold candidates. fold ranked.
    now rewrite Hslice. }
  assert (Hin : forall r, r ∈ results ->
            exists c, c ∈ candidates /\ r = Chunk.withoutEmbedding c).
  { intros r Hr. rewrite Hres in Hr.
    apply list_elem_of_fmap in Hr as (c & -> & Hc).
    exists c. split; [|reflexivity].
    rewrite <- Hperm. apply (subseteq_take m ranked), Hc. }
  exists ranked, m. repeat split; try assumption.
  - rewrite Hres. apply StronglySorted_fmap with (R1 := Spec.scoresAtLeast).
    + intros x y Hxy. unfold Spec.scoresAtLeast in *.
      now rewrite !score_withoutEmbedding.
    + now apply take_sorted.
  - intros s. rewrite Hres, filter_score_map, <- Hstable.
    apply prefix_map, filter_take_prefix.
  - apply Forall_forall. intros r Hr.
    destruct (Hin r Hr) as (c & Hc & ->).
    rewrite Forall_forall in Hcand.
    destruct (Hcand c Hc) as ([s Hs] & Hrange & _).
    split; [reflexivity|]. exists s. split; [exact Hs|].
    unfold Spec.score in Hrange. now rewrite Hs in Hrange.
  - intros Hq Hstored. apply Forall_forall. intros r Hr.
    destruct (Hin r Hr) as (c & Hc & ->).
    rewrite Forall_forall in Hcand.
    destruct (Hcand c Hc) as (_ & _ & c0 & Hc0 & ->).
    rewrite score_withoutEmbedding. unfold Spec.score, Spec.scored. simpl.
    apply cosineSimilarity_nonneg; [exact Hq|].
    rewrite Forall_forall in Hstored. now apply Hstored.
Qed.

(* ===================================================================== *)
(** * The embedding providers *)
(* ===================================================================== *)

Lemma createEmbedding_openai (env : Env) (text : string) (st : State) :
  AiProvider.getProvider env = "openai" ->
  AiProvider.createEmbedding text env st
  = let request := OpenAIEmbeddings (Some "text-embedding-3-small")
                     (Js.stringSliceTo AiProvider.inputLimit text) in
    match sdkEmbedding env (length (requests st)) request with
    | Resolved v => (Ok v, after st [request] [])
    | Rejected m => (Throw (Error m), after st [request] [ErrOpenAIEmbedding m])
    | NoClient m => (Throw (Error m), after st [] [ErrOpenAIEmbedding m])
    end.
Proof.
  intros Hp. unfold AiProvider.createEmbedding, bind, askEnv. rewrite Hp.
  change ("openai" =? AiProvider.OPENAI) with true. cbv iota.
  unfold AiProvider.createOpenAIEmbedding, tryCatch, bind, awaitSdk, after.
  cbn [AiProvider.providerConfigs AiProvider.property ret].
  change (AiProvider.providerConfigs env "openai")
    with (Some (AiProvider.mkConfig (Some "OpenAI") (Some "text-embedding-3-small")
                  (Some "gpt-4o-mini") (Some true) (Some "OPENAI_API_KEY") None)).
  cbn [AiProvider.property ret AiProvider.embeddingModel].
  destruct (sdkEmbedding env _ _) as [v|m|m]; cbn.
  - unfold record. now rewrite app_nil_r.
  - reflexivity.
  - now rewrite app_nil_r.
Qed.

Lemma createEmbedding_ollama (env : Env) (text : string) (st : State) :
  AiProvider.getProvider env = "ollama" ->
  AiProvider.createEmbedding text env st
  = let request :=
      OllamaEmbeddings
        (Some (AiProvider.orElse (OLLAMA_BASE_URL env) "http://localhost:11434"))
        (Some "nomic-embed-text")
        (Js.stringSliceTo AiProvider.inputLimit text) in
    let fallback := Some (AiProvider.createSimpleEmbedding text) in
    match fetchEmbedding env (length (requests st)) request with
    | FetchBody data => (Ok data, after st [request] [])
    | FetchRejected m =>
        (Ok fallback, after st [request] [ErrOllamaEmbedding m; WarnFallingBack])
    | FetchNotOk statusText =>
        (Ok fallback,
         after st [request]
               [ErrOllamaEmbedding ("Ollama error: " +:+ statusText); WarnFallingBack])
    end.
Proof.
  intros Hp. unfold AiProvider.createEmbedding, bind, askEnv. rewrite Hp.
  change ("ollama" =? AiProvider.OPENAI) with false.
  change ("ollama" =? AiProvider.OLLAMA) with true. cbv iota.
  change (AiProvider.providerConfigs env "ollama")
    with (Some (AiProvider.mkConfig (Some "Ollama (Local)") (Some "nomic-embed-text")
                  (Some "llama3.2") (Some false) None
                  (Some (AiProvider.orElse (OLLAMA_BASE_URL env)
                                           "http://localhost:11434")))).
  unfold AiProvider.createOllamaEmbedding, tryCatch, bind, awaitFetch, after.
  cbn [AiProvider.property ret AiProvider.embeddingModel AiProvider.baseUrl].
  destruct (fetchEmbedding env _ _) as [m|t|data]; cbn.
  - unfold record, consoleWrite, bind, ret. cbn. now rewrite <- app_assoc.
  - unfold record, consoleWrite, bind, ret. cbn. now rewrite <- app_assoc.
  - unfold record. now rewrite app_nil_r.
Qed.

Lemma createEmbedding_offline (env : Env) (text : string) (st : State) :
  AiProvider.getProvider env <> "openai" ->
  AiProvider.getProvider env <> "ollama" ->
  AiProvider.createEmbedding text env st
  = (Ok (Some (AiProvider.createSimpleEmbedding text)), st).
Proof.
  intros H1 H2. unfold AiProvider.createEmbedding, bind, askEnv.
  cbv zeta.
  destruct (String.eqb_spec (AiProvider.getProvider env) AiProvider.OPENAI);
    [contradiction|].
  destruct (String.eqb_spec (AiProvider.getProvider env) AiProvider.OLLAMA);
    [contradiction|].
  now destruct (_ || _).
Qed.

Lemma sliceTo_map {A B} (f : A -> B) (k : Z) (l : list A) :
  map f (Js.sliceTo k l) = Js.sliceTo k (map f l).
Proof.
  unfold Js.sliceTo. rewrite length_map.
  destruct (k <? 0)%Z; apply fmap_take.
Qed.

Lemma norm_unit : Spec.norm [1%R] = 1%R.
Proof.
  unfold Spec.norm, Spec.sumSquares. simpl.
  replace (1 * 1 + 0)%R with 1%R by lra. apply sqrt_1.
Qed.

Lemma norm_minus_unit : Spec.norm [(-1)%R] = 1%R.
Proof.
  unfold Spec.norm, Spec.sumSquares. simpl.
  replace (-1 * -1 + 0)%R with 1%R by lra. apply sqrt_1.
Qed.

Lemma cosine_same : VectorStore.cosineSimilarity (Some [1%R]) (Some [1%R]) = 1%R.
Proof.
  rewrite cosineSimilarity_eq by reflexivity. rewrite norm_unit.
  destruct (Rgt_dec _ _); [simpl; field | lra].
Qed.

Lemma cosine_opposite :
  VectorStore.cosineSimilarity (Some [1%R]) (Some [(-1)%R]) = (-1)%R.
Proof.
  rewrite cosineSimilarity_eq by reflexivity.
  rewrite norm_unit, norm_minus_unit.
  destruct (Rgt_dec _ _); [simpl; field | lra].
Qed.

(** The ranking of the two opposite chunks against the query vector
    [(1)], before the limit is applied. *)
Lemma rank_opposite (limit : option Z) :
  VectorStore.rank (Some [1%R]) Sample.opposite (Options.mk None None limit)
  = Js.sliceTo (VectorStore.limitOrDefault limit)
               [Sample.found "a.js" 1; Sample.found "b.js" (-1)].
Proof.
  unfold VectorStore.rank, Sample.opposite. cbn [Options.language Options.folder
    Options.limit VectorStore.optionTruthy map Sample.indexed Chunk.embedding].
  rewrite cosine_same, cosine_opposite.
  unfold VectorStore.sort. cbn [foldr VectorStore.insert].
  unfold VectorStore.positive, VectorStore.bySimilarity. simpl.
  destruct (Rgt_dec (-1 - 1) 0) as [H|_]; [lra|].
  rewrite sliceTo_map. reflexivity.
Qed.

Lemma search_opposite (limit : option Z) :
  exists st',
    VectorStore.searchCode "p" "query" (Options.mk None None limit)
      Sample.ollamaOnes (Sample.oneProject Sample.opposite [])
    = (Ok (Js.sliceTo (VectorStore.limitOrDefault limit)
                      [Sample.found "a.js" 1; Sample.found "b.js" (-1)]), st').
Proof.
  eexists. erewrite searchCode_found by reflexivity.
  rewrite createEmbedding_ollama by reflexivity.
  cbn [fetchEmbedding Sample.ollamaOnes Store.vectors].
  now rewrite rank_opposite.
Qed.

(** C2, the claim as the specification states it, fails on a project
    of two chunks whose stored embeddings are [(1)] and [(-1)], with an
    Ollama server that embeds the query as [(1)]: a search with limit 0
    returns both chunks, which is more than the limit, and the second
    one has the similarity -1, which is not in [0,1]. *)
Lemma C2_counterexample :
  exists st',
    VectorStore.searchCode "p" "query" (Options.mk None None (Some 0%Z))
      Sample.ollamaOnes (Sample.oneProject Sample.opposite [])
    = (Ok [Sample.found "a.js" 1; Sample.found "b.js" (-1)], st').
Proof. apply (search_opposite (Some 0%Z)). Qed.

(** C2, amended.  When [searchCode] returns, the project is indexed and
    the query was embedded, and the results are a prefix of the stable
    descending sort of the candidates (the stored chunks the filters
    admit, scored by cosine similarity, in insertion order), without
    their embeddings.  So there are at most [limit] results for a
    positive limit and at most 10 when the limit is absent or 0; the
    results are sorted by non-increasing similarity; the results of one
    similarity are the first candidates of that similarity, in insertion
    order; no result carries an embedding; and the similarity of a
    result is the value [cosineSimilarity] computes for the query
    embedding and the stored embedding of its chunk, whatever that
    value is: no range is promised for it. *)
Theorem C2_searchCode_results (projectId query : string) (options : Options.t)
    (env : Env) (st st' : State) (results : list Chunk.t) :
  VectorStore.searchCode projectId query options env st = (Ok results, st') ->
  exists store q,
    vectorStores st !! projectId = Some store
    /\ AiProvider.createEmbedding query env st = (Ok q, st')
    /\ (forall n, Options.limit options = Some n -> (0 < n)%Z ->
                  length results <= Z.to_nat n)
    /\ (Options.limit options = None \/ Options.limit options = Some 0%Z ->
        length results <= 10)
    /\ StronglySorted Spec.scoresAtLeast results
    /\ (forall s,
          filter (fun r => Spec.score r = s) results
          `prefix_of`
          map Chunk.withoutEmbedding
              (filter (fun c => Spec.score c = s)
                      (Spec.candidates q (Store.vectors store) options)))
    /\ Forall (fun r =>
                 Chunk.embedding r = None
                 /\ exists c,
                      c ∈ Store.vectors store
                      /\ Spec.admits options (Spec.scored q c)
                      /\ r = Chunk.withoutEmbedding (Spec.scored q c)
                      /\ Chunk.similarity r
                         = Some (VectorStore.cosineSimilarity q (Chunk.embedding c)))
              results.
Proof.
  intros Hsearch.
  destruct (vectorStores st !! projectId) as [store|] eqn:Hstore.
  2: { rewrite searchCode_missing in Hsearch by assumption. discriminate. }
  rewrite (searchCode_found _ _ _ _ _ _ Hstore) in Hsearch.
  destruct (AiProvider.createEmbedding query env st) as [[q|e] st1] eqn:Hq;
    [|discriminate].
  injection Hsearch as <- <-.
  exists store, q.
  destruct (rank_properties q (Store.vectors store) options)
    as (ranked & m & Hperm & Hsorted & Hstable & Hres & Hm & Hrs & Hties & Hall & Hnn).
  assert (Hlen : (0 <= VectorStore.limitOrDefault (Options.limit options))%Z ->
            length (VectorStore.rank q (Store.vectors store) options)
            <= Z.to_nat (VectorStore.limitOrDefault (Options.limit options))).
  { intros Hk. rewrite Hres, length_map, length_take, (Hm Hk). lia. }
  split; [reflexivity|]. split; [reflexivity|]. split; [|split; [|split; [|split]]].
  - intros n Hn Hpos. rewrite Hn in Hlen. simpl in Hlen.
    destruct (Z.eqb_spec n 0); [lia|]. apply Hlen. lia.
  - intros [Hn|Hn]; rewrite Hn in Hlen; simpl in Hlen;
      change 10 with (Z.to_nat 10); apply Hlen; lia.
  - exact Hrs.
  - exact Hties.
  - rewrite Forall_forall in Hall |- *. intros r Hr.
    split; [now apply Hall|].
    rewrite Hres in Hr. apply list_elem_of_fmap in Hr as (c' & -> & Hc').
    apply elem_of_take in Hc' as (i & Hc' & _).
    apply list_elem_of_lookup_2 in Hc'. rewrite Hperm in Hc'.
    unfold Spec.candidates in Hc'.
    apply list_elem_of_filter in Hc' as (Hadm & Hc').
    apply list_elem_of_fmap in Hc' as (c & -> & Hc).
    exists c. split; [exact Hc|]. split; [exact Hadm|]. split; reflexivity.
Qed.

(** C2 at the project of the two opposite chunks, searched with limit
    2 through an Ollama server that embeds the query as [(1)]: the
    search returns both chunks, the one of similarity 1 before the one
    of similarity -1, without their embeddings. *)
Lemma C2_witness :
  exists results st',
    VectorStore.searchCode "p" "query" (Options.mk None None (Some 2%Z))
      Sample.ollamaOnes (Sample.oneProject Sample.opposite [])
    = (Ok results, st')
    /\ results = [Sample.found "a.js" 1; Sample.found "b.js" (-1)]
    /\ length results <= 2
    /\ StronglySorted Spec.scoresAtLeast results
    /\ Forall (fun r =>
                 Chunk.embedding r = None
                 /\ exists c,
                      c ∈ Sample.opposite
                      /\ Chunk.similarity r
                         = Some (VectorStore.cosineSimilarity (Some [1%R])
                                   (Chunk.embedding c)))
              results.
Proof.
  destruct (search_opposite (Some 2%Z)) as [st' Hsearch].
  destruct (C2_searchCode_results _ _ _ _ _ _ _ Hsearch)
    as (store & q & Hstore & Hq & Hlimit & _ & Hsorted & _ & Hall).
  injection Hstore as <-.
  rewrite createEmbedding_ollama in Hq by reflexivity.
  cbn [fetchEmbedding Sample.ollamaOnes] in Hq. injection Hq as <- _.
  eexists _, st'. split; [exact Hsearch|]. split; [reflexivity|].
  split; [|split].
  - apply (Hlimit 2%Z); [reflexivity | lia].
  - exact Hsorted.
  - eapply Forall_impl; [exact Hall|]. cbn [Store.vectors].
    intros r (He & c & Hc & _ & _ & Hs). split; [exact He|]. now exists c.
Defined.

Lemma sliceTo_count {A} (k : Z) (l : list A) :
  Js.sliceTo k l
  = take (if (k <? 0)%Z then length l - Z.to_nat (- k) else Z.to_nat k) l.
Proof.
  unfold Js.sliceTo. destruct (Z.ltb_spec k 0); [|reflexivity].
  f_equal. lia.
Qed.

(** The number of results of a ranking. *)
Lemma rank_count (q : option (list R)) (stored : list Chunk.t)
    (options : Options.t) :
  let k := VectorStore.limitOrDefault (Options.limit options) in
  let n := length (Spec.candidates q stored options) in
  length (VectorStore.rank q stored options)
  = if (k <? 0)%Z then n - Z.to_nat (- k) else Nat.min (Z.to_nat k) n.
Proof.
  cbv zeta. rewrite rank_spec, sliceTo_count, length_map, length_take.
  rewrite (Permutation_length (sort_perm _ _)).
  destruct (_ <? 0)%Z; lia.
Qed.

(** C10, the claim as the specification states it, fails on the project
    of the two opposite chunks: a search without limit returns both
    chunks, and the same search with limit -2 returns none, so zero
    results can be requested through the limit option. *)
Lemma C10_counterexample :
  (exists st',
      VectorStore.searchCode "p" "query" (Options.mk None None None)
        Sample.ollamaOnes (Sample.oneProject Sample.opposite [])
      = (Ok [Sample.found "a.js" 1; Sample.found "b.js" (-1)], st'))
  /\ (exists st',
        VectorStore.searchCode "p" "query" (Options.mk None None (Some (-2)%Z))
          Sample.ollamaOnes (Sample.oneProject Sample.opposite [])
        = (Ok [], st')).
Proof.
  split; [apply (search_opposite None) | apply (search_opposite (Some (-2)%Z))].
Qed.

(** C10, amended.  For every project, query and filters, a search with
    limit 0 is the search with limit 10, and so is a search without
    limit: the expression [options.limit || 10] replaces every falsy
    limit by 10.  Whenever a search returns, the project is indexed,
    the query was embedded, and with [n] candidates (the stored chunks
    the filters admit) it returns [min(10, n)] results for a falsy
    limit, [min(k, n)] for a positive limit [k], and [n - k], or none
    when [k >= n], for a negative limit [-k]: zero results cannot be
    requested with a falsy limit, but they can with a negative one.
    With a provider other than OpenAI the search of an indexed project
    always returns. *)
Theorem C10_falsy_limit (projectId query : string) (language folder : option string)
    (env : Env) (st : State) :
  let zero := Options.mk language folder (Some 0%Z) in
  let absent := Options.mk language folder None in
  let ten := Options.mk language folder (Some 10%Z) in
  VectorStore.searchCode projectId query zero env st
  = VectorStore.searchCode projectId query ten env st
  /\ VectorStore.searchCode projectId query absent env st
     = VectorStore.searchCode projectId query ten env st
  /\ (forall limit results st',
        VectorStore.searchCode projectId query (Options.mk language folder limit)
          env st
        = (Ok results, st') ->
        exists store q,
          vectorStores st !! projectId = Some store
          /\ AiProvider.createEmbedding query env st = (Ok q, st')
          /\ let n := length (Spec.candidates q (Store.vectors store) zero) in
             (limit = None \/ limit = Some 0%Z ->
              length results = Nat.min 10 n /\ (0 < n -> results <> []))
             /\ (forall k, limit = Some k -> (0 < k)%Z ->
                           length results = Nat.min (Z.to_nat k) n)
             /\ (forall k, limit = Some k -> (k < 0)%Z ->
                           length results = n - Z.to_nat (- k)))
  /\ (forall store limit,
        vectorStores st !! projectId = Some store ->
        AiProvider.getProvider env <> "openai" ->
        exists results st',
          VectorStore.searchCode projectId query (Options.mk language folder limit)
            env st
          = (Ok results, st')).
Proof.
  intros zero absent ten. split; [reflexivity|]. split; [reflexivity|]. split.
  - intros limit results st' Hsearch.
    destruct (vectorStores st !! projectId) as [store|] eqn:Hstore.
    2: { rewrite searchCode_missing in Hsearch by assumption. discriminate. }
    rewrite (searchCode_found _ _ _ _ _ _ Hstore) in Hsearch.
    destruct (AiProvider.createEmbedding query env st) as [[q|e] st1] eqn:Hq;
      [|discriminate].
    injection Hsearch as <- <-. exists store, q.
    split; [reflexivity|]. split; [reflexivity|]. cbv zeta.
    pose proof (rank_count q (Store.vectors store)
                  (Options.mk language folder limit)) as Hcount.
    cbv zeta in Hcount. cbn [Options.limit] in Hcount.
    change (Spec.candidates q (Store.vectors store) (Options.mk language folder limit))
      with (Spec.candidates q (Store.vectors store) zero) in Hcount.
    set (n := length (Spec.candidates q (Store.vectors store) zero)) in *.
    split; [|split].
    + intros Hlimit.
      assert (Hlen : length (VectorStore.rank q (Store.vectors store)
                               (Options.mk language folder limit))
                     = Nat.min 10 n).
      { rewrite Hcount. destruct Hlimit as [-> | ->]; reflexivity. }
      split; [exact Hlen|]. intros Hn Hnil. rewrite Hnil in Hlen.
      cbn [length] in Hlen. lia.
    + intros k -> Hk. rewrite Hcount. cbn [VectorStore.limitOrDefault].
      destruct (Z.eqb_spec k 0); [lia|]. destruct (Z.ltb_spec k 0); [lia|].
      reflexivity.
    + intros k -> Hk. rewrite Hcount. cbn [VectorStore.limitOrDefault].
      destruct (Z.eqb_spec k 0); [lia|]. destruct (Z.ltb_spec k 0); [|lia].
      reflexivity.
  - intros store limit Hstore Hp.
    rewrite (searchCode_found _ _ _ _ _ _ Hstore).
    destruct (decide (AiProvider.getProvider env = "ollama")) as [Ho|Ho].
    + rewrite createEmbedding_ollama by assumption. cbv zeta.
      destruct (fetchEmbedding env _ _); now do 2 eexists.
    + rewrite createEmbedding_offline by assumption. now do 2 eexists.
Qed.

(** C10 at the project of the two opposite chunks: the search with
    limit 0 returns, and it returns both chunks. *)
Lemma C10_witness :
  exists results st',
    VectorStore.searchCode "p" "query" (Options.mk None None (Some 0%Z))
      Sample.ollamaOnes (Sample.oneProject Sample.opposite [])
    = (Ok results, st')
    /\ length results = 2
    /\ results <> [].
Proof.
  destruct (C10_falsy_limit "p" "query" None None Sample.ollamaOnes
              (Sample.oneProject Sample.opposite []))
    as (_ & _ & Hcount & Hreturns).
  destruct (Hreturns (Store.mk Sample.opposite [] "2024-01-01T00:00:00.000Z"
                               (Stats.mk 0 2 []))
                     (Some 0%Z) eq_refl)
    as (results & st' & Hsearch); [discriminate|].
  exists results, st'. split; [exact Hsearch|].
  destruct (Hcount _ _ _ Hsearch) as (store & q & Hstore & Hq & Hfalsy & _).
  injection Hstore as <-.
  rewrite createEmbedding_ollama in Hq by reflexivity.
  cbn [fetchEmbedding Sample.ollamaOnes] in Hq. injection Hq as <- _.
  destruct (Hfalsy (or_intror eq_refl)) as (Hlen & Hsome).
  split; [exact Hlen|]. apply Hsome. change (0 < 2). lia.
Defined.

(* ===================================================================== *)
(** * Unrecognized provider keys *)
(* ===================================================================== *)

Lemma generateCompletion_offline (env : Env) (systemPrompt userPrompt : string)
    (st : State) :
  AiProvider.getProvider env <> "openai" ->
  AiProvider.getProvider env <> "ollama" ->
  AiProvider.getProvider env <> "groq" ->
  AiProvider.generateCompletion systemPrompt userPrompt env st
  = (Ok (AiProvider.generateDemoCompletion userPrompt), st).
Proof.
  intros H1 H2 H3. unfold AiProvider.generateCompletion, bind, askEnv.
  cbv zeta.
  destruct (String.eqb_spec (AiProvider.getProvider env) AiProvider.OPENAI);
    [contradiction|].
  destruct (String.eqb_spec (AiProvider.getProvider env) AiProvider.OLLAMA);
    [contradiction|].
  destruct (String.eqb_spec (AiProvider.getProvider env) AiProvider.GROQ);
    [contradiction|].
  now destruct (_ =? _).
Qed.

Lemma providerConfigs_unknown (env : Env) (key : string) :
  key <> "openai" -> key <> "ollama" -> key <> "groq" -> key <> "demo" ->
  key <> "constructor" -> key <> "__proto__" ->
  AiProvider.providerConfigs env key = None.
Proof.
  intros H1 H2 H3 H4 H5 H6. unfold AiProvider.providerConfigs.
  destruct (String.eqb_spec key AiProvider.OPENAI); [contradiction|].
  destruct (String.eqb_spec key AiProvider.OLLAMA); [contradiction|].
  destruct (String.eqb_spec key AiProvider.GROQ); [contradiction|].
  destruct (String.eqb_spec key AiProvider.DEMO); [contradiction|].
  destruct (String.eqb_spec key "constructor"); [contradiction|].
  destruct (String.eqb_spec key "__proto__"); [contradiction|].
  reflexivity.
Qed.

(** C4.  For a provider key that is not one of the four recognized
    ones, [createEmbedding] returns the offline embedding and
    [generateCompletion] the demo completion, without any request.  But
    [getProviderStatus] reads [config.name] of a configuration that is
    [undefined]: unless the key names a property every object inherits
    ([constructor], [__proto__]), it throws a [TypeError], and since the
    module calls it when it is loaded, the import of the module throws
    before any operation can be called. *)
Theorem C4_unrecognized_key (env : Env) (text systemPrompt userPrompt : string)
    (st : State) :
  AiProvider.getProvider env <> "openai" ->
  AiProvider.getProvider env <> "ollama" ->
  AiProvider.getProvider env <> "groq" ->
  AiProvider.getProvider env <> "demo" ->
  AiProvider.createEmbedding text env st
  = (Ok (Some (AiProvider.createSimpleEmbedding text)), st)
  /\ AiProvider.generateCompletion systemPrompt userPrompt env st
     = (Ok (AiProvider.generateDemoCompletion userPrompt), st)
  /\ (AiProvider.getProvider env <> "constructor" ->
      AiProvider.getProvider env <> "__proto__" ->
      let error := TypeError "Cannot read properties of undefined (reading 'name')" in
      AiProvider.getProviderStatus env st = (Throw error, st)
      /\ AiProvider.moduleLoad env st = (Throw error, st)).
Proof.
  intros H1 H2 H3 H4. split; [|split].
  - now apply createEmbedding_offline.
  - now apply generateCompletion_offline.
  - intros H5 H6 error.
    assert (Hs : AiProvider.getProviderStatus env st = (Throw error, st)).
    { unfold AiProvider.getProviderStatus, bind, askEnv. cbv zeta.
      now rewrite providerConfigs_unknown. }
    split; [exact Hs|].
    unfold AiProvider.moduleLoad, bind. now rewrite Hs.
Qed.

(** C4 at [AI_PROVIDER=mistral]: the two operations would use the
    offline provider, and loading the module throws. *)
Lemma C4_witness :
  AiProvider.createEmbedding "query" Sample.mistral (Sample.oneProject [] [])
  = (Ok (Some (AiProvider.createSimpleEmbedding "query")), Sample.oneProject [] [])
  /\ AiProvider.moduleLoad Sample.mistral (Sample.oneProject [] [])
     = (Throw (TypeError "Cannot read properties of undefined (reading 'name')"),
        Sample.oneProject [] []).
Proof.
  assert (Hkey : AiProvider.getProvider Sample.mistral = "mistral")
    by (vm_compute; reflexivity).
  destruct (C4_unrecognized_key Sample.mistral "query" "" "" (Sample.oneProject [] []))
    as (Hembed & _ & Hload); try (rewrite Hkey; discriminate).
  split; [exact Hembed|].
  apply Hload; rewrite Hkey; discriminate.
Defined.

(* ===================================================================== *)
(** * Lookup failures *)
(* ===================================================================== *)

Lemma find_none (files : list File.t) (filePath : string) :
  Forall (fun f => File.path f <> filePath) files ->
  List.find (fun f => String.eqb (File.path f) filePath) files = None.
Proof.
  induction 1 as [|f files Hf Hfiles IH]; [reflexivity|].
  simpl. destruct (String.eqb_spec (File.path f) filePath); [contradiction|].
  exact IH.
Qed.

Lemma explainFile_missing (projectId filePath : string) (env : Env) (st : State) :
  Qa.findFile (Store.files <$> vectorStores st !! projectId) filePath = None ->
  Qa.explainFile projectId filePath env st = (Throw (Qa.fileNotFound filePath), st).
Proof.
  intros Hfind.
  unfold Qa.explainFile, VectorStore.getProjectFiles, bind, getStores, ret.
  now rewrite Hfind.
Qed.

(** C9.  A search of a project id that is not in the project map
    throws [ProjectNotFound] and leaves the state as it is: no request
    was sent and nothing was logged, so the query was not embedded.
    After [deleteProject] the id is not in the map, so the same holds
    for a deleted project.  [explainFile] with a path that no file of
    the project has throws [FileNotFound] and leaves the state as it
    is, so the completion provider was not called; the same holds when
    the project itself is missing. *)
Theorem C9_lookup_failures (projectId : string) (env : Env) (st : State) :
  (forall query options,
      vectorStores st !! projectId = None ->
      VectorStore.searchCode projectId query options env st
      = (Throw (VectorStore.projectNotFound projectId), st))
  /\ (forall query options,
        exists existed st1,
          VectorStore.deleteProject projectId env st = (Ok existed, st1)
          /\ console st1 = console st /\ requests st1 = requests st
          /\ VectorStore.searchCode projectId query options env st1
             = (Throw (VectorStore.projectNotFound projectId), st1))
  /\ (forall filePath store,
        vectorStores st !! projectId = Some store ->
        Forall (fun f => File.path f <> filePath) (Store.files store) ->
        Qa.explainFile projectId filePath env st
        = (Throw (Qa.fileNotFound filePath), st))
  /\ (forall filePath,
        vectorStores st !! projectId = None ->
        Qa.explainFile projectId filePath env st
        = (Throw (Qa.fileNotFound filePath), st)).
Proof.
  split; [|split; [|split]].
  - intros query options. apply searchCode_missing.
  - intros query options. do 2 eexists.
    split; [reflexivity|]. split; [reflexivity|]. split; [reflexivity|].
    apply searchCode_missing. simpl. apply lookup_delete_eq.
  - intros filePath store Hstore Hfiles. apply explainFile_missing.
    rewrite Hstore. simpl. now apply find_none.
  - intros filePath Hstore. apply explainFile_missing. now rewrite Hstore.
Qed.

(** C9 at the project [p] that holds [app.js]: a search of the project
    [q], which was never indexed, and the explanation of [missing.js]. *)
Lemma C9_witness :
  VectorStore.searchCode "q" "add function" Options.none
    (Sample.offline None) Sample.emptyProject
  = (Throw (VectorStore.projectNotFound "q"), Sample.emptyProject)
  /\ Qa.explainFile "p" "missing.js" (Sample.offline None) Sample.emptyProject
     = (Throw (Qa.fileNotFound "missing.js"), Sample.emptyProject).
Proof.
  split.
  - apply (C9_lookup_failures "q" (Sample.offline None) Sample.emptyProject).
    reflexivity.
  - destruct (C9_lookup_failures "p" (Sample.offline None) Sample.emptyProject)
      as (_ & _ & Hfile & _).
    eapply Hfile.
    + reflexivity.
    + repeat constructor. discriminate.
Defined.

(* ===================================================================== *)
(** * Answers *)
(* ===================================================================== *)

Lemma confidenceOf_label (s : R) :
  (Qa.confidenceOf (Some s) = high <-> (s > 8 / 10)%R)
  /\ (Qa.confidenceOf (Some s) = medium <-> (6 / 10 < s <= 8 / 10)%R)
  /\ (Qa.confidenceOf (Some s) = low <-> (s <= 6 / 10)%R).
Proof.
  unfold Qa.confidenceOf.
  destruct (Rgt_dec s (8 / 10)), (Rgt_dec s (6 / 10));
    repeat split; intros; try discriminate; try reflexivity; lra.
Qed.

Lemma rank_length (q : option (list R)) (stored : list Chunk.t)
    (options : Options.t) :
  (0 <= VectorStore.limitOrDefault (Options.limit options))%Z ->
  length (VectorStore.rank q stored options)
  <= Z.to_nat (VectorStore.limitOrDefault (Options.limit options)).
Proof.
  intros Hk.
  destruct (rank_properties q stored options)
    as (ranked & m & _ & _ & _ & Hres & Hm & _).
  rewrite Hres, length_map, length_take, (Hm Hk). lia.
Qed.

Lemma searchCode_ok (projectId query : string) (options : Options.t)
    (env : Env) (st st' : State) (results : list Chunk.t) :
  VectorStore.searchCode projectId query options env st = (Ok results, st') ->
  exists store q,
    vectorStores st !! projectId = Some store
    /\ AiProvider.createEmbedding query env st = (Ok q, st')
    /\ results = VectorStore.rank q (Store.vectors store) options.
Proof.
  intros Hsearch.
  destruct (vectorStores st !! projectId) as [store|] eqn:Hstore.
  2: { rewrite searchCode_missing in Hsearch by assumption. discriminate. }
  rewrite (searchCode_found _ _ _ _ _ _ Hstore) in Hsearch.
  destruct (AiProvider.createEmbedding query env st) as [[q|e] st1] eqn:Hq;
    [|discriminate].
  injection Hsearch as <- <-. now exists store, q.
Qed.

Lemma searchCode_at_most_8 (projectId query : string) (language folder : option string)
    (env : Env) (st st' : State) (results : list Chunk.t) :
  VectorStore.searchCode projectId query (Options.mk language folder (Some 8%Z)) env st
  = (Ok results, st') ->
  length results <= 8
  /\ Forall (fun r => is_Some (Chunk.similarity r)) results.
Proof.
  intros Hsearch.
  destruct (searchCode_ok _ _ _ _ _ _ _ Hsearch) as (store & q & _ & _ & ->).
  split.
  - change 8 with (Z.to_nat (VectorStore.limitOrDefault (Some 8%Z))).
    apply (rank_length q (Store.vectors store) (Options.mk language folder (Some 8%Z))).
    simpl. lia.
  - destruct (rank_properties q (Store.vectors store)
                (Options.mk language folder (Some 8%Z)))
      as (_ & _ & _ & _ & _ & _ & _ & _ & _ & Hall & _).
    eapply Forall_impl; [exact Hall|].
    intros r (_ & s & Hs & _). now exists s.
Qed.

(** C5.  When [answerQuestion] returns, it has logged the question and
    searched with the caller's filters and limit 8.  If the search
    found chunks, the answer holds the generated text, one reference
    per chunk, the confidence label of the similarity of the first
    chunk alone ([> 0.8] high, [> 0.6] medium, else low), the distinct
    paths of the chunks and the name of the active provider.  If the
    search found no chunk, no completion is requested, and the answer
    is the fixed message with no reference and low confidence: this
    object has no [relevantFiles] and no [provider] property. *)
Theorem C5_answerQuestion (projectId question : string) (options : Options.t)
    (env : Env) (st st' : State) (answer : Answer.t) :
  Qa.answerQuestion projectId question options env st = (Ok answer, st') ->
  exists chunks st1,
    VectorStore.searchCode projectId question
      (Options.mk (Options.language options) (Options.folder options) (Some 8%Z))
      env
      (mkState (vectorStores st)
               (console st ++ [LogProcessingQuestion projectId question])
               (requests st))
    = (Ok chunks, st1)
    /\ length chunks <= 8
    /\ match chunks with
       | [] =>
           answer = Answer.mk Qa.noResultsAnswer [] low None None
           /\ st' = st1
       | top :: _ =>
           exists text s,
             Qa.generateAnswer question (Qa.buildContext chunks) env st1
             = (Ok text, st')
             /\ answer
                = Answer.mk text (Qa.formatReferences chunks)
                    (Qa.confidenceOf (Some s))
                    (Some (Js.distinct (map Chunk.path chunks)))
                    (Some (AiProvider.getProviderConfigName env))
             /\ Chunk.similarity top = Some s
             /\ (Answer.confidence answer = high <-> (s > 8 / 10)%R)
             /\ (Answer.confidence answer = medium <-> (6 / 10 < s <= 8 / 10)%R)
             /\ (Answer.confidence answer = low <-> (s <= 6 / 10)%R)
       end.
Proof.
  intros Hanswer.
  unfold Qa.answerQuestion, bind, consoleWrite in Hanswer.
  set (st0 := mkState _ _ _) in *.
  set (options8 := Options.mk _ _ _) in *.
  destruct (VectorStore.searchCode projectId question options8 env st0)
    as [[chunks|e] st1] eqn:Hsearch; [|discriminate].
  exists chunks, st1. split; [reflexivity|].
  destruct (searchCode_at_most_8 _ _ _ _ _ _ _ _ Hsearch) as (Hlen & Hsim).
  split; [exact Hlen|].
  destruct chunks as [|top rest].
  - unfold ret in Hanswer. injection Hanswer as <- <-. now split.
  - destruct (Qa.generateAnswer question (Qa.buildContext (top :: rest)) env st1)
      as [[text|e] st2] eqn:Hgen; [|discriminate].
    unfold askEnv, ret in Hanswer. injection Hanswer as <- <-.
    inversion Hsim as [|? ? [s Hs] _]; subst.
    exists text, s. rewrite Hs.
    split; [reflexivity|]. split; [reflexivity|]. split; [reflexivity|].
    apply confidenceOf_label.
Qed.

Lemma answer_empty_project :
  Qa.answerQuestion "p" "what does add do?" Options.none
    (Sample.offline None) Sample.emptyProject
  = (Ok (Answer.mk Qa.noResultsAnswer [] low None None),
     after Sample.emptyProject []
           [LogProcessingQuestion "p" "what does add do?"]).
Proof.
  unfold Qa.answerQuestion, bind, consoleWrite.
  erewrite searchCode_found by reflexivity.
  rewrite createEmbedding_offline by (vm_compute; discriminate).
  reflexivity.
Qed.

(** C5 at a project without chunks, with the demo provider: the
    answer is the fixed message, and it has neither [relevantFiles] nor
    [provider]; no request was sent. *)
Lemma C5_witness :
  exists answer st',
    Qa.answerQuestion "p" "what does add do?" Options.none
      (Sample.offline None) Sample.emptyProject = (Ok answer, st')
    /\ Answer.answer answer = Qa.noResultsAnswer
    /\ Answer.references answer = []
    /\ Answer.confidence answer = low
    /\ Answer.relevantFiles answer = None
    /\ Answer.provider answer = None
    /\ requests st' = [].
Proof.
  pose proof answer_empty_project as Heval.
  destruct (C5_answerQuestion _ _ _ _ _ _ _ Heval)
    as (chunks & st1 & Hsearch & _ & Hcase).
  destruct chunks as [|top rest].
  - destruct Hcase as [Hanswer Hst].
    do 2 eexists. split; [exact Heval|]. repeat split.
  - exfalso. erewrite searchCode_found in Hsearch by reflexivity.
    rewrite createEmbedding_offline in Hsearch by (vm_compute; discriminate).
    discriminate.
Defined.

(* ===================================================================== *)
(** * Indexing *)
(* ===================================================================== *)

Lemma forOf_app {A S} (items1 items2 : list A) (body : A -> S -> M S) (s : S)
    (env : Env) (st : State) :
  VectorStore.forOf (items1 ++ items2) body s env st
  = match VectorStore.forOf items1 body s env st with
    | (Ok s', st') => VectorStore.forOf items2 body s' env st'
    | (Throw e, st') => (Throw e, st')
    end.
Proof.
  revert s st. induction items1 as [|x items1 IH]; intros s st; [reflexivity|].
  simpl. unfold bind.
  destruct (body x s env st) as [[s'|e] st']; [apply IH | reflexivity].
Qed.

Lemma forOf_chunks (files : list File.t) (p : VectorStore.Progress)
    (env : Env) (st : State) :
  VectorStore.forOf files
    (fun file p => VectorStore.forOf (Chunker.chunkContent file)
                                     VectorStore.embedChunk p) p env st
  = VectorStore.forOf (Spec.chunksOf files) VectorStore.embedChunk p env st.
Proof.
  revert p st. induction files as [|file files IH]; intros p st; [reflexivity|].
  change (Spec.chunksOf (file :: files))
    with (Chunker.chunkContent file ++ Spec.chunksOf files)%list.
  rewrite forOf_app. cbn [VectorStore.forOf]. unfold bind.
  destruct (VectorStore.forOf (Chunker.chunkContent file) _ p env st)
    as [[p'|e] st']; [apply IH | reflexivity].
Qed.

(** One turn of the loop, whatever the provider. *)
Lemma embedChunk_step (chunk : Chunk.t) (p : VectorStore.Progress)
    (env : Env) (st : State) :
  VectorStore.embedChunk chunk p env st
  = match AiProvider.createEmbedding (Chunk.content chunk) env st with
    | (Ok v, st1) =>
        (Ok (VectorStore.mkProgress
               (VectorStore.vectors p ++ [Chunk.withEmbedding chunk v])
               (S (VectorStore.processedChunks p)) (VectorStore.errors p)),
         after st1 []
               (if Nat.eqb (S (VectorStore.processedChunks p) mod 10) 0
                then [LogProcessed (S (VectorStore.processedChunks p))] else []))
    | (Throw e, st1) =>
        (Ok (VectorStore.mkProgress (VectorStore.vectors p)
               (VectorStore.processedChunks p) (S (VectorStore.errors p))),
         after st1 []
               (if Nat.leb (S (VectorStore.errors p)) 3
                then [WarnCouldNotEmbed (Chunk.path chunk) (messageOf e)] else []))
    end.
Proof.
  unfold VectorStore.embedChunk, tryCatch, bind, VectorStore.when.
  destruct (AiProvider.createEmbedding (Chunk.content chunk) env st)
    as [[v|e] st1].
  - destruct (Nat.eqb _ 0); unfold consoleWrite, ret, after; cbn;
      destruct st1; cbn; now rewrite ?app_nil_r.
  - destruct (Nat.leb _ 3); unfold consoleWrite, ret, after; cbn;
      destruct st1; cbn; now rewrite ?app_nil_r.
Qed.

Lemma after_nil (st : State) : after st [] [] = st.
Proof. destruct st. unfold after. cbn. now rewrite !app_nil_r. Qed.

Lemma after_after (st : State) (r1 r2 : list Request) (l1 l2 : list LogLine) :
  after (after st r1 l1) r2 l2 = after st (r1 ++ r2) (l1 ++ l2).
Proof. unfold after. cbn. now rewrite !app_assoc. Qed.

Lemma indexWarnings_app (l1 l2 : list LogLine) :
  Spec.indexWarnings (l1 ++ l2) = (Spec.indexWarnings l1 ++ Spec.indexWarnings l2)%list.
Proof. apply List.filter_app. Qed.

(** What an embedding call does to the state: at most one request, no
    index warning; it can only throw with OpenAI. *)
Lemma createEmbedding_effect (text : string) (env : Env) (st st1 : State)
    (result : Result (option (list R))) :
  AiProvider.createEmbedding text env st = (result, st1) ->
  exists reqs lines,
    st1 = after st reqs lines
    /\ length reqs <= 1
    /\ Spec.indexWarnings lines = []
    /\ (AiProvider.getProvider env <> "openai" -> exists v, result = Ok v).
Proof.
  intros Hcall.
  destruct (decide (AiProvider.getProvider env = "openai")) as [Hp|Hp].
  - rewrite createEmbedding_openai in Hcall by assumption. cbv zeta in Hcall.
    destruct (sdkEmbedding env _ _); injection Hcall as <- <-;
      do 2 eexists; (split; [reflexivity|]); repeat split; simpl; try lia;
      contradiction.
  - destruct (decide (AiProvider.getProvider env = "ollama")) as [Ho|Ho].
    + rewrite createEmbedding_ollama in Hcall by assumption. cbv zeta in Hcall.
      destruct (fetchEmbedding env _ _); injection Hcall as <- <-;
        do 2 eexists; (split; [reflexivity|]); repeat split; simpl; try lia;
        intros _; eexists; reflexivity.
    + rewrite createEmbedding_offline in Hcall by assumption.
      injection Hcall as <- <-. exists [], [].
      rewrite after_nil. repeat split; simpl; try lia.
      intros _. eexists. reflexivity.
Qed.

(** The loop over the chunks, whatever the provider: it never throws,
    the embedded chunks are a subsequence of the chunks, every other
    chunk is counted as an error, and every chunk costs at most one
    request. *)
Lemma loop_general (env : Env) (chunks : list Chunk.t) :
  forall (p : VectorStore.Progress) (st : State),
  exists p' reqs lines kept added,
    VectorStore.forOf chunks VectorStore.embedChunk p env st
    = (Ok p', after st reqs lines)
    /\ length reqs <= length chunks
    /\ kept `sublist_of` chunks
    /\ Forall2 (fun c v => exists e, v = Chunk.withEmbedding c e) kept added
    /\ VectorStore.vectors p' = (VectorStore.vectors p ++ added)%list
    /\ VectorStore.processedChunks p' = VectorStore.processedChunks p + length added
    /\ length added + VectorStore.errors p'
       = VectorStore.errors p + length chunks
    /\ (AiProvider.getProvider env <> "openai" ->
        VectorStore.errors p' = VectorStore.errors p
        /\ kept = chunks
        /\ Spec.indexWarnings lines = []).
Proof.
  induction chunks as [|chunk chunks IH]; intros p st.
  - exists p, [], [], [], []. rewrite after_nil, app_nil_r. cbn.
    repeat split; try lia; try constructor.
  - cbn [VectorStore.forOf]. unfold bind. rewrite embedChunk_step.
    destruct (AiProvider.createEmbedding (Chunk.content chunk) env st)
      as [[v|e] st1] eqn:Hcall;
      destruct (createEmbedding_effect _ _ _ _ _ Hcall)
        as (r1 & l1 & -> & Hr1 & Hw1 & Hok).
    + match goal with
      | |- context [VectorStore.forOf chunks _ ?p1 env ?st1] =>
          destruct (IH p1 st1)
            as (p' & r2 & l2 & kept & added & Hrun & Hr2 & Hsub & Hall
                & Hv & Hproc & Herr & Hother)
      end.
      rewrite Hrun. cbn in Hv, Hproc, Herr.
      eexists p', _, _, (chunk :: kept), (Chunk.withEmbedding chunk v :: added).
      rewrite !after_after. split; [reflexivity|].
      rewrite !length_app. cbn.
      split; [lia|]. split; [now apply sublist_skip|].
      split; [constructor; [eexists; reflexivity | exact Hall]|].
      split; [now rewrite Hv, <- app_assoc|].
      split; [lia|]. split; [lia|].
      intros Hp. destruct (Hother Hp) as (He & -> & Hw2).
      split; [exact He|]. split; [reflexivity|].
      rewrite !indexWarnings_app, Hw1, Hw2.
      now destruct (Nat.eqb _ 0).
    + match goal with
      | |- context [VectorStore.forOf chunks _ ?p1 env ?st1] =>
          destruct (IH p1 st1)
            as (p' & r2 & l2 & kept & added & Hrun & Hr2 & Hsub & Hall
                & Hv & Hproc & Herr & Hother)
      end.
      rewrite Hrun. cbn in Hv, Hproc, Herr.
      eexists p', _, _, kept, added.
      rewrite !after_after. split; [reflexivity|].
      rewrite !length_app. cbn.
      split; [lia|]. split; [now apply sublist_cons|].
      split; [exact Hall|]. split; [exact Hv|].
      split; [lia|]. split; [lia|].
      intros Hp. destruct (Hok Hp) as [v Hv']. discriminate.
Qed.

Lemma embeddingErrors_app (l1 l2 : list LogLine) :
  Spec.embeddingErrors (l1 ++ l2)
  = (Spec.embeddingErrors l1 ++ Spec.embeddingErrors l2)%list.
Proof. apply List.filter_app. Qed.

(** The loop over the chunks with OpenAI: one call per chunk, in
    order; a request is sent unless the client cannot be made; the
    chunks whose call fails are left out, each failure is logged by
    [createOpenAIEmbedding], and the loop adds a warning for the first
    three of them. *)
Lemma loop_openai (env : Env) (chunks : list Chunk.t) :
  AiProvider.getProvider env = "openai" ->
  forall (p : VectorStore.Progress) (st : State),
  exists lines,
    let n := length (requests st) in
    VectorStore.forOf chunks VectorStore.embedChunk p env st
    = (Ok (VectorStore.mkProgress
             (VectorStore.vectors p ++ Spec.embeddedFrom env n chunks)
             (VectorStore.processedChunks p + length (Spec.embeddedFrom env n chunks))
             (VectorStore.errors p + length (Spec.failuresFrom env n chunks))),
       after st (Spec.sentFrom env n chunks) lines)
    /\ Spec.indexWarnings lines
       = map Spec.couldNotEmbed
             (take (3 - VectorStore.errors p) (Spec.failuresFrom env n chunks))
    /\ Spec.embeddingErrors lines
       = map Spec.embeddingError (Spec.failuresFrom env n chunks).
Proof.
  intros Hp. induction chunks as [|chunk chunks IH]; intros p st.
  - exists []. cbn. rewrite after_nil, app_nil_r, !Nat.add_0_r, take_nil.
    split; [now destruct p | split; reflexivity].
  - cbn [VectorStore.forOf]. unfold bind. rewrite embedChunk_step.
    rewrite createEmbedding_openai by assumption. cbv zeta.
    fold (Spec.openaiRequest chunk).
    cbn [Spec.embeddedFrom Spec.failuresFrom Spec.sentFrom].
    destruct (sdkEmbedding env (length (requests st)) (Spec.openaiRequest chunk))
      as [v|m|m].
    + match goal with
      | |- context [VectorStore.forOf chunks _ ?p1 env ?s1] =>
          remember s1 as st1 eqn:Hst1;
          destruct (IH p1 st1) as (lines & Hrun & Hwarn & Herr)
      end.
      assert (Hn : length (requests st1) = S (length (requests st)))
        by (subst st1; cbn; rewrite !length_app; cbn; lia).
      cbv zeta in Hrun, Hwarn, Herr. rewrite Hn in Hrun, Hwarn, Herr.
      cbn [VectorStore.vectors VectorStore.processedChunks VectorStore.errors]
        in Hrun, Hwarn.
      rewrite Hrun. subst st1. eexists. rewrite !after_after.
      split; [|split].
      * cbn [app length map]. apply f_equal2; [|reflexivity].
        apply f_equal. f_equal; [now rewrite <- app_assoc | lia].
      * rewrite !indexWarnings_app, Hwarn. cbn.
        now destruct (Nat.eqb _ 0).
      * rewrite !embeddingErrors_app, Herr. cbn.
        now destruct (Nat.eqb _ 0).
    + match goal with
      | |- context [VectorStore.forOf chunks _ ?p1 env ?s1] =>
          remember s1 as st1 eqn:Hst1;
          destruct (IH p1 st1) as (lines & Hrun & Hwarn & Herr)
      end.
      assert (Hn : length (requests st1) = S (length (requests st)))
        by (subst st1; cbn; rewrite !length_app; cbn; lia).
      cbv zeta in Hrun, Hwarn, Herr. rewrite Hn in Hrun, Hwarn, Herr.
      cbn [VectorStore.vectors VectorStore.processedChunks VectorStore.errors]
        in Hrun, Hwarn.
      rewrite Hrun. subst st1. eexists. rewrite !after_after.
      split; [|split].
      * cbn [app length map]. apply f_equal2; [|reflexivity].
        apply f_equal. f_equal. lia.
      * unfold Spec.indexWarnings in *.
        cbn [List.filter Spec.isIndexWarning messageOf].
        rewrite List.filter_app, Hwarn.
        destruct (Nat.leb_spec (S (VectorStore.errors p)) 3) as [Hle|Hgt].
        -- replace (3 - VectorStore.errors p)
             with (S (3 - S (VectorStore.errors p))) by lia.
           reflexivity.
        -- replace (3 - VectorStore.errors p) with 0 by lia.
           replace (3 - S (VectorStore.errors p)) with 0 by lia.
           reflexivity.
      * unfold Spec.embeddingErrors in *.
        cbn [List.filter Spec.isEmbeddingError messageOf].
        rewrite List.filter_app, Herr.
        now destruct (Nat.leb _ 3).
    + match goal with
      | |- context [VectorStore.forOf chunks _ ?p1 env ?s1] =>
          remember s1 as st1 eqn:Hst1;
          destruct (IH p1 st1) as (lines & Hrun & Hwarn & Herr)
      end.
      assert (Hn : length (requests st1) = length (requests st))
        by (subst st1; cbn; rewrite !length_app; cbn; lia).
      cbv zeta in Hrun, Hwarn, Herr. rewrite Hn in Hrun, Hwarn, Herr.
      cbn [VectorStore.vectors VectorStore.processedChunks VectorStore.errors]
        in Hrun, Hwarn.
      rewrite Hrun. subst st1. eexists. rewrite !after_after.
      split; [|split].
      * cbn [app length map]. apply f_equal2; [|reflexivity].
        apply f_equal. f_equal. lia.
      * unfold Spec.indexWarnings in *.
        cbn [List.filter Spec.isIndexWarning messageOf].
        rewrite List.filter_app, Hwarn.
        destruct (Nat.leb_spec (S (VectorStore.errors p)) 3) as [Hle|Hgt].
        -- replace (3 - VectorStore.errors p)
             with (S (3 - S (VectorStore.errors p))) by lia.
           reflexivity.
        -- replace (3 - VectorStore.errors p) with 0 by lia.
           replace (3 - S (VectorStore.errors p)) with 0 by lia.
           reflexivity.
      * unfold Spec.embeddingErrors in *.
        cbn [List.filter Spec.isEmbeddingError messageOf].
        rewrite List.filter_app, Herr.
        now destruct (Nat.leb _ 3).
Qed.

(** [indexProject] after its loop. *)
Lemma indexProject_run (projectId : string) (files : list File.t) (env : Env)
    (st st2 : State) (p : VectorStore.Progress) :
  VectorStore.forOf (Spec.chunksOf files) VectorStore.embedChunk
    (VectorStore.mkProgress [] 0 0) env
    (after st [] [LogIndexing projectId (length files)])
  = (Ok p, st2) ->
  let stats := Stats.mk (length files) (length (VectorStore.vectors p))
                        (Js.distinct (map File.language files)) in
  VectorStore.indexProject projectId files env st
  = (Ok stats,
     mkState (<[projectId := Store.mk (VectorStore.vectors p) files (now env) stats]>
                (vectorStores st2))
             (console st2
              ++ (if Nat.ltb 3 (VectorStore.errors p)
                  then [WarnMoreErrors (VectorStore.errors p - 3)] else [])
              ++ [LogIndexed (length (VectorStore.vectors p)) projectId])
             (requests st2)).
Proof.
  intros Hloop stats.
  unfold VectorStore.indexProject, bind.
  change (consoleWrite (LogIndexing projectId (length files)) env st)
    with (Ok tt, mkState (vectorStores st)
                         (console st ++ [LogIndexing projectId (length files)])
                         (requests st)).
  cbv iota. rewrite forOf_chunks.
  replace (mkState (vectorStores st)
                   (console st ++ [LogIndexing projectId (length files)])
                   (requests st))
    with (after st [] [LogIndexing projectId (length files)])
    by (unfold after; now rewrite app_nil_r).
  rewrite Hloop. cbv iota.
  unfold VectorStore.when, askEnv, getStores, setStores, consoleWrite, ret.
  destruct (Nat.ltb 3 (VectorStore.errors p)); cbn;
    rewrite lookup_insert_eq; cbn; rewrite <- ?app_assoc; reflexivity.
Qed.

Lemma after_inj (st : State) (r1 r2 : list Request) (l1 l2 : list LogLine) :
  after st r1 l1 = after st r2 l2 -> r1 = r2 /\ l1 = l2.
Proof.
  unfold after. intros H. injection H as Hl Hr.
  split; eapply app_inv_head; eassumption.
Qed.

Lemma outcomes_length (env : Env) (chunks : list Chunk.t) (n : nat) :
  length (Spec.embeddedFrom env n chunks) + length (Spec.failuresFrom env n chunks)
  = length chunks.
Proof.
  revert n. induction chunks as [|c chunks IH]; intros n; [reflexivity|].
  cbn. destruct (sdkEmbedding env n _); cbn;
    [rewrite <- (IH (S n)) | rewrite <- (IH (S n)) | rewrite <- (IH n)]; lia.
Qed.

(** C6, the claim as the specification states it, fails with OpenAI on
    a file of five chunks when every request is rejected: each of the
    five failures is logged individually, by the error line of
    [createOpenAIEmbedding], and [indexProject] adds its own warning for
    the first three and one line for the two others. *)
Lemma C6_counterexample :
  let st' :=
    snd (VectorStore.indexProject "p" [Sample.longJs] Sample.openaiDown
           (mkState ∅ [] [])) in
  length (Spec.chunksOf [Sample.longJs]) = 5
  /\ Spec.embeddingErrors (console st')
     = replicate 5 (ErrOpenAIEmbedding "connect ECONNREFUSED")
  /\ Spec.indexWarnings (console st')
     = (replicate 3 (WarnCouldNotEmbed "long.js" "connect ECONNREFUSED")
        ++ [WarnMoreErrors 2])%list.
Proof. vm_compute. repeat split; reflexivity. Qed.

(** C6, amended.  For every list of files, provider and provider
    behaviour, [indexProject] returns statistics and never throws.  The
    project is stored with the given files and with the embedded chunks,
    which are a subsequence of the chunks of the files; the statistics
    count the files and the embedded chunks; at most one request is sent
    per chunk, so no chunk is tried twice.  A provider other than OpenAI
    embeds every chunk and no warning is logged.  With OpenAI there is
    one call per chunk, in order, and a request is sent unless the
    client cannot be made; the chunks whose call fails are left out and
    the embedded-chunk count is reduced by their number.  Every failure
    is logged individually by [createOpenAIEmbedding]; [indexProject]
    itself adds a warning for each of the first three failures and one
    more line with the number of the others. *)
Theorem C6_indexProject (projectId : string) (files : list File.t) (env : Env)
    (st : State) :
  let chunks := Spec.chunksOf files in
  let n := length (requests st) in
  exists stats store st',
    VectorStore.indexProject projectId files env st = (Ok stats, st')
    /\ vectorStores st' = <[projectId := store]> (vectorStores st)
    /\ Store.files store = files
    /\ Store.stats store = stats
    /\ stats = Stats.mk (length files) (length (Store.vectors store))
                        (Js.distinct (map File.language files))
    /\ (exists kept,
          kept `sublist_of` chunks
          /\ Forall2 (fun c v => exists e, v = Chunk.withEmbedding c e)
                     kept (Store.vectors store))
    /\ length (requests st') <= n + length chunks
    /\ (AiProvider.getProvider env <> "openai" ->
        Stats.totalChunks stats = length chunks
        /\ Spec.indexWarnings (console st') = Spec.indexWarnings (console st))
    /\ (AiProvider.getProvider env = "openai" ->
        let failures := Spec.failuresFrom env n chunks in
        Store.vectors store = Spec.embeddedFrom env n chunks
        /\ requests st' = (requests st ++ Spec.sentFrom env n chunks)%list
        /\ Stats.totalChunks stats + length failures = length chunks
        /\ Spec.embeddingErrors (console st')
           = (Spec.embeddingErrors (console st)
              ++ map Spec.embeddingError failures)%list
        /\ Spec.indexWarnings (console st')
           = (Spec.indexWarnings (console st)
              ++ map Spec.couldNotEmbed (take 3 failures)
              ++ (if Nat.ltb 3 (length failures)
                  then [WarnMoreErrors (length failures - 3)] else []))%list).
Proof.
  intros chunks n.
  set (st0 := after st [] [LogIndexing projectId (length files)]).
  destruct (loop_general env chunks (VectorStore.mkProgress [] 0 0) st0)
    as (p & reqs & lines & kept & added & Hrun & Hreqs & Hsub & Hall
        & Hv & Hproc & Herr & Hother).
  cbn in Hv, Hproc, Herr.
  pose proof (indexProject_run projectId files env st _ p Hrun) as Hindex.
  cbv zeta in Hindex.
  do 3 eexists. split; [exact Hindex|].
  cbn [vectorStores console requests Store.files Store.stats Store.vectors
       Stats.totalChunks after st0].
  split; [reflexivity|]. split; [reflexivity|]. split; [reflexivity|].
  split; [reflexivity|].
  split; [exists kept; rewrite Hv; now split|].
  split; [rewrite !length_app; cbn; fold n; lia|].
  split.
  - intros Hp. destruct (Hother Hp) as (He & -> & Hw).
    apply Forall2_length in Hall. split; [rewrite Hv; lia|].
    cbn in He. rewrite He. cbn.
    rewrite !indexWarnings_app, Hw. cbn. now rewrite !app_nil_r.
  - intros Hp. set (failures := Spec.failuresFrom env n chunks).
    destruct (loop_openai env chunks Hp (VectorStore.mkProgress [] 0 0) st0)
      as (lines' & Hrun' & Hwarn & Herrors).
    assert (Hn0 : length (requests st0) = n)
      by (unfold st0; cbn; now rewrite app_nil_r).
    cbv zeta in Hrun', Hwarn, Herrors. rewrite Hn0 in Hrun', Hwarn, Herrors.
    rewrite Hrun in Hrun'.
    pose proof (f_equal fst Hrun') as Hp'.
    pose proof (f_equal snd Hrun') as Hst'. cbn [fst snd] in Hp', Hst'.
    injection Hp' as Hp'. clear Hrun'.
    apply after_inj in Hst' as [-> ->].
    subst p.
    cbn [VectorStore.vectors VectorStore.errors VectorStore.processedChunks
         app Nat.add Nat.sub] in *.
    fold failures in Hwarn, Herrors |- *.
    split; [reflexivity|].
    split; [rewrite app_nil_r; reflexivity|].
    split; [apply outcomes_length|].
    split.
    + rewrite !embeddingErrors_app, Herrors.
      destruct (Nat.ltb 3 (length failures));
        cbn [Spec.embeddingErrors List.filter Spec.isEmbeddingError];
        now rewrite ?app_nil_r.
    + rewrite !indexWarnings_app, Hwarn.
      destruct (Nat.ltb 3 (length failures));
        cbn [Spec.indexWarnings List.filter Spec.isIndexWarning];
        now rewrite ?app_nil_r, <- ?app_assoc.
Qed.

(* ===================================================================== *)
(** * Failures of the embedding providers *)
(* ===================================================================== *)

(** C3, the claim as the specification states it, fails for the OpenAI
    provider: when the embeddings request is rejected, [createEmbedding]
    logs the error and throws it to its caller, and a search of an
    indexed project throws it too. *)
Lemma C3_counterexample :
  let env := Sample.openaiDown in
  let st := Sample.oneProject Sample.opposite [] in
  let request := OpenAIEmbeddings (Some "text-embedding-3-small") "query" in
  AiProvider.createEmbedding "query" env st
  = (Throw (Error "connect ECONNREFUSED"),
     after st [request] [ErrOpenAIEmbedding "connect ECONNREFUSED"])
  /\ VectorStore.searchCode "p" "query" Options.none env st
     = (Throw (Error "connect ECONNREFUSED"),
        after st [request] [ErrOpenAIEmbedding "connect ECONNREFUSED"]).
Proof.
  intros env st request.
  assert (Hc : AiProvider.createEmbedding "query" env st
               = (Throw (Error "connect ECONNREFUSED"),
                  after st [request] [ErrOpenAIEmbedding "connect ECONNREFUSED"])).
  { rewrite createEmbedding_openai by reflexivity. reflexivity. }
  split; [exact Hc|].
  erewrite searchCode_found by reflexivity. now rewrite Hc.
Qed.

(** C3, amended.  A failure of an embedding call is handled per
    provider.  With Ollama, [createEmbedding] always returns: a request
    that fails, or a response that is not ok, is logged, followed by the
    fall-back warning, and the offline embedding of the text is
    returned.  With Groq, the demo provider and every key that is
    neither [openai] nor [ollama], no request is sent and the offline
    embedding is returned.  With OpenAI, a rejected request is logged and
    thrown again to the caller of [createEmbedding]: at query time
    [searchCode] throws it to its own caller, at index time the
    [try]/[catch] around the chunk absorbs it and counts an error. *)
Theorem C3_embedding_failures (env : Env) (text : string) (st : State) :
  (AiProvider.getProvider env = "ollama" ->
   exists request v lines,
     AiProvider.createEmbedding text env st = (Ok v, after st [request] lines)
     /\ match fetchEmbedding env (length (requests st)) request with
        | FetchBody data => v = data /\ lines = []
        | FetchRejected m =>
            v = Some (AiProvider.createSimpleEmbedding text)
            /\ lines = [ErrOllamaEmbedding m; WarnFallingBack]
        | FetchNotOk statusText =>
            v = Some (AiProvider.createSimpleEmbedding text)
            /\ lines = [ErrOllamaEmbedding ("Ollama error: " +:+ statusText);
                        WarnFallingBack]
        end)
  /\ (AiProvider.getProvider env <> "openai" ->
      AiProvider.getProvider env <> "ollama" ->
      AiProvider.createEmbedding text env st
      = (Ok (Some (AiProvider.createSimpleEmbedding text)), st))
  /\ (AiProvider.getProvider env = "openai" ->
      forall m,
        let request := OpenAIEmbeddings (Some "text-embedding-3-small")
                         (Js.stringSliceTo AiProvider.inputLimit text) in
        let st' := after st [request] [ErrOpenAIEmbedding m] in
        sdkEmbedding env (length (requests st)) request = Rejected m ->
        AiProvider.createEmbedding text env st = (Throw (Error m), st')
        /\ (forall projectId options store,
              vectorStores st !! projectId = Some store ->
              VectorStore.searchCode projectId text options env st
              = (Throw (Error m), st'))
        /\ (forall chunk p,
              Chunk.content chunk = text ->
              VectorStore.embedChunk chunk p env st
              = (Ok (VectorStore.mkProgress (VectorStore.vectors p)
                       (VectorStore.processedChunks p)
                       (S (VectorStore.errors p))),
                 after st' []
                       (if Nat.leb (S (VectorStore.errors p)) 3
                        then [WarnCouldNotEmbed (Chunk.path chunk) m]
                        else [])))).
Proof.
  split; [|split].
  - intros Hp. rewrite createEmbedding_ollama by assumption. cbv zeta.
    exists (OllamaEmbeddings
              (Some (AiProvider.orElse (OLLAMA_BASE_URL env) "http://localhost:11434"))
              (Some "nomic-embed-text")
              (Js.stringSliceTo AiProvider.inputLimit text)).
    destruct (fetchEmbedding env _ _) as [m|t|data];
      do 2 eexists; (split; [reflexivity|]); split; reflexivity.
  - apply createEmbedding_offline.
  - intros Hp m request st' Hrej.
    assert (Hc : AiProvider.createEmbedding text env st = (Throw (Error m), st')).
    { rewrite createEmbedding_openai by assumption. cbv zeta.
      fold request. now rewrite Hrej. }
    split; [exact Hc|]. split.
    + intros projectId options store Hstore.
      rewrite (searchCode_found _ _ _ _ _ _ Hstore). now rewrite Hc.
    + intros chunk p Hchunk. rewrite embedChunk_step, Hchunk, Hc. reflexivity.
Qed.

(** C3 at an Ollama server that is not running: the embedding of the
    text is the offline one, and the failure is only logged. *)
Lemma C3_witness :
  exists request,
    AiProvider.createEmbedding "query" (Sample.offline (Some "ollama"))
      (Sample.oneProject [] [])
    = (Ok (Some (AiProvider.createSimpleEmbedding "query")),
       after (Sample.oneProject [] []) [request]
             [ErrOllamaEmbedding "fetch failed"; WarnFallingBack]).
Proof.
  destruct (C3_embedding_failures (Sample.offline (Some "ollama")) "query"
              (Sample.oneProject [] [])) as (Hollama & _ & _).
  destruct (Hollama eq_refl) as (request & v & lines & Hcall & Hcase).
  exists request. simpl in Hcase. destruct Hcase as [-> ->]. exact Hcall.
Defined.

(* ===================================================================== *)
(** * Indexing while OpenAI cannot be reached *)
(* ===================================================================== *)

(** C6 at the file [app.js] of the specification's scenario, indexed
    with OpenAI.  When every request is rejected, both chunks of the
    file are left out, the statistics count 0 chunks, two requests are
    sent, and each failure has its error line and its warning.  Without
    API key the outcome is the same, but no request is sent. *)
Lemma C6_witness :
  (exists stats st',
      VectorStore.indexProject "p" [Sample.appJs] Sample.openaiDown
        (mkState ∅ [] [])
      = (Ok stats, st')
      /\ Stats.totalFiles stats = 1
      /\ Stats.totalChunks stats = 0
      /\ length (requests st') = 2
      /\ Spec.embeddingErrors (console st')
         = [ErrOpenAIEmbedding "connect ECONNREFUSED";
            ErrOpenAIEmbedding "connect ECONNREFUSED"]
      /\ Spec.indexWarnings (console st')
         = [WarnCouldNotEmbed "app.js" "connect ECONNREFUSED";
            WarnCouldNotEmbed "app.js" "connect ECONNREFUSED"])
  /\ (exists stats st',
        VectorStore.indexProject "p" [Sample.appJs] Sample.openaiNoKey
          (mkState ∅ [] [])
        = (Ok stats, st')
        /\ Stats.totalChunks stats = 0
        /\ requests st' = []
        /\ Spec.embeddingErrors (console st')
           = [ErrOpenAIEmbedding Sample.missingKey;
              ErrOpenAIEmbedding Sample.missingKey]).
Proof.
  split.
  - destruct (C6_indexProject "p" [Sample.appJs] Sample.openaiDown
                (mkState ∅ [] []))
      as (stats & store & st' & Hrun & _ & _ & _ & Hstats & _ & _ & _ & Hopenai).
    destruct (Hopenai eq_refl) as (Hvectors & Hreqs & _ & Herr & Hwarn).
    exists stats, st'. split; [exact Hrun|].
    rewrite Hstats, Hvectors, Hreqs, Herr, Hwarn. vm_compute. repeat split.
  - destruct (C6_indexProject "p" [Sample.appJs] Sample.openaiNoKey
                (mkState ∅ [] []))
      as (stats & store & st' & Hrun & _ & _ & _ & Hstats & _ & _ & _ & Hopenai).
    destruct (Hopenai eq_refl) as (Hvectors & Hreqs & _ & Herr & _).
    exists stats, st'. split; [exact Hrun|].
    rewrite Hstats, Hvectors, Hreqs, Herr. vm_compute. repeat split.
Defined.


(* ===================================================================== *)
(** * Lines of a text *)
(* ===================================================================== *)

Lemma splitLines_lines (s : string) :
  Forall (fun l => Spec.isLine l = true) (Js.splitLines s).
Proof.
  induction s as [|c s IH]; simpl.
  - repeat constructor.
  - destruct (Ascii.eqb c Js.LF) eqn:Hc.
    + constructor; [reflexivity | exact IH].
    + destruct (Js.splitLines s) as [|h t]; simpl.
      * repeat constructor. unfold Spec.isLine. simpl. now rewrite Hc.
      * inversion IH as [|? ? Hh Ht]; subst. constructor; [|exact Ht].
        unfold Spec.isLine in *. simpl. now rewrite Hc, Hh.
Qed.

Lemma splitLines_line (l rest : string) :
  Spec.isLine l = true ->
  Js.splitLines (l +:+ Js.NL +:+ rest) = l :: Js.splitLines rest.
Proof.
  induction l as [|c l IH]; intros Hl.
  - reflexivity.
  - unfold Spec.isLine in Hl. simpl in Hl.
    apply andb_true_iff in Hl as [Hc Hl]. apply negb_true_iff in Hc.
    change (String c l +:+ Js.NL +:+ rest) with (String c (l +:+ Js.NL +:+ rest)).
    cbn [Js.splitLines]. rewrite Hc, (IH Hl). reflexivity.
Qed.

Lemma splitLines_one (l : string) :
  Spec.isLine l = true -> Js.splitLines l = [l].
Proof.
  induction l as [|c l IH]; intros Hl; [reflexivity|].
  unfold Spec.isLine in Hl. simpl in Hl.
  apply andb_true_iff in Hl as [Hc Hl]. apply negb_true_iff in Hc.
  cbn [Js.splitLines]. rewrite Hc, (IH Hl). reflexivity.
Qed.

(** Splitting undoes joining, for lines that hold no line feed. *)
Lemma splitLines_joinLines (l : list string) :
  l <> [] ->
  Forall (fun x => Spec.isLine x = true) l ->
  Js.splitLines (Js.joinLines l) = l.
Proof.
  induction l as [|x l IH]; [congruence|].
  intros _ Hall. inversion Hall as [|? ? Hx Hl]; subst.
  destruct l as [|y l].
  - now apply splitLines_one.
  - rewrite joinLines_cons, splitLines_line by assumption.
    rewrite IH; [reflexivity | discriminate | assumption].
Qed.

(* ===================================================================== *)
(** * The windows of the chunker *)
(* ===================================================================== *)

Lemma windowed_chunks (file : File.t) :
  Spec.windowed (Chunker.chunkContent file)
  = map (Chunker.windowChunk file (Js.splitLines (File.content file)))
        (filter (fun i => Chunker.windowNonEmpty (Js.splitLines (File.content file)) i = true)
                (Spec.windowStarts (length (Js.splitLines (File.content file))))).
Proof.
  unfold Chunker.chunkContent. rewrite windowLoop_spec. simpl.
  unfold Spec.windowed at 1. rewrite filter_cons.
  case_decide as Hs; [now contradict Hs|]. apply windowChunk_not_summary.
Qed.

Lemma windowed_elem (file : File.t) (c : Chunk.t) :
  c ∈ Spec.windowed (Chunker.chunkContent file) <->
  exists k,
    let lines := Js.splitLines (File.content file) in
    c = Chunker.windowChunk file lines (k * 40)
    /\ k * 40 < length lines
    /\ Chunker.windowNonEmpty lines (k * 40) = true.
Proof.
  rewrite windowed_chunks, list_elem_of_fmap. split.
  - intros (i & -> & Hi). apply list_elem_of_filter in Hi as [Hne Hi].
    apply startsFrom_elem in Hi as (k & -> & Hk). rewrite stride_eq in *.
    exists k. simpl. now repeat split.
  - intros (k & -> & Hk & Hne). exists (k * 40). split; [reflexivity|].
    apply list_elem_of_filter. split; [assumption|].
    apply startsFrom_elem. exists k. rewrite stride_eq. split; [lia|assumption].
Qed.

Lemma chunkLines_lookup (lines : list string) (i j : nat) :
  i <= j < i + Chunker.chunkSize ->
  Chunker.chunkLines lines i !! (j - i) = lines !! j.
Proof.
  intros Hij. unfold Chunker.chunkLines, Js.slice.
  rewrite lookup_take_lt by lia. rewrite lookup_drop. f_equal. lia.
Qed.

Lemma chunkLines_length (lines : list string) (i : nat) :
  length (Chunker.chunkLines lines i)
  = Nat.min (i + Chunker.chunkSize) (length lines) - i.
Proof.
  unfold Chunker.chunkLines, Js.slice. rewrite length_take, length_drop. lia.
Qed.

Lemma windowChunk_lines (file : File.t) (i : nat) :
  i < length (Js.splitLines (File.content file)) ->
  Js.splitLines (Chunk.content
     (Chunker.windowChunk file (Js.splitLines (File.content file)) i))
  = Chunker.chunkLines (Js.splitLines (File.content file)) i.
Proof.
  intros Hi. unfold Chunker.windowChunk. cbn [Chunk.content].
  apply splitLines_joinLines.
  - intros He. apply (f_equal length) in He.
    rewrite chunkLines_length in He. unfold Chunker.chunkSize in He.
    simpl in He. lia.
  - unfold Chunker.chunkLines, Js.slice.
    apply Forall_take, Forall_drop, splitLines_lines.
Qed.

(** X1.  Chunking loses no text: every line of a file that holds text
    lies in a windowed chunk, whose [startLine] and [endLine] enclose
    the line's number and whose content holds the line at the
    corresponding offset. *)
Theorem X1_chunkContent_covers_text (file : File.t) (j : nat) (line : string) :
  Js.splitLines (File.content file) !! j = Some line ->
  Spec.isBlank line = false ->
  exists c,
    c ∈ Spec.windowed (Chunker.chunkContent file)
    /\ Chunk.startLine c <= j + 1 <= Chunk.endLine c
    /\ Js.splitLines (Chunk.content c) !! (j + 1 - Chunk.startLine c) = Some line.
Proof.
  intros Hj Hb. set (lines := Js.splitLines (File.content file)) in *.
  pose proof (lookup_lt_Some _ _ _ Hj) as HjL.
  pose proof (Nat.div_mod_eq j 40) as Hdiv.
  pose proof (Nat.mod_upper_bound j 40 ltac:(lia)) as Hmod.
  set (k := j / 40) in *.
  assert (Hne : Chunker.windowNonEmpty lines (k * 40) = true).
  { apply (window_has_text lines _ j line); try assumption.
    unfold Chunker.chunkSize. lia. }
  exists (Chunker.windowChunk file lines (k * 40)). split; [|split].
  - apply windowed_elem. exists k. simpl. fold lines. repeat split; [lia | assumption].
  - unfold Chunker.windowChunk, Chunker.chunkSize. cbn [Chunk.startLine Chunk.endLine]. lia.
  - unfold lines. rewrite windowChunk_lines by (fold lines; lia). fold lines.
    unfold Chunker.windowChunk. cbn [Chunk.startLine].
    replace (j + 1 - (k * 40 + 1)) with (j - k * 40) by lia.
    rewrite chunkLines_lookup; [assumption | unfold Chunker.chunkSize; lia].
Qed.

Lemma X1_witness :
  exists c,
    c ∈ Spec.windowed (Chunker.chunkContent (Sample.fileOf "a.js" (Sample.linesOfX 45)))
    /\ Chunk.startLine c <= 44 + 1 <= Chunk.endLine c
    /\ Js.splitLines (Chunk.content c) !! (44 + 1 - Chunk.startLine c) = Some "x".
Proof.
  apply (X1_chunkContent_covers_text (Sample.fileOf "a.js" (Sample.linesOfX 45)) 44 "x");
    reflexivity.
Defined.

(** X2.  The shape of a windowed chunk.  It starts at a line number
    [40 k + 1] and ends 49 lines later or at the end of the file; its
    content is exactly the lines [startLine .. endLine] of the file, at
    least one and at most 50, and holds text; it carries the path, file
    name, language and folder of the file and neither a summary flag,
    an embedding nor a similarity. *)
Theorem X2_window_shape (file : File.t) (c : Chunk.t) :
  c ∈ Spec.windowed (Chunker.chunkContent file) ->
  let lines := Js.splitLines (File.content file) in
  exists k,
    Chunk.startLine c = 40 * k + 1
    /\ Chunk.endLine c = Nat.min (40 * k + 50) (length lines)
    /\ Chunk.startLine c <= Chunk.endLine c
    /\ Js.splitLines (Chunk.content c)
       = take (Chunk.endLine c + 1 - Chunk.startLine c)
              (drop (Chunk.startLine c - 1) lines)
    /\ length (Js.splitLines (Chunk.content c))
       = Chunk.endLine c + 1 - Chunk.startLine c
    /\ length (Js.splitLines (Chunk.content c)) <= 50
    /\ Spec.isBlank (Chunk.content c) = false
    /\ Chunk.path c = File.path file
    /\ Chunk.fileName c = File.fileName file
    /\ Chunk.language c = File.language file
    /\ Chunk.folder c = File.folder file
    /\ Chunk.isSummary c = None
    /\ Chunk.embedding c = None
    /\ Chunk.similarity c = None.
Proof.
  intros Hc lines. apply windowed_elem in Hc as (k & -> & Hk & Hne).
  fold lines in Hk, Hne |- *. exists k.
  assert (Hlines : Js.splitLines (Chunk.content (Chunker.windowChunk file lines (k * 40)))
                   = Chunker.chunkLines lines (k * 40)).
  { unfold lines. apply windowChunk_lines. fold lines. lia. }
  assert (Hlen := chunkLines_length lines (k * 40)).
  unfold Chunker.chunkSize in Hlen.
  rewrite Hlines.
  set (c := Chunker.windowChunk file lines (k * 40)).
  assert (Hs : Chunk.startLine c = k * 40 + 1) by reflexivity.
  assert (He : Chunk.endLine c = Nat.min (k * 40 + 50) (length lines)) by reflexivity.
  rewrite Hs, He.
  repeat split; try reflexivity; try lia.
  - unfold Chunker.chunkLines, Js.slice, Chunker.chunkSize.
    replace (k * 40 + 1 - 1) with (k * 40) by lia.
    apply list_eq. intros n.
    destruct (decide (n < Nat.min (k * 40 + 50) (length lines) + 1 - (k * 40 + 1))) as [Hn|Hn].
    + rewrite !lookup_take_lt by lia. reflexivity.
    + rewrite (lookup_take_ge _ (Nat.min _ _ + 1 - _)) by lia.
      destruct (decide (n < k * 40 + 50 - k * 40)) as [Hn'|Hn'].
      * rewrite lookup_take_lt by lia. rewrite lookup_drop.
        apply lookup_ge_None. lia.
      * apply lookup_take_ge. lia.
  - unfold c, Chunker.windowChunk. cbn [Chunk.content].
    rewrite windowNonEmpty_spec in Hne. apply negb_true_iff in Hne.
    now rewrite isBlank_joinLines.
Qed.

Lemma X2_witness :
  exists k c,
    c ∈ Spec.windowed (Chunker.chunkContent (Sample.fileOf "a.js" (Sample.linesOfX 45)))
    /\ Chunk.startLine c = 40 * k + 1
    /\ Chunk.endLine c = 45
    /\ length (Js.splitLines (Chunk.content c)) = 5.
Proof.
  set (file := Sample.fileOf "a.js" (Sample.linesOfX 45)).
  set (c := Chunker.windowChunk file (Js.splitLines (File.content file)) 40).
  assert (Hc : c ∈ Spec.windowed (Chunker.chunkContent file)).
  { vm_compute. apply list_elem_of_further, list_elem_of_here. }
  destruct (X2_window_shape file c Hc) as (k & Hs & He & _ & _ & Hl & _).
  exists k, c. split; [exact Hc|]. split; [exact Hs|].
  split; vm_compute; reflexivity.
Defined.

Lemma filter_map_length {A B} (f : A -> B) (P : B -> Prop)
    `{!forall x, Decision (P x)} (l : list A) :
  length (filter P (map f l)) = length (filter (fun x => P (f x)) l).
Proof.
  induction l as [|x l IH]; [reflexivity|].
  rewrite map_cons, !filter_cons. case_decide; simpl; now rewrite IH.
Qed.

Lemma windowStarts_NoDup (L : nat) : NoDup (Spec.windowStarts L).
Proof.
  unfold Spec.windowStarts, Spec.startsFrom.
  apply NoDup_fmap_2; [|apply NoDup_seq].
  intros x y. rewrite stride_eq. lia.
Qed.

(** The starts of the windows of a file that enclose line [n]. *)
Lemma enclosing_starts (file : File.t) (n : nat) :
  let lines := Js.splitLines (File.content file) in
  exists starts,
    length (filter (fun c => Chunk.startLine c <= n <= Chunk.endLine c)
                   (Spec.windowed (Chunker.chunkContent file)))
    = length starts
    /\ NoDup starts
    /\ forall i, i ∈ starts <->
         (exists k, i = k * 40) /\ i < n <= i + 50 /\ n <= length lines
         /\ Chunker.windowNonEmpty lines i = true.
Proof.
  intros lines. rewrite windowed_chunks. fold lines.
  rewrite filter_map_length, list_filter_filter.
  eexists. split; [reflexivity|]. split.
  - apply NoDup_filter, windowStarts_NoDup.
  - intros i. rewrite list_elem_of_filter. unfold Spec.windowStarts.
    rewrite startsFrom_elem, stride_eq.
    unfold Chunker.windowChunk, Chunker.chunkSize.
    cbn [Chunk.startLine Chunk.endLine]. split.
    + intros ((Hn & Hne) & k & -> & Hk). repeat split; eauto; lia.
    + intros ((k & ->) & Hn & HL & Hne). repeat split; try assumption; try lia.
      exists k. lia.
Qed.

(** X3.  The overlap of the windows.  A line number lies between
    [startLine] and [endLine] of at most two windowed chunks; a line
    that holds text lies in exactly two of them when it is one of the
    10 lines two successive windows share (lines 41-50, 81-90, ...),
    and in exactly one otherwise. *)
Theorem X3_window_overlap (file : File.t) :
  let lines := Js.splitLines (File.content file) in
  let enclosing (n : nat) :=
    filter (fun c => Chunk.startLine c <= n <= Chunk.endLine c)
           (Spec.windowed (Chunker.chunkContent file)) in
  (forall n, length (enclosing n) <= 2)
  /\ (forall j line,
        lines !! j = Some line ->
        Spec.isBlank line = false ->
        length (enclosing (j + 1))
        = if Nat.leb 40 j && Nat.ltb (j mod 40) 10 then 2 else 1).
Proof.
  intros lines enclosing. split.
  - intros n. unfold enclosing.
    destruct (enclosing_starts file n) as (starts & -> & Hnd & Hin).
    assert (Hsub : starts ⊆+ [((n - 1) / 40) * 40; ((n - 1) / 40 - 1) * 40]).
    { apply NoDup_submseteq; [assumption|]. intros i Hi.
      apply Hin in Hi as ((k & ->) & Hn & _).
      pose proof (Nat.div_mod_eq (n - 1) 40) as Hdiv.
      pose proof (Nat.mod_upper_bound (n - 1) 40 ltac:(lia)) as Hmod.
      assert (k = (n - 1) / 40 \/ k = (n - 1) / 40 - 1) as [->| ->] by nia;
        [apply list_elem_of_here | apply list_elem_of_further, list_elem_of_here]. }
    apply submseteq_length in Hsub. simpl in Hsub. lia.
  - intros j line Hj Hb. unfold enclosing.
    destruct (enclosing_starts file (j + 1)) as (starts & -> & Hnd & Hin).
    fold lines in Hin.
    pose proof (lookup_lt_Some _ _ _ Hj) as HjL.
    pose proof (Nat.div_mod_eq j 40) as Hdiv.
    pose proof (Nat.mod_upper_bound j 40 ltac:(lia)) as Hmod.
    assert (Hne : forall i, i <= j < i + 50 -> Chunker.windowNonEmpty lines i = true).
    { intros i Hi. now apply (window_has_text lines i j line). }
    destruct (Nat.leb 40 j && Nat.ltb (j mod 40) 10) eqn:Hcase.
    + apply andb_true_iff in Hcase as [H40 H10].
      apply Nat.leb_le in H40. apply Nat.ltb_lt in H10.
      assert (Hperm : starts ≡ₚ [(j / 40) * 40; (j / 40 - 1) * 40]).
      { apply NoDup_Permutation; [assumption | |].
        - apply NoDup_cons. split; [|apply NoDup_singleton].
          rewrite list_elem_of_singleton. nia.
        - intros i. rewrite Hin, !elem_of_cons, elem_of_nil. split.
          + intros ((k & ->) & Hn & _). nia.
          + intros [->|[->|[]]]; (split; [eauto|]); (split; [nia|]);
              (split; [lia|]); apply Hne; nia. }
      now rewrite Hperm.
    + assert (Hperm : starts ≡ₚ [(j / 40) * 40]).
      { apply NoDup_Permutation; [assumption | apply NoDup_singleton |].
        intros i. rewrite Hin, list_elem_of_singleton. split.
        - intros ((k & ->) & Hn & _).
          apply andb_false_iff in Hcase as [H40|H10].
          + apply Nat.leb_gt in H40. nia.
          + apply Nat.ltb_ge in H10. nia.
        - intros ->. (split; [eauto|]); (split; [nia|]); (split; [lia|]).
          apply Hne. nia. }
      now rewrite Hperm.
Qed.


(* ===================================================================== *)
(** * The hash of the offline embedding *)
(* ===================================================================== *)

Lemma toInt32_range (z : Z) : (- 2 ^ 31 <= AiProvider.toInt32 z < 2 ^ 31)%Z.
Proof.
  unfold AiProvider.toInt32.
  pose proof (Z.mod_pos_bound (z + 2 ^ 31) (2 ^ 32) ltac:(lia)). lia.
Qed.

Lemma toInt32_id (z : Z) :
  (- 2 ^ 31 <= z < 2 ^ 31)%Z -> AiProvider.toInt32 z = z.
Proof.
  intros Hz. unfold AiProvider.toInt32.
  rewrite Z.mod_small by lia. lia.
Qed.

Lemma toInt32_congr (a b : Z) :
  (a mod 2 ^ 32 = b mod 2 ^ 32)%Z -> AiProvider.toInt32 a = AiProvider.toInt32 b.
Proof.
  intros H. unfold AiProvider.toInt32.
  rewrite (Z.add_mod a), (Z.add_mod b), H by lia. reflexivity.
Qed.

Lemma toInt32_mod (z : Z) : (AiProvider.toInt32 z mod 2 ^ 32 = z mod 2 ^ 32)%Z.
Proof.
  unfold AiProvider.toInt32.
  rewrite Zminus_mod, Z.mod_mod by lia.
  rewrite <- Zminus_mod. f_equal. lia.
Qed.

Lemma toInt32_toInt32 (z : Z) :
  AiProvider.toInt32 (AiProvider.toInt32 z) = AiProvider.toInt32 z.
Proof. apply toInt32_id, toInt32_range. Qed.

(** One round of the loop of [simpleHash]: the new hash is
    [31 * hash + char], wrapped to 32 bits. *)
Lemma hash_round (hash char : Z) :
  AiProvider.bitAnd (AiProvider.shiftLeft hash 5 - hash + char)
                    (AiProvider.shiftLeft hash 5 - hash + char)
  = AiProvider.toInt32 (31 * hash + char).
Proof.
  unfold AiProvider.bitAnd. rewrite Z.land_diag.
  apply toInt32_congr. unfold AiProvider.shiftLeft.
  rewrite Z.shiftl_mul_pow2 by lia.
  rewrite Zplus_mod, Zminus_mod, toInt32_mod.
  rewrite (Zmult_mod (AiProvider.toInt32 hash)), toInt32_mod.
  rewrite <- Zmult_mod, <- Zminus_mod, <- Zplus_mod.
  f_equal. lia.
Qed.

Lemma polynomial_congr (str : string) (a b : Z) :
  (a mod 2 ^ 32 = b mod 2 ^ 32)%Z ->
  (Spec.polynomial str a mod 2 ^ 32 = Spec.polynomial str b mod 2 ^ 32)%Z.
Proof.
  revert a b. induction str as [|c str IH]; intros a b H; simpl; [exact H|].
  apply IH. rewrite (Zplus_mod (31 * a)), (Zplus_mod (31 * b)).
  rewrite (Zmult_mod 31 a), (Zmult_mod 31 b), H. reflexivity.
Qed.

Lemma hashFrom_spec (str : string) (hash : Z) :
  AiProvider.toInt32 (AiProvider.hashFrom str hash)
  = AiProvider.toInt32 (Spec.polynomial str hash).
Proof.
  revert hash. induction str as [|c str IH]; intros hash; simpl; [reflexivity|].
  rewrite hash_round, IH. apply toInt32_congr, polynomial_congr, toInt32_mod.
Qed.

Lemma hashFrom_range (str : string) (hash : Z) :
  (- 2 ^ 31 <= hash < 2 ^ 31)%Z ->
  (- 2 ^ 31 <= AiProvider.hashFrom str hash < 2 ^ 31)%Z.
Proof.
  revert hash. induction str as [|c str IH]; intros hash H; simpl; [exact H|].
  apply IH. rewrite hash_round. apply toInt32_range.
Qed.

Lemma hashFrom_app (s t : string) (hash : Z) :
  AiProvider.hashFrom (s +:+ t) hash
  = AiProvider.hashFrom t (AiProvider.hashFrom s hash).
Proof.
  revert hash. induction s as [|c s IH]; intros hash; simpl; [reflexivity|].
  apply IH.
Qed.

(** X4.  [simpleHash] is the polynomial hash of base 31 over the
    character codes, wrapped to a signed 32-bit integer (the hash code
    of a Java string): [simpleHash(s) = ToInt32(c0 31^(n-1) + ... +
    c(n-1))].  It always lies in the 32-bit range, and appending a
    character [c] turns the hash [h] into [ToInt32(31 h + c)]. *)
Theorem X4_simpleHash_polynomial (str : string) :
  AiProvider.simpleHash str = AiProvider.toInt32 (Spec.polynomial str 0)
  /\ (- 2 ^ 31 <= AiProvider.simpleHash str < 2 ^ 31)%Z
  /\ (forall c,
        AiProvider.simpleHash (str +:+ String c EmptyString)
        = AiProvider.toInt32 (31 * AiProvider.simpleHash str + Js.charCode c))
  /\ AiProvider.position str < 384.
Proof.
  assert (Hrange : (- 2 ^ 31 <= AiProvider.simpleHash str < 2 ^ 31)%Z).
  { apply hashFrom_range. lia. }
  repeat split; try apply Hrange.
  - rewrite <- (toInt32_id (AiProvider.simpleHash str)) by exact Hrange.
    apply hashFrom_spec.
  - intros c. unfold AiProvider.simpleHash. rewrite hashFrom_app. simpl.
    apply hash_round.
  - apply position_lt.
Qed.


(* ===================================================================== *)
(** * Similarity of offline embeddings *)
(* ===================================================================== *)

Lemma offline_length (text : string) :
  length (AiProvider.createSimpleEmbedding text) = 384.
Proof.
  rewrite createSimpleEmbedding_spec. unfold Spec.offlineEmbedding, Spec.normalize.
  destruct (Req_dec_T _ _); rewrite ?length_map; apply hashedBag_length.
Qed.

Lemma norm_zeros (n : nat) : Spec.norm (replicate n 0%R) = 0%R.
Proof.
  apply norm_zero, sumSquares_zero, Forall_forall.
  intros x Hx. now apply elem_of_replicate in Hx.
Qed.

Lemma offline_no_token (text : string) :
  AiProvider.tokenize text = [] ->
  AiProvider.createSimpleEmbedding text = replicate 384 0%R.
Proof.
  intros He. rewrite createSimpleEmbedding_spec.
  unfold Spec.offlineEmbedding, Spec.normalize. rewrite He, hashedBag_nil.
  destruct (Req_dec_T _ _) as [_|Hn]; [reflexivity|].
  contradict Hn. apply norm_zeros.
Qed.

Lemma offline_unit (text : string) :
  AiProvider.tokenize text <> [] ->
  Spec.norm (AiProvider.createSimpleEmbedding text) = 1%R.
Proof.
  intros Hne. rewrite createSimpleEmbedding_spec.
  unfold Spec.offlineEmbedding, Spec.normalize.
  destruct (Req_dec_T _ _) as [Hn|Hn]; [|now apply norm_normalized].
  exfalso. apply hashedBag_nonZero, sumSquares_pos in Hne.
  apply norm_zero in Hn. lra.
Qed.

Lemma offline_tokens (s t : string) :
  AiProvider.tokenize s = AiProvider.tokenize t ->
  AiProvider.createSimpleEmbedding s = AiProvider.createSimpleEmbedding t.
Proof. intros H. unfold AiProvider.createSimpleEmbedding. now rewrite H. Qed.

Lemma offline_similarity (s t : string) :
  VectorStore.cosineSimilarity (Some (AiProvider.createSimpleEmbedding s))
                               (Some (AiProvider.createSimpleEmbedding t))
  = if Rgt_dec (Spec.norm (AiProvider.createSimpleEmbedding s)
                * Spec.norm (AiProvider.createSimpleEmbedding t)) 0
    then (Spec.dot (AiProvider.createSimpleEmbedding s)
                   (AiProvider.createSimpleEmbedding t)
          / (Spec.norm (AiProvider.createSimpleEmbedding s)
             * Spec.norm (AiProvider.createSimpleEmbedding t)))%R
    else 0%R.
Proof. apply cosineSimilarity_eq. now rewrite !offline_length. Qed.

Lemma offline_similarity_units (s t : string) :
  AiProvider.tokenize s <> [] -> AiProvider.tokenize t <> [] ->
  VectorStore.cosineSimilarity (Some (AiProvider.createSimpleEmbedding s))
                               (Some (AiProvider.createSimpleEmbedding t))
  = Spec.dot (AiProvider.createSimpleEmbedding s) (AiProvider.createSimpleEmbedding t).
Proof.
  intros Hs Ht. rewrite offline_similarity.
  rewrite (offline_unit s Hs), (offline_unit t Ht).
  destruct (Rgt_dec (1 * 1) 0) as [_|Hn]; [field | lra].
Qed.

(** Texts with the same tokens, at least one, have similarity 1. *)
Lemma offline_similarity_one (s t : string) :
  AiProvider.tokenize s <> [] ->
  AiProvider.tokenize t = AiProvider.tokenize s ->
  VectorStore.cosineSimilarity (Some (AiProvider.createSimpleEmbedding s))
                               (Some (AiProvider.createSimpleEmbedding t)) = 1%R.
Proof.
  intros Hs Ht. rewrite offline_similarity_units by congruence.
  rewrite (offline_tokens t s Ht).
  change (Spec.dot ?u ?u) with (Spec.sumSquares u).
  pose proof (offline_unit s Hs) as Hn. unfold Spec.norm in Hn.
  rewrite <- (sqrt_sqrt (Spec.sumSquares _)) by apply sumSquares_nonneg.
  rewrite Hn. lra.
Qed.

(** The offline embedding of a text without a token has no length in
    exact arithmetic, and neither on doubles. *)
Lemma zeros_sumSquares (n : nat) : Ieee.sumSquares (replicate n 0%float) = 0%float.
Proof.
  apply ieee_zero_vector, Forall_forall.
  intros x Hx. apply elem_of_replicate in Hx as [-> _]. reflexivity.
Qed.

Lemma zero_norm_similarity (a : list R) (v : option (list R)) :
  Spec.norm a = 0%R ->
  VectorStore.cosineSimilarity (Some a) v = 0%R
  /\ VectorStore.cosineSimilarity v (Some a) = 0%R.
Proof.
  intros Hn. destruct v as [b|]; [|now split].
  destruct (decide (length a = length b)) as [Hlen|Hlen].
  - rewrite !cosineSimilarity_eq by congruence. rewrite Hn.
    split; destruct (Rgt_dec _ _) as [Hp|_]; try reflexivity; lra.
  - unfold VectorStore.cosineSimilarity.
    now rewrite !bool_decide_eq_true_2 by congruence.
Qed.

(** X6.  Similarity against the offline embedding of a text without a
    token, for instance a text of one- and two-letter words.  Such an
    embedding is the zero vector of 384 entries, which
    [createSimpleEmbedding] returns as it is, and its similarity to
    every vector, on either side, is exactly 0: in exact arithmetic and
    on doubles, where the zero vector has the sum of squares 0. *)
Theorem X6_offline_similarity (s : string) :
  AiProvider.tokenize s = [] ->
  AiProvider.createSimpleEmbedding s = replicate 384 0%R
  /\ (forall v : option (list R),
        VectorStore.cosineSimilarity (Some (AiProvider.createSimpleEmbedding s)) v
        = 0%R
        /\ VectorStore.cosineSimilarity v (Some (AiProvider.createSimpleEmbedding s))
           = 0%R)
  /\ (forall v : option (list float),
        Ieee.cosineSimilarity (Some (replicate 384 0%float)) v = 0%float
        /\ Ieee.cosineSimilarity v (Some (replicate 384 0%float)) = 0%float).
Proof.
  intros Hs. split; [now apply offline_no_token|]. split.
  - intros v. apply zero_norm_similarity.
    rewrite (offline_no_token s Hs). apply norm_zeros.
  - intros v.
    assert (H : Ieee.cosineSimilarity (Some (replicate 384 0%float)) v = 0%float).
    { destruct v as [b|]; [|reflexivity].
      apply ieee_zero_norm, zeros_sumSquares. }
    split; [exact H|]. now rewrite ieee_symmetric.
Qed.

Lemma X6_witness :
  AiProvider.createSimpleEmbedding "a b" = replicate 384 0%R
  /\ VectorStore.cosineSimilarity
       (Some (AiProvider.createSimpleEmbedding "a b"))
       (Some (AiProvider.createSimpleEmbedding "hello world")) = 0%R.
Proof.
  destruct (X6_offline_similarity "a b") as (Hzero & Hreal & _);
    [reflexivity|].
  split; [exact Hzero | apply Hreal].
Defined.


(* ===================================================================== *)
(** * What a search returns *)
(* ===================================================================== *)

Lemma prefix_app (p s : string) :
  String.prefix p s = true <-> exists rest, s = p +:+ rest.
Proof.
  revert s. induction p as [|c p IH]; intros s.
  - split; [intros _; now exists s | intros _; now destruct s].
  - destruct s as [|d s]; simpl.
    + split; [discriminate | intros (rest & H); discriminate].
    + destruct (Ascii.ascii_dec c d) as [->|Hcd].
      * rewrite IH. split; intros (rest & H); exists rest; [now subst | now injection H].
      * split; [discriminate|]. intros (rest & H). injection H as H1 H2. congruence.
Qed.

Lemma createEmbedding_stores (text : string) (env : Env) (st st1 : State)
    (result : Result (option (list R))) :
  AiProvider.createEmbedding text env st = (result, st1) ->
  vectorStores st1 = vectorStores st
  /\ length (requests st1) <= length (requests st) + 1
  /\ (exists lines, console st1 = (console st ++ lines)%list).
Proof.
  intros H. apply createEmbedding_effect in H as (reqs & lines & -> & Hreqs & _).
  unfold after. cbn [vectorStores requests console]. rewrite length_app.
  repeat split; [lia | now exists lines].
Qed.

Lemma admits_scored (options : Options.t) (q : option (list R)) (c : Chunk.t) :
  Spec.admits options (Spec.scored q c) <-> Spec.admits options c.
Proof. reflexivity. Qed.

(** X7.  Where the results of a search come from.  Each result is a
    stored chunk of the project, returned at most once, with its
    similarity to the query added and its embedding removed; it has
    the language of the language filter and its folder starts with the
    folder filter (a filter that is absent or empty admits every
    chunk).  The search changes no project. *)
Theorem X7_searchCode_provenance (projectId query : string) (options : Options.t)
    (env : Env) (st st' : State) (results : list Chunk.t) :
  VectorStore.searchCode projectId query options env st = (Ok results, st') ->
  exists store q,
    vectorStores st !! projectId = Some store
    /\ AiProvider.createEmbedding query env st = (Ok q, st')
    /\ vectorStores st' = vectorStores st
    /\ results ⊆+ map (fun c => Chunk.withoutEmbedding
                                   (Chunk.withSimilarity c
                                      (VectorStore.cosineSimilarity q (Chunk.embedding c))))
                      (Store.vectors store)
    /\ Forall (fun r =>
                 (forall l, Options.language options = Some l -> l <> EmptyString ->
                            Chunk.language r = l)
                 /\ (forall f, Options.folder options = Some f -> f <> EmptyString ->
                               exists rest, Chunk.folder r = f +:+ rest))
              results.
Proof.
  intros Hrun. destruct (searchCode_ok _ _ _ _ _ _ _ Hrun) as (store & q & Hstore & Hq & ->).
  exists store, q. split; [exact Hstore|]. split; [exact Hq|].
  split; [now apply createEmbedding_stores in Hq|].
  rewrite rank_spec, sliceTo_count.
  set (candidates := Spec.candidates q (Store.vectors store) options).
  set (m := if (_ <? 0)%Z then _ else _).
  assert (Hsub : take m (VectorStore.sort VectorStore.bySimilarity candidates)
                 ⊆+ candidates).
  { etransitivity; [apply submseteq_take|].
    apply Permutation_submseteq, sort_perm. }
  split.
  - rewrite <- (map_map (Spec.scored q) Chunk.withoutEmbedding).
    apply fmap_submseteq. etransitivity; [exact Hsub|].
    apply sublist_submseteq, sublist_filter.
  - apply Forall_forall. intros r Hr.
    apply list_elem_of_fmap in Hr as (c & -> & Hc).
    apply (elem_of_submseteq _ _ _ Hc) in Hsub.
    apply list_elem_of_filter in Hsub as [[Hl Hf] _].
    split.
    + intros l Hopt Hne. rewrite Hopt in Hl. destruct Hl; [congruence | assumption].
    + intros f Hopt Hne. rewrite Hopt in Hf. destruct Hf as [?|Hf]; [congruence|].
      apply prefix_app. exact Hf.
Qed.

Lemma X7_witness :
  exists store q,
    vectorStores (Sample.oneProject Sample.opposite []) !! "p" = Some store
    /\ [Sample.found "a.js" 1; Sample.found "b.js" (-1)]
       ⊆+ map (fun c => Chunk.withoutEmbedding
                          (Chunk.withSimilarity c
                             (VectorStore.cosineSimilarity q (Chunk.embedding c))))
              (Store.vectors store).
Proof.
  destruct (search_opposite None) as (st' & Hrun).
  destruct (X7_searchCode_provenance _ _ _ _ _ _ _ Hrun)
    as (store & q & Hstore & _ & _ & Hsub & _).
  exists store, q. split; [exact Hstore | exact Hsub].
Defined.

(** X8.  A search returns the best candidates.  With [n] candidates
    (the stored chunks the filters admit) and the limit [k] in force
    (10 when the limit is absent or 0), it returns [min k n] results
    when [k] is positive, and all but the [-k] last of the ranking
    when [k] is negative; and no candidate that is left out scores
    higher than a result. *)
Theorem X8_searchCode_top (projectId query : string) (options : Options.t)
    (env : Env) (st st' : State) (results : list Chunk.t) :
  VectorStore.searchCode projectId query options env st = (Ok results, st') ->
  exists store q rest,
    vectorStores st !! projectId = Some store
    /\ AiProvider.createEmbedding query env st = (Ok q, st')
    /\ let candidates := Spec.candidates q (Store.vectors store) options in
       let k := VectorStore.limitOrDefault (Options.limit options) in
       length results
       = (if (k <? 0)%Z then length candidates - Z.to_nat (- k)
          else Nat.min (Z.to_nat k) (length candidates))
       /\ map Chunk.withoutEmbedding candidates ≡ₚ (results ++ rest)%list
       /\ Forall (fun r => Forall (fun c => (Spec.score c <= Spec.score r)%R) rest)
                 results.
Proof.
  intros Hrun. destruct (searchCode_ok _ _ _ _ _ _ _ Hrun) as (store & q & Hstore & Hq & ->).
  set (candidates := Spec.candidates q (Store.vectors store) options).
  set (k := VectorStore.limitOrDefault (Options.limit options)).
  set (ranked := VectorStore.sort VectorStore.bySimilarity candidates).
  set (m := if (k <? 0)%Z then length candidates - Z.to_nat (- k) else Z.to_nat k).
  assert (Hperm : ranked ≡ₚ candidates) by apply sort_perm.
  assert (Hres : VectorStore.rank q (Store.vectors store) options
                 = map Chunk.withoutEmbedding (take m ranked)).
  { rewrite rank_spec, sliceTo_count. fold candidates k ranked.
    unfold m. now rewrite (Permutation_length Hperm). }
  assert (Hsorted : StronglySorted Spec.scoresAtLeast ranked).
  { apply (sort_sorted VectorStore.bySimilarity Spec.score
             (fun c => is_Some (Chunk.similarity c)) bySimilarity_key).
    eapply Forall_impl; [apply candidates_scored|]. now intros c [H _]. }
  exists store, q, (map Chunk.withoutEmbedding (drop m ranked)).
  split; [exact Hstore|]. split; [exact Hq|]. cbv zeta. fold candidates k.
  rewrite Hres. split; [|split].
  - rewrite length_map, length_take, (Permutation_length Hperm). unfold m.
    destruct (k <? 0)%Z; lia.
  - rewrite <- map_app, take_drop. now rewrite Hperm.
  - apply Forall_forall. intros r Hr. apply Forall_forall. intros c Hc.
    apply list_elem_of_fmap in Hr as (r0 & -> & Hr0).
    apply list_elem_of_fmap in Hc as (c0 & -> & Hc0).
    rewrite !score_withoutEmbedding.
    rewrite <- (take_drop m ranked) in Hsorted.
    exact (StronglySorted_app_1_elem_of _ _ _ _ _ Hsorted Hr0 Hc0).
Qed.

Lemma X8_witness :
  exists rest,
    map Chunk.withoutEmbedding
        (Spec.candidates (Some [1%R]) Sample.opposite (Options.mk None None (Some 1%Z)))
    ≡ₚ ([Sample.found "a.js" 1] ++ rest)%list
    /\ Forall (fun c => (Spec.score c <= 1)%R) rest.
Proof.
  destruct (search_opposite (Some 1%Z)) as (st' & Hrun).
  destruct (X8_searchCode_top _ _ _ _ _ _ _ Hrun)
    as (store & q & rest & Hstore & Hq & _ & Hperm & Htop).
  injection Hstore as <-.
  assert (Hq1 : q = Some [1%R]).
  { unfold Sample.ollamaOnes in Hq. rewrite createEmbedding_ollama in Hq by reflexivity.
    cbn in Hq. now injection Hq as <- _. }
  subst q. exists rest. split; [exact Hperm|].
  now apply Forall_cons in Htop as [Htop _].
Defined.

(** X9.  A search and the providers.  Whatever the provider and the
    outcome, a search sends at most one request, changes no project and
    only appends to the console.  With a provider other than OpenAI it
    never fails on a project that exists; with a provider that has no
    embedding service (every key but [openai] and [ollama]) it leaves
    the whole state as it was and ranks by the offline embedding of the
    query. *)
Theorem X9_searchCode_effects (projectId query : string) (options : Options.t)
    (env : Env) (st : State) :
  (forall outcome st',
      VectorStore.searchCode projectId query options env st = (outcome, st') ->
      vectorStores st' = vectorStores st
      /\ length (requests st') <= length (requests st) + 1
      /\ exists lines, console st' = (console st ++ lines)%list)
  /\ (forall store,
        vectorStores st !! projectId = Some store ->
        AiProvider.getProvider env <> "openai" ->
        exists results st',
          VectorStore.searchCode projectId query options env st = (Ok results, st'))
  /\ (forall store,
        vectorStores st !! projectId = Some store ->
        AiProvider.getProvider env <> "openai" ->
        AiProvider.getProvider env <> "ollama" ->
        VectorStore.searchCode projectId query options env st
        = (Ok (VectorStore.rank (Some (AiProvider.createSimpleEmbedding query))
                                (Store.vectors store) options), st)).
Proof.
  split; [|split].
  - intros outcome st' Hrun.
    destruct (vectorStores st !! projectId) as [store|] eqn:Hstore.
    + rewrite (searchCode_found _ _ _ _ _ store Hstore) in Hrun.
      destruct (AiProvider.createEmbedding query env st) as [[v|e] st1] eqn:Hq;
        injection Hrun as _ <-; exact (createEmbedding_stores _ _ _ _ _ Hq).
    + rewrite searchCode_missing in Hrun by assumption. injection Hrun as _ <-.
      repeat split; [lia | exists []; now rewrite app_nil_r].
  - intros store Hstore Hp.
    rewrite (searchCode_found _ _ _ _ _ store Hstore).
    destruct (AiProvider.createEmbedding query env st) as [result st1] eqn:Hq.
    apply createEmbedding_effect in Hq as (_ & _ & _ & _ & _ & Hok).
    destruct (Hok Hp) as (v & ->). eauto.
  - intros store Hstore Hp1 Hp2.
    rewrite (searchCode_found _ _ _ _ _ store Hstore).
    now rewrite createEmbedding_offline.
Qed.

Lemma X9_witness :
  VectorStore.searchCode "p" "query" Options.none (Sample.offline None)
    (Sample.oneProject Sample.opposite [])
  = (Ok (VectorStore.rank (Some (AiProvider.createSimpleEmbedding "query"))
                          Sample.opposite Options.none),
     Sample.oneProject Sample.opposite []).
Proof.
  destruct (X9_searchCode_effects "p" "query" Options.none (Sample.offline None)
              (Sample.oneProject Sample.opposite [])) as (_ & _ & H).
  apply (H (Store.mk Sample.opposite [] "2024-01-01T00:00:00.000Z"
                     (Stats.mk 0 2 []))); [reflexivity | discriminate | discriminate].
Defined.


(* ===================================================================== *)
(** * Distinct elements *)
(* ===================================================================== *)

Lemma distinctFrom_elem (seen a : list string) (x : string) :
  x ∈ Js.distinctFrom seen a <-> x ∈ a /\ x ∉ seen.
Proof.
  revert seen. induction a as [|y a IH]; intros seen; simpl.
  - rewrite elem_of_nil. tauto.
  - case_bool_decide as Hy.
    + rewrite IH, elem_of_cons. split; [tauto|].
      intros [[->|Hx] Hn]; [contradiction | tauto].
    + rewrite !elem_of_cons, IH, not_elem_of_cons. split.
      * intros [->|(Hx & Hxy & Hn)]; tauto.
      * intros [[->|Hx] Hn]; [tauto|].
        destruct (decide (x = y)) as [->|Hxy]; tauto.
Qed.

Lemma distinctFrom_NoDup (seen a : list string) : NoDup (Js.distinctFrom seen a).
Proof.
  revert seen. induction a as [|y a IH]; intros seen; simpl.
  - constructor.
  - case_bool_decide as Hy; [apply IH|].
    constructor; [|apply IH].
    rewrite distinctFrom_elem, not_elem_of_cons. tauto.
Qed.

Lemma distinctFrom_sublist (seen a : list string) :
  Js.distinctFrom seen a `sublist_of` a.
Proof.
  revert seen. induction a as [|y a IH]; intros seen; simpl.
  - constructor.
  - case_bool_decide; [apply sublist_cons | apply sublist_skip]; apply IH.
Qed.

Lemma distinct_elem (a : list string) (x : string) : x ∈ Js.distinct a <-> x ∈ a.
Proof.
  unfold Js.distinct. rewrite distinctFrom_elem, elem_of_nil. tauto.
Qed.

Lemma distinct_NoDup (a : list string) : NoDup (Js.distinct a).
Proof. apply distinctFrom_NoDup. Qed.

Lemma distinct_sublist (a : list string) : Js.distinct a `sublist_of` a.
Proof. apply distinctFrom_sublist. Qed.

(* ===================================================================== *)
(** * The project map *)
(* ===================================================================== *)

Lemma projectExists_run (projectId : string) (env : Env) (st : State) :
  VectorStore.projectExists projectId env st
  = (Ok (bool_decide (is_Some (vectorStores st !! projectId))), st).
Proof. reflexivity. Qed.

Lemma getProjectFiles_run (projectId : string) (env : Env) (st : State) :
  VectorStore.getProjectFiles projectId env st
  = (Ok (Store.files <$> vectorStores st !! projectId), st).
Proof. reflexivity. Qed.

Lemma getProjectStats_run (projectId : string) (env : Env) (st : State) :
  VectorStore.getProjectStats projectId env st
  = (Ok (Store.stats <$> vectorStores st !! projectId), st).
Proof. reflexivity. Qed.

Lemma deleteProject_run (projectId : string) (env : Env) (st : State) :
  VectorStore.deleteProject projectId env st
  = (Ok (bool_decide (is_Some (vectorStores st !! projectId))),
     mkState (delete projectId (vectorStores st)) (console st) (requests st)).
Proof. reflexivity. Qed.

(** What [indexProject] does to the state, whatever the provider. *)
Lemma indexProject_store (projectId : string) (files : list File.t) (env : Env)
    (st : State) :
  exists vectors kept lines reqs,
    let stats := Stats.mk (length files) (length vectors)
                          (Js.distinct (map File.language files)) in
    VectorStore.indexProject projectId files env st
    = (Ok stats,
       mkState (<[projectId := Store.mk vectors files (now env) stats]>
                  (vectorStores st))
               (console st ++ lines) (requests st ++ reqs))
    /\ kept `sublist_of` Spec.chunksOf files
    /\ Forall2 (fun c v => exists e, v = Chunk.withEmbedding c e) kept vectors.
Proof.
  set (st0 := after st [] [LogIndexing projectId (length files)]).
  destruct (loop_general env (Spec.chunksOf files) (VectorStore.mkProgress [] 0 0) st0)
    as (p & reqs & lines & kept & added & Hrun & _ & Hsub & Hall & Hv & _).
  cbn in Hv.
  pose proof (indexProject_run projectId files env st _ p Hrun) as Hindex.
  cbv zeta in Hindex. rewrite Hv in Hindex.
  exists added, kept. do 2 eexists. cbv zeta.
  split; [|split; [exact Hsub | exact Hall]].
  rewrite Hindex. unfold st0, after.
  cbn [vectorStores console requests]. rewrite app_nil_r, <- !app_assoc.
  reflexivity.
Qed.

(** X10.  Indexing and the lookups.  [indexProject] always returns;
    afterwards the project exists, [getProjectFiles] returns the files
    that were indexed and [getProjectStats] the statistics that were
    returned; every other project is as it was; and deleting the
    project then reports [true] and leaves the other projects. *)
Theorem X10_index_then_lookup (projectId : string) (files : list File.t)
    (env : Env) (st : State) :
  exists stats st',
    VectorStore.indexProject projectId files env st = (Ok stats, st')
    /\ Stats.totalFiles stats = length files
    /\ VectorStore.projectExists projectId env st' = (Ok true, st')
    /\ VectorStore.getProjectFiles projectId env st' = (Ok (Some files), st')
    /\ VectorStore.getProjectStats projectId env st' = (Ok (Some stats), st')
    /\ (forall other,
          other <> projectId ->
          vectorStores st' !! other = vectorStores st !! other
          /\ VectorStore.getProjectFiles other env st'
             = (Ok (Store.files <$> vectorStores st !! other), st')
          /\ VectorStore.getProjectStats other env st'
             = (Ok (Store.stats <$> vectorStores st !! other), st'))
    /\ exists st'',
         VectorStore.deleteProject projectId env st' = (Ok true, st'')
         /\ vectorStores st'' = delete projectId (vectorStores st).
Proof.
  destruct (indexProject_store projectId files env st)
    as (vectors & kept & lines & reqs & Hrun & _).
  cbv zeta in Hrun. do 2 eexists. split; [exact Hrun|].
  split; [reflexivity|].
  rewrite projectExists_run, getProjectFiles_run, getProjectStats_run.
  cbn [vectorStores]. rewrite lookup_insert_eq.
  split; [now rewrite bool_decide_eq_true_2 by eauto|].
  split; [reflexivity|]. split; [reflexivity|]. split.
  - intros other Hne.
    rewrite getProjectFiles_run, getProjectStats_run. cbn [vectorStores].
    now rewrite lookup_insert_ne by congruence.
  - eexists. rewrite deleteProject_run. cbn [vectorStores].
    rewrite lookup_insert_eq, bool_decide_eq_true_2 by eauto.
    split; [reflexivity|]. cbn [vectorStores]. apply delete_insert_eq.
Qed.

(** X11.  [deleteProject] reports whether the project existed.
    Afterwards the project does not exist, its statistics and files are
    [null], a second deletion reports [false]; the other projects, the
    console and the requests are untouched; deleting a project that
    does not exist changes nothing. *)
Theorem X11_deleteProject (projectId : string) (env : Env) (st : State) :
  exists st',
    VectorStore.deleteProject projectId env st
    = (Ok (bool_decide (is_Some (vectorStores st !! projectId))), st')
    /\ console st' = console st
    /\ requests st' = requests st
    /\ VectorStore.projectExists projectId env st' = (Ok false, st')
    /\ VectorStore.getProjectStats projectId env st' = (Ok None, st')
    /\ VectorStore.getProjectFiles projectId env st' = (Ok None, st')
    /\ VectorStore.deleteProject projectId env st' = (Ok false, st')
    /\ (forall other, other <> projectId ->
          vectorStores st' !! other = vectorStores st !! other)
    /\ (vectorStores st !! projectId = None -> st' = st).
Proof.
  eexists. split; [apply deleteProject_run|].
  rewrite projectExists_run, getProjectStats_run, getProjectFiles_run,
          deleteProject_run.
  cbn [vectorStores console requests]. rewrite lookup_delete_eq.
  rewrite bool_decide_eq_false_2 by (intros [? ?]; discriminate).
  repeat split.
  - rewrite delete_delete_eq. reflexivity.
  - intros other Hne. now rewrite lookup_delete_ne by congruence.
  - intros Hnone. rewrite delete_id by assumption. now destruct st.
Qed.

(** X12.  Indexing a project again replaces it: after [indexProject]
    with [files2] on a project that was indexed with [files1], the
    project holds [files2], the statistics of the second run and
    chunks of [files2] only; the project map is the one a single run
    with [files2] leaves. *)
Theorem X12_reindex_replaces (projectId : string) (files1 files2 : list File.t)
    (env : Env) (st : State) :
  exists stats1 st1 stats2 st2 store2,
    VectorStore.indexProject projectId files1 env st = (Ok stats1, st1)
    /\ VectorStore.indexProject projectId files2 env st1 = (Ok stats2, st2)
    /\ vectorStores st2 = <[projectId := store2]> (vectorStores st)
    /\ Store.files store2 = files2
    /\ Store.stats store2 = stats2
    /\ Stats.totalFiles stats2 = length files2
    /\ Stats.totalChunks stats2 = length (Store.vectors store2)
    /\ exists kept,
         kept `sublist_of` Spec.chunksOf files2
         /\ Forall2 (fun c v => exists e, v = Chunk.withEmbedding c e)
                    kept (Store.vectors store2).
Proof.
  destruct (indexProject_store projectId files1 env st)
    as (vectors1 & kept1 & lines1 & reqs1 & Hrun1 & _).
  cbv zeta in Hrun1.
  set (st1 := mkState _ _ _) in Hrun1.
  destruct (indexProject_store projectId files2 env st1)
    as (vectors2 & kept2 & lines2 & reqs2 & Hrun2 & Hsub & Hall).
  cbv zeta in Hrun2.
  do 5 eexists. split; [exact Hrun1|]. split; [exact Hrun2|].
  cbn [vectorStores st1 Store.files Store.stats Store.vectors
       Stats.totalFiles Stats.totalChunks].
  split; [apply insert_insert_eq|].
  repeat split. now exists kept2.
Qed.

(** X13.  The statistics of an index.  [totalFiles] is the number of
    files, [totalChunks] is at most the number of chunks of the files,
    and [languages] lists every language of a file exactly once, as a
    subsequence of the languages of the files that starts with the
    language of the first file. *)
Theorem X13_index_statistics (projectId : string) (files : list File.t)
    (env : Env) (st : State) :
  exists stats st',
    VectorStore.indexProject projectId files env st = (Ok stats, st')
    /\ Stats.totalFiles stats = length files
    /\ Stats.totalChunks stats <= length (Spec.chunksOf files)
    /\ NoDup (Stats.languages stats)
    /\ (forall l, l ∈ Stats.languages stats
                  <-> exists f, f ∈ files /\ File.language f = l)
    /\ Stats.languages stats `sublist_of` map File.language files
    /\ (forall f rest, files = f :: rest ->
          exists others, Stats.languages stats = File.language f :: others).
Proof.
  destruct (indexProject_store projectId files env st)
    as (vectors & kept & lines & reqs & Hrun & Hsub & Hall).
  cbv zeta in Hrun. do 2 eexists. split; [exact Hrun|].
  cbn [Stats.totalFiles Stats.totalChunks Stats.languages].
  split; [reflexivity|]. split.
  { apply Forall2_length in Hall. apply sublist_length in Hsub. lia. }
  split; [apply distinct_NoDup|]. split; [|split].
  - intros l. rewrite distinct_elem, list_elem_of_fmap. split.
    + intros (f & -> & Hf). now exists f.
    + intros (f & Hf & <-). now exists f.
  - apply distinct_sublist.
  - intros f rest ->. eexists. reflexivity.
Qed.


(* ===================================================================== *)
(** * Indexing without an embedding service *)
(* ===================================================================== *)

Lemma progressLines_step (m n : nat) :
  Spec.progressLines m (S n)
  = ((if Nat.eqb (S m mod 10) 0 then [LogProcessed (S m)] else [])
     ++ Spec.progressLines (S m) n)%list.
Proof.
  unfold Spec.progressLines. rewrite <- cons_seq, filter_cons.
  destruct (Nat.eqb_spec (S m mod 10) 0) as [He|He]; case_decide; try congruence;
    reflexivity.
Qed.

Lemma loop_offline (env : Env) (chunks : list Chunk.t) :
  AiProvider.getProvider env <> "openai" ->
  AiProvider.getProvider env <> "ollama" ->
  forall (p : VectorStore.Progress) (st : State),
    VectorStore.forOf chunks VectorStore.embedChunk p env st
    = (Ok (VectorStore.mkProgress
             (VectorStore.vectors p ++ map Spec.embeddedOffline chunks)
             (VectorStore.processedChunks p + length chunks)
             (VectorStore.errors p)),
       after st [] (Spec.progressLines (VectorStore.processedChunks p)
                                       (length chunks))).
Proof.
  intros H1 H2. induction chunks as [|c chunks IH]; intros p st.
  - simpl. unfold ret. rewrite app_nil_r, Nat.add_0_r, after_nil. now destruct p.
  - cbn [VectorStore.forOf]. unfold bind at 1.
    rewrite embedChunk_step, createEmbedding_offline by assumption.
    rewrite IH. cbn [VectorStore.vectors VectorStore.processedChunks
                     VectorStore.errors length map].
    rewrite after_after, <- app_assoc, progressLines_step.
    replace (S (VectorStore.processedChunks p) + length chunks)
      with (VectorStore.processedChunks p + S (length chunks)) by lia.
    reflexivity.
Qed.

(** X14.  Indexing with a provider that has no embedding service
    (every key but [openai] and [ollama]).  Every chunk of every file
    is stored, in order, with the offline embedding of its content; no
    request is sent; the console receives the opening line, one
    progress line for each tenth chunk and the closing line, and no
    warning. *)
Theorem X14_index_offline (projectId : string) (files : list File.t)
    (env : Env) (st : State) :
  AiProvider.getProvider env <> "openai" ->
  AiProvider.getProvider env <> "ollama" ->
  let chunks := Spec.chunksOf files in
  let vectors :=
    map (fun c => Chunk.withEmbedding c
                    (Some (AiProvider.createSimpleEmbedding (Chunk.content c))))
        chunks in
  let stats := Stats.mk (length files) (length chunks)
                        (Js.distinct (map File.language files)) in
  VectorStore.indexProject projectId files env st
  = (Ok stats,
     mkState (<[projectId := Store.mk vectors files (now env) stats]>
                (vectorStores st))
             (console st
              ++ [LogIndexing projectId (length files)]
              ++ map LogProcessed
                     (filter (fun k => k mod 10 = 0) (seq 1 (length chunks)))
              ++ [LogIndexed (length chunks) projectId])
             (requests st)).
Proof.
  intros H1 H2 chunks vectors stats.
  pose proof (loop_offline env chunks H1 H2 (VectorStore.mkProgress [] 0 0)
                (after st [] [LogIndexing projectId (length files)])) as Hrun.
  cbn [VectorStore.vectors VectorStore.processedChunks VectorStore.errors
       app Nat.add] in Hrun.
  rewrite (indexProject_run projectId files env st _ _ Hrun).
  cbn [VectorStore.vectors VectorStore.errors Nat.ltb Nat.leb].
  fold (Spec.embeddedOffline). unfold after.
  cbn [vectorStores console requests]. rewrite length_map, !app_nil_r.
  unfold stats, vectors, Spec.progressLines, Spec.embeddedOffline.
  rewrite <- !app_assoc. reflexivity.
Qed.

Lemma X14_witness :
  exists st',
    VectorStore.indexProject "p" [Sample.appJs] (Sample.offline None) (mkState ∅ [] [])
    = (Ok (Stats.mk 1 2 ["javascript"]), st')
    /\ requests st' = []
    /\ console st' = [LogIndexing "p" 1; LogIndexed 2 "p"].
Proof.
  eexists. split.
  - rewrite (X14_index_offline "p" [Sample.appJs] (Sample.offline None) (mkState ∅ [] []))
      by discriminate.
    reflexivity.
  - split; reflexivity.
Defined.


(* ===================================================================== *)
(** * Completions *)
(* ===================================================================== *)

Lemma generateCompletion_openai (env : Env) (systemPrompt userPrompt : string)
    (st : State) :
  AiProvider.getProvider env = "openai" ->
  AiProvider.generateCompletion systemPrompt userPrompt env st
  = let request := OpenAIChat (Some "gpt-4o-mini") systemPrompt userPrompt in
    match sdkChat env (length (requests st)) request with
    | Resolved text => (Ok text, after st [request] [])
    | Rejected m => (Throw (Error m), after st [request] [ErrOpenAICompletion m])
    | NoClient m => (Throw (Error m), after st [] [ErrOpenAICompletion m])
    end.
Proof.
  intros Hp. unfold AiProvider.generateCompletion, bind, askEnv. rewrite Hp.
  change ("openai" =? AiProvider.OPENAI) with true. cbv iota.
  change (AiProvider.providerConfigs env "openai")
    with (Some (AiProvider.mkConfig (Some "OpenAI") (Some "text-embedding-3-small")
                  (Some "gpt-4o-mini") (Some true) (Some "OPENAI_API_KEY") None)).
  unfold AiProvider.generateOpenAICompletion, tryCatch, bind, awaitSdk, after.
  cbn [AiProvider.property ret AiProvider.chatModel].
  destruct (sdkChat env _ _) as [v|m|m]; cbn.
  - unfold record. now rewrite app_nil_r.
  - reflexivity.
  - now rewrite app_nil_r.
Qed.

Lemma generateCompletion_groq (env : Env) (systemPrompt userPrompt : string)
    (st : State) :
  AiProvider.getProvider env = "groq" ->
  AiProvider.generateCompletion systemPrompt userPrompt env st
  = let request := GroqChat (Some "llama-3.1-8b-instant") systemPrompt userPrompt in
    match sdkChat env (length (requests st)) request with
    | Resolved text => (Ok text, after st [request] [])
    | Rejected m => (Throw (Error m), after st [request] [ErrGroqCompletion m])
    | NoClient m => (Throw (Error m), after st [] [ErrGroqCompletion m])
    end.
Proof.
  intros Hp. unfold AiProvider.generateCompletion, bind, askEnv. rewrite Hp.
  change ("groq" =? AiProvider.OPENAI) with false.
  change ("groq" =? AiProvider.OLLAMA) with false.
  change ("groq" =? AiProvider.GROQ) with true. cbv iota.
  change (AiProvider.providerConfigs env "groq")
    with (Some (AiProvider.mkConfig (Some "Groq (Free Tier)") None
                  (Some "llama-3.1-8b-instant") (Some true) (Some "GROQ_API_KEY") None)).
  unfold AiProvider.generateGroqCompletion, tryCatch, bind, awaitSdk, after.
  cbn [AiProvider.property ret AiProvider.chatModel].
  destruct (sdkChat env _ _) as [v|m|m]; cbn.
  - unfold record. now rewrite app_nil_r.
  - reflexivity.
  - now rewrite app_nil_r.
Qed.

Lemma generateCompletion_ollama (env : Env) (systemPrompt userPrompt : string)
    (st : State) :
  AiProvider.getProvider env = "ollama" ->
  AiProvider.generateCompletion systemPrompt userPrompt env st
  = let request :=
      OllamaChat
        (Some (AiProvider.orElse (OLLAMA_BASE_URL env) "http://localhost:11434"))
        (Some "llama3.2") systemPrompt userPrompt in
    let notRunning := Error "Ollama is not running. Start it with: ollama serve" in
    match fetchChat env (length (requests st)) request with
    | FetchBody text => (Ok text, after st [request] [])
    | FetchRejected m =>
        (Throw notRunning, after st [request] [ErrOllamaCompletion m])
    | FetchNotOk statusText =>
        (Throw notRunning,
         after st [request] [ErrOllamaCompletion ("Ollama error: " +:+ statusText)])
    end.
Proof.
  intros Hp. unfold AiProvider.generateCompletion, bind, askEnv. rewrite Hp.
  change ("ollama" =? AiProvider.OPENAI) with false.
  change ("ollama" =? AiProvider.OLLAMA) with true. cbv iota.
  change (AiProvider.providerConfigs env "ollama")
    with (Some (AiProvider.mkConfig (Some "Ollama (Local)") (Some "nomic-embed-text")
                  (Some "llama3.2") (Some false) None
                  (Some (AiProvider.orElse (OLLAMA_BASE_URL env)
                                           "http://localhost:11434")))).
  unfold AiProvider.generateOllamaCompletion, tryCatch, bind, awaitFetch, after.
  cbn [AiProvider.property ret AiProvider.chatModel AiProvider.baseUrl].
  destruct (fetchChat env _ _) as [m|t|data]; cbn.
  - reflexivity.
  - reflexivity.
  - unfold record. now rewrite app_nil_r.
Qed.

(** The state a completion leaves: the project map is untouched, at
    most one request is added. *)
Lemma generateCompletion_effect (systemPrompt userPrompt : string) (env : Env)
    (st st1 : State) (result : Result string) :
  AiProvider.generateCompletion systemPrompt userPrompt env st = (result, st1) ->
  exists reqs lines,
    st1 = after st reqs lines /\ length reqs <= 1.
Proof.
  intros Hrun.
  destruct (decide (AiProvider.getProvider env = "openai")) as [Hp|Hp1].
  { rewrite generateCompletion_openai in Hrun by assumption. cbv zeta in Hrun.
    destruct (sdkChat env _ _); injection Hrun as _ <-; do 2 eexists;
      (split; [reflexivity | simpl; lia]). }
  destruct (decide (AiProvider.getProvider env = "ollama")) as [Hp|Hp2].
  { rewrite generateCompletion_ollama in Hrun by assumption. cbv zeta in Hrun.
    destruct (fetchChat env _ _); injection Hrun as _ <-; do 2 eexists;
      (split; [reflexivity | simpl; lia]). }
  destruct (decide (AiProvider.getProvider env = "groq")) as [Hp|Hp3].
  { rewrite generateCompletion_groq in Hrun by assumption. cbv zeta in Hrun.
    destruct (sdkChat env _ _); injection Hrun as _ <-; do 2 eexists;
      (split; [reflexivity | simpl; lia]). }
  rewrite generateCompletion_offline in Hrun by assumption.
  injection Hrun as _ <-. exists [], []. split; [now rewrite after_nil | simpl; lia].
Qed.

Lemma generateAnswer_run (question context : string) (env : Env) (st : State) :
  Qa.generateAnswer question context env st
  = match AiProvider.generateCompletion Qa.answerSystemPrompt
            (Qa.answerUserPrompt question context) env st with
    | (Ok text, st1) => (Ok text, st1)
    | (Throw e, st1) =>
        (Throw (Error ("Failed to generate answer: " +:+ messageOf e)),
         after st1 [] [ErrGeneratingAnswer (messageOf e)])
    end.
Proof.
  unfold Qa.generateAnswer, tryCatch.
  destruct (AiProvider.generateCompletion _ _ env st) as [[text|e] st1];
    [reflexivity|].
  unfold bind, consoleWrite, throw, after. cbn. now rewrite app_nil_r.
Qed.

Lemma answerQuestion_run (projectId question : string) (options : Options.t)
    (env : Env) (st : State) :
  Qa.answerQuestion projectId question options env st
  = match VectorStore.searchCode projectId question
            (Options.mk (Options.language options) (Options.folder options)
                        (Some 8%Z))
            env (after st [] [LogProcessingQuestion projectId question]) with
    | (Throw e, st1) => (Throw e, st1)
    | (Ok [], st1) => (Ok (Answer.mk Qa.noResultsAnswer [] low None None), st1)
    | (Ok (top :: rest), st1) =>
        match Qa.generateAnswer question (Qa.buildContext (top :: rest)) env st1 with
        | (Throw e, st2) => (Throw e, st2)
        | (Ok text, st2) =>
            (Ok (Answer.mk text (Qa.formatReferences (top :: rest))
                   (Qa.confidenceOf (Chunk.similarity top))
                   (Some (Js.distinct (map Chunk.path (top :: rest))))
                   (Some (AiProvider.getProviderConfigName env))),
             st2)
        end
    end.
Proof.
  unfold Qa.answerQuestion, bind, consoleWrite, after.
  rewrite app_nil_r.
  destruct (VectorStore.searchCode _ _ _ env _) as [[[|top rest]|e] st1];
    reflexivity.
Qed.


(* ===================================================================== *)
(** * Failures of a completion *)
(* ===================================================================== *)

(** X15.  How a failed completion reaches the caller of
    [generateAnswer].  Every error [generateAnswer] throws is a new
    [Error] whose message is [Failed to generate answer: ] followed by
    the message of the error of [generateCompletion], logged once more.
    With OpenAI and Groq that is the message of the rejected request.
    With Ollama every failure, a request that cannot be sent as well as
    a response that is not [ok], reaches the caller as the same text,
    [Ollama is not running. Start it with: ollama serve]; the actual
    cause is only logged.  With every other provider key the demo
    completion is returned and nothing is sent or logged. *)
Theorem X15_generateAnswer_failures (question context : string) (env : Env)
    (st : State) :
  let prompt := Qa.answerUserPrompt question context in
  let n := length (requests st) in
  let notRunning := "Ollama is not running. Start it with: ollama serve" in
  (forall e st',
      Qa.generateAnswer question context env st = (Throw e, st') ->
      exists cause st1,
        AiProvider.generateCompletion Qa.answerSystemPrompt prompt env st
        = (Throw cause, st1)
        /\ e = Error ("Failed to generate answer: " +:+ messageOf cause)
        /\ st' = after st1 [] [ErrGeneratingAnswer (messageOf cause)])
  /\ (AiProvider.getProvider env = "openai" ->
      forall m,
        let request := OpenAIChat (Some "gpt-4o-mini") Qa.answerSystemPrompt prompt in
        sdkChat env n request = Rejected m ->
        Qa.generateAnswer question context env st
        = (Throw (Error ("Failed to generate answer: " +:+ m)),
           after st [request] [ErrOpenAICompletion m; ErrGeneratingAnswer m]))
  /\ (AiProvider.getProvider env = "groq" ->
      forall m,
        let request := GroqChat (Some "llama-3.1-8b-instant")
                                Qa.answerSystemPrompt prompt in
        sdkChat env n request = Rejected m ->
        Qa.generateAnswer question context env st
        = (Throw (Error ("Failed to generate answer: " +:+ m)),
           after st [request] [ErrGroqCompletion m; ErrGeneratingAnswer m]))
  /\ (AiProvider.getProvider env = "ollama" ->
      let request :=
        OllamaChat
          (Some (AiProvider.orElse (OLLAMA_BASE_URL env) "http://localhost:11434"))
          (Some "llama3.2") Qa.answerSystemPrompt prompt in
      forall cause,
        fetchChat env n request = FetchRejected cause
        \/ (exists statusText,
              fetchChat env n request = FetchNotOk statusText
              /\ cause = "Ollama error: " +:+ statusText) ->
        Qa.generateAnswer question context env st
        = (Throw (Error ("Failed to generate answer: " +:+ notRunning)),
           after st [request]
                 [ErrOllamaCompletion cause; ErrGeneratingAnswer notRunning]))
  /\ (AiProvider.getProvider env <> "openai" ->
      AiProvider.getProvider env <> "ollama" ->
      AiProvider.getProvider env <> "groq" ->
      Qa.generateAnswer question context env st
      = (Ok (AiProvider.generateDemoCompletion prompt), st)).
Proof.
  intros prompt n notRunning. split; [|split; [|split; [|split]]].
  - intros e st' Hrun. rewrite generateAnswer_run in Hrun. fold prompt in Hrun.
    destruct (AiProvider.generateCompletion _ _ env st) as [[text|cause] st1];
      [discriminate|].
    injection Hrun as <- <-. now exists cause, st1.
  - intros Hp m request Hm. rewrite generateAnswer_run.
    rewrite generateCompletion_openai by assumption. cbv zeta.
    fold prompt request n. rewrite Hm. now rewrite after_after.
  - intros Hp m request Hm. rewrite generateAnswer_run.
    rewrite generateCompletion_groq by assumption. cbv zeta.
    fold prompt request n. rewrite Hm. now rewrite after_after.
  - intros Hp request cause Hcause. rewrite generateAnswer_run.
    rewrite generateCompletion_ollama by assumption. cbv zeta.
    fold prompt request n.
    destruct Hcause as [Hc|(statusText & Hc & ->)]; rewrite Hc;
      now rewrite after_after.
  - intros H1 H2 H3. rewrite generateAnswer_run.
    now rewrite generateCompletion_offline.
Qed.

Lemma X15_witness :
  exists request,
    Qa.generateAnswer "what does add do?" "" (Sample.offline (Some "ollama"))
      (Sample.oneProject [] [])
    = (Throw (Error "Failed to generate answer: Ollama is not running. Start it with: ollama serve"),
       after (Sample.oneProject [] []) [request]
             [ErrOllamaCompletion "fetch failed";
              ErrGeneratingAnswer "Ollama is not running. Start it with: ollama serve"]).
Proof.
  destruct (X15_generateAnswer_failures "what does add do?" ""
              (Sample.offline (Some "ollama")) (Sample.oneProject [] []))
    as (_ & _ & _ & H & _).
  eexists. apply H; [reflexivity | left; reflexivity].
Defined.

(* ===================================================================== *)
(** * Answers without a provider *)
(* ===================================================================== *)

Lemma searchCode_offline (projectId query : string) (options : Options.t)
    (env : Env) (st : State) (store : Store.t) :
  vectorStores st !! projectId = Some store ->
  AiProvider.getProvider env <> "openai" ->
  AiProvider.getProvider env <> "ollama" ->
  VectorStore.searchCode projectId query options env st
  = (Ok (VectorStore.rank (Some (AiProvider.createSimpleEmbedding query))
                          (Store.vectors store) options), st).
Proof.
  intros Hstore H1 H2. rewrite (searchCode_found _ _ _ _ _ store Hstore).
  now rewrite createEmbedding_offline.
Qed.

(** X16.  [answerQuestion] and the project.  On a project that does
    not exist it throws the error of the search after it has logged the
    question, whatever the provider.  On a project that exists, with a
    provider key other than [openai], [ollama] and [groq], it never
    fails and sends no request: it logs the question and returns either
    the fixed message (no chunk found) or the demo completion for the
    chunks found, with the [name] of [getProviderConfig()]: the name of
    the demo provider for the key [demo], and [undefined] for every
    other such key, also for [constructor] and [__proto__], since the
    spread copies own properties only. *)
Theorem X16_answerQuestion_offline (projectId question : string)
    (options : Options.t) (env : Env) (st : State) :
  let logged := after st [] [LogProcessingQuestion projectId question] in
  (vectorStores st !! projectId = None ->
   Qa.answerQuestion projectId question options env st
   = (Throw (VectorStore.projectNotFound projectId), logged))
  /\ (forall store,
        vectorStores st !! projectId = Some store ->
        AiProvider.getProvider env <> "openai" ->
        AiProvider.getProvider env <> "ollama" ->
        AiProvider.getProvider env <> "groq" ->
        let chunks :=
          VectorStore.rank (Some (AiProvider.createSimpleEmbedding question))
            (Store.vectors store)
            (Options.mk (Options.language options) (Options.folder options)
                        (Some 8%Z)) in
        exists answer,
          Qa.answerQuestion projectId question options env st = (Ok answer, logged)
          /\ Answer.references answer = Qa.formatReferences chunks
          /\ (chunks = [] -> answer = Answer.mk Qa.noResultsAnswer [] low None None)
          /\ (chunks <> [] ->
              Answer.answer answer
              = AiProvider.generateDemoCompletion
                  (Qa.answerUserPrompt question (Qa.buildContext chunks))
              /\ Answer.provider answer = Some (AiProvider.getProviderConfigName env))).
Proof.
  intros logged. split.
  - intros Hnone. rewrite answerQuestion_run. fold logged.
    now rewrite searchCode_missing.
  - intros store Hstore H1 H2 H3 chunks. rewrite answerQuestion_run. fold logged.
    rewrite (searchCode_offline _ _ _ _ _ store) by assumption. fold chunks.
    destruct chunks as [|top rest] eqn:Hchunks.
    + eexists. split; [reflexivity|]. split; [reflexivity|].
      split; [reflexivity | congruence].
    + rewrite generateAnswer_run, generateCompletion_offline by assumption.
      eexists. split; [reflexivity|]. split; [reflexivity|].
      split; [discriminate | now split].
Qed.

Lemma X16_witness :
  Qa.answerQuestion "q" "what does add do?" Options.none (Sample.offline None)
    Sample.emptyProject
  = (Throw (VectorStore.projectNotFound "q"),
     after Sample.emptyProject [] [LogProcessingQuestion "q" "what does add do?"])
  /\ (let env := Sample.offline (Some "constructor") in
      let st := Sample.oneProject Sample.opposite [] in
      exists answer,
        Qa.answerQuestion "p" "what does add do?" Options.none env st
        = (Ok answer, after st [] [LogProcessingQuestion "p" "what does add do?"])
        /\ length (Answer.references answer) = 2
        /\ Answer.provider answer = Some None).
Proof.
  split.
  - apply (X16_answerQuestion_offline "q" "what does add do?" Options.none
             (Sample.offline None) Sample.emptyProject).
    reflexivity.
  - intros env st.
    destruct (X16_answerQuestion_offline "p" "what does add do?" Options.none
                env st) as (_ & Hfound).
    destruct (Hfound (Store.mk Sample.opposite [] "2024-01-01T00:00:00.000Z"
                               (Stats.mk 0 2 [])))
      as (answer & Hrun & Hrefs & _ & Hsome);
      [reflexivity | discriminate | discriminate | discriminate |].
    cbn [Store.vectors] in Hrefs, Hsome.
    assert (Hcount :
              length (VectorStore.rank
                        (Some (AiProvider.createSimpleEmbedding "what does add do?"))
                        Sample.opposite
                        (Options.mk (Options.language Options.none)
                                    (Options.folder Options.none) (Some 8%Z)))
              = 2)
      by (rewrite rank_count; reflexivity).
    exists answer. split; [exact Hrun|]. split.
    + rewrite Hrefs. unfold Qa.formatReferences. now rewrite length_map.
    + apply Hsome. intros Hnil. rewrite Hnil in Hcount. discriminate.
Defined.

(* ===================================================================== *)
(** * References *)
(* ===================================================================== *)

Lemma append_assoc (a b c : string) : (a +:+ b) +:+ c = a +:+ (b +:+ c).
Proof.
  induction a as [|x a IH]; [reflexivity|].
  change (String x ((a +:+ b) +:+ c) = String x (a +:+ (b +:+ c))).
  now rewrite IH.
Qed.

Lemma append_empty (a : string) : a +:+ "" = a.
Proof.
  induction a as [|x a IH]; [reflexivity|].
  change (String x (a +:+ "") = String x a). now rewrite IH.
Qed.

(** The first lines of a text are a prefix of the text. *)
Lemma joinLines_take (n : nat) (l : list string) :
  exists rest, Js.joinLines l = Js.joinLines (take n l) +:+ rest.
Proof.
  revert n. induction l as [|x l IH]; intros n.
  - exists "". now rewrite take_nil.
  - destruct n as [|n]; [now exists (Js.joinLines (x :: l))|].
    destruct l as [|y l].
    + exists "". cbn [take]. rewrite take_nil. now rewrite append_empty.
    + destruct (IH n) as (rest & Hrest). rewrite joinLines_cons, Hrest.
      destruct n as [|n].
      * exists (Js.NL +:+ Js.joinLines [] +:+ rest). reflexivity.
      * exists rest. cbn [take]. rewrite joinLines_cons.
        now rewrite !append_assoc.
Qed.

Lemma preview_lines (content : string) (n : nat) :
  0 < n ->
  (exists rest, content = Js.joinLines (Js.slice 0 n (Js.splitLines content)) +:+ rest)
  /\ Js.splitLines (Js.joinLines (Js.slice 0 n (Js.splitLines content)))
     = take n (Js.splitLines content).
Proof.
  intros Hn. unfold Js.slice. rewrite drop_0, Nat.sub_0_r. split.
  - destruct (joinLines_take n (Js.splitLines content)) as (rest & Hrest).
    exists rest. now rewrite <- Hrest, joinLines_splitLines.
  - apply splitLines_joinLines.
    + pose proof (splitLines_nonempty content) as Hlen.
      destruct (Js.splitLines content); [simpl in Hlen; lia|].
      destruct n; [lia | discriminate].
    + apply Forall_take, splitLines_lines.
Qed.


Lemma round_integer (z : Z) : Qa.round (IZR z) = z.
Proof.
  unfold Qa.round. symmetry. apply Int_part_spec. lra.
Qed.


Lemma search_ones (env : Env) (query : string) (limit : option Z) :
  AiProvider.getProvider env = "ollama" ->
  (forall n request, fetchEmbedding env n request = FetchBody (Some [1%R])) ->
  exists request,
    VectorStore.searchCode "p" query (Options.mk None None limit) env
      (Sample.oneProject Sample.opposite [])
    = (Ok (Js.sliceTo (VectorStore.limitOrDefault limit)
                      [Sample.found "a.js" 1; Sample.found "b.js" (-1)]),
       after (Sample.oneProject Sample.opposite []) [request] []).
Proof.
  intros Hp Hfetch. eexists.
  erewrite searchCode_found by reflexivity.
  rewrite createEmbedding_ollama by assumption. cbv zeta. rewrite Hfetch.
  cbn [Store.vectors]. now rewrite rank_opposite.
Qed.




(* ===================================================================== *)
(** * From indexing to the answer *)
(* ===================================================================== *)

(** With a positive limit the first result of a search scores at least
    as high as every candidate. *)
Lemma rank_best (q : option (list R)) (stored : list Chunk.t)
    (options : Options.t) (c0 : Chunk.t) :
  c0 ∈ Spec.candidates q stored options ->
  (0 < VectorStore.limitOrDefault (Options.limit options))%Z ->
  exists top rest,
    VectorStore.rank q stored options = top :: rest
    /\ Chunk.similarity top = Some (Spec.score top)
    /\ (Spec.score c0 <= Spec.score top <= 1)%R.
Proof.
  intros Hc0 Hk. rewrite rank_spec, sliceTo_count.
  set (candidates := Spec.candidates q stored options) in *.
  set (ranked := VectorStore.sort VectorStore.bySimilarity candidates).
  assert (Hperm : ranked ≡ₚ candidates) by apply sort_perm.
  assert (Hsorted : StronglySorted Spec.scoresAtLeast ranked).
  { apply (sort_sorted VectorStore.bySimilarity Spec.score
             (fun c => is_Some (Chunk.similarity c)) bySimilarity_key).
    eapply Forall_impl; [apply candidates_scored|]. now intros c [H _]. }
  assert (Hc0' : c0 ∈ ranked) by now rewrite Hperm.
  destruct ranked as [|x xs]; [now apply elem_of_nil in Hc0'|].
  destruct (Z.ltb_spec (VectorStore.limitOrDefault (Options.limit options)) 0);
    [lia|].
  destruct (Z.to_nat (VectorStore.limitOrDefault (Options.limit options)))
    as [|m] eqn:Hm; [lia|].
  cbn [take map]. do 2 eexists. split; [reflexivity|].
  assert (Hx : x ∈ candidates) by (rewrite <- Hperm; apply list_elem_of_here).
  pose proof (candidates_scored q stored options) as Hcand.
  rewrite Forall_forall in Hcand.
  destruct (Hcand x Hx) as ([s Hs] & Hrange & _).
  rewrite score_withoutEmbedding. split; [|split].
  - cbn [Chunk.withoutEmbedding Chunk.similarity]. unfold Spec.score. now rewrite Hs.
  - apply elem_of_cons in Hc0' as [->|Hin]; [lra|].
    apply StronglySorted_inv in Hsorted as [_ Hall].
    rewrite Forall_forall in Hall. exact (Hall c0 Hin).
  - apply Hrange.
Qed.

(** X18.  From indexing to a confident answer, with a provider key
    other than [openai], [ollama] and [groq].  When a question has the
    tokens of a chunk of an indexed file (at least one token), and the
    filters admit the chunk, the answer comes with confidence [high]:
    the first reference has similarity 100, and neither the indexing
    nor the question sends a request. *)
Theorem X18_exact_match_is_confident (projectId question : string)
    (files : list File.t) (options : Options.t) (env : Env) (st : State)
    (c : Chunk.t) :
  AiProvider.getProvider env <> "openai" ->
  AiProvider.getProvider env <> "ollama" ->
  AiProvider.getProvider env <> "groq" ->
  c ∈ Spec.chunksOf files ->
  AiProvider.tokenize question <> [] ->
  AiProvider.tokenize (Chunk.content c) = AiProvider.tokenize question ->
  Spec.admits options c ->
  exists stats st1 answer st2 first others,
    VectorStore.indexProject projectId files env st = (Ok stats, st1)
    /\ Qa.answerQuestion projectId question options env st1 = (Ok answer, st2)
    /\ Answer.confidence answer = high
    /\ Answer.references answer = first :: others
    /\ Reference.similarity first = Some 100%Z
    /\ requests st2 = requests st.
Proof.
  intros H1 H2 H3 Hc Htokens Hsame Hadmits.
  set (vectors := map Spec.embeddedOffline (Spec.chunksOf files)).
  set (stats := Stats.mk (length files) (length (Spec.chunksOf files))
                         (Js.distinct (map File.language files))).
  set (q := Some (AiProvider.createSimpleEmbedding question)).
  set (options8 := Options.mk (Options.language options) (Options.folder options)
                              (Some 8%Z)).
  (* the index *)
  pose proof (loop_offline env (Spec.chunksOf files) H1 H2
                (VectorStore.mkProgress [] 0 0)
                (after st [] [LogIndexing projectId (length files)])) as Hloop.
  cbn [VectorStore.vectors VectorStore.processedChunks VectorStore.errors
       app Nat.add] in Hloop.
  pose proof (indexProject_run projectId files env st _ _ Hloop) as Hrun.
  cbv zeta in Hrun.
  cbn [VectorStore.vectors VectorStore.errors Nat.ltb Nat.leb] in Hrun.
  fold vectors in Hrun. set (st1 := mkState _ _ _) in Hrun.
  assert (Hstore : vectorStores st1 !! projectId
                   = Some (Store.mk vectors files (now env)
                             (Stats.mk (length files) (length vectors)
                                (Js.distinct (map File.language files))))).
  { unfold st1. cbn [vectorStores]. apply lookup_insert_eq. }
  assert (Hreq1 : requests st1 = requests st).
  { unfold st1, after. cbn [requests]. now rewrite !app_nil_r. }
  (* the best candidate *)
  assert (Hcand : Spec.scored q (Spec.embeddedOffline c)
                  ∈ Spec.candidates q vectors options8).
  { unfold Spec.candidates. apply list_elem_of_filter. split.
    - exact Hadmits.
    - apply list_elem_of_fmap. eexists. split; [reflexivity|].
      apply list_elem_of_fmap. now exists c. }
  assert (Hone : Spec.score (Spec.scored q (Spec.embeddedOffline c)) = 1%R).
  { unfold Spec.score, Spec.scored, Spec.embeddedOffline, q.
    cbn [Chunk.withSimilarity Chunk.withEmbedding Chunk.similarity Chunk.embedding].
    now apply offline_similarity_one. }
  destruct (rank_best q vectors options8 _ Hcand ltac:(simpl; lia))
    as (top & rest & Hrank & Hsim & Hbest).
  rewrite Hone in Hbest.
  assert (Htop : Chunk.similarity top = Some 1%R) by (rewrite Hsim; f_equal; lra).
  (* the answer *)
  do 6 eexists. split; [exact Hrun|].
  rewrite answerQuestion_run. fold options8.
  rewrite (searchCode_offline projectId question options8 env
             (after st1 [] [LogProcessingQuestion projectId question]) _
             Hstore H1 H2).
  cbn [Store.vectors]. fold q. rewrite Hrank.
  rewrite generateAnswer_run, generateCompletion_offline by assumption.
  split; [reflexivity|].
  cbn [Answer.confidence Answer.references Qa.formatReferences map].
  rewrite Htop. split; [|split; [reflexivity|split]].
  - apply confidenceOf_label. lra.
  - unfold Qa.formatReference. cbn [Reference.similarity]. rewrite Htop.
    cbn [fmap option_fmap option_map]. f_equal.
    replace (1 * 100)%R with (IZR 100) by lra. apply round_integer.
  - unfold after. cbn [requests]. now rewrite app_nil_r.
Qed.

Lemma X18_witness :
  exists stats st1 answer st2,
    VectorStore.indexProject "p" [Sample.sumJs] (Sample.offline None)
      (mkState ∅ [] []) = (Ok stats, st1)
    /\ Qa.answerQuestion "p" Sample.sumQuestion Options.none (Sample.offline None) st1
       = (Ok answer, st2)
    /\ Answer.confidence answer = high
    /\ requests st2 = [].
Proof.
  destruct (X18_exact_match_is_confident "p" Sample.sumQuestion [Sample.sumJs]
              Options.none (Sample.offline None) (mkState ∅ [] [])
              (Chunker.windowChunk Sample.sumJs
                 (Js.splitLines (File.content Sample.sumJs)) 0))
    as (stats & st1 & answer & st2 & first & others & Hi & Ha & Hc & _ & _ & Hr).
  - discriminate.
  - discriminate.
  - discriminate.
  - vm_compute. apply list_elem_of_further, list_elem_of_here.
  - discriminate.
  - reflexivity.
  - split; exact I.
  - now exists stats, st1, answer, st2.
Defined.


(* ===================================================================== *)
(** * The demo completion *)
(* ===================================================================== *)

(** The pattern [(.+?)(?:\n|$)] on a line that a line feed ends. *)
Lemma lazyLine_line (line rest : string) :
  line <> EmptyString ->
  Spec.allChars (fun c => negb (AiProvider.isLineTerminator c)) line = true ->
  AiProvider.lazyLine (line +:+ String Js.LF rest) = Some line.
Proof.
  induction line as [|c line IH]; [congruence|]. intros _ Hline.
  simpl in Hline. apply andb_true_iff in Hline as [Hc Hline].
  apply negb_true_iff in Hc.
  change (String c line +:+ String Js.LF rest)
    with (String c (line +:+ String Js.LF rest)).
  cbn [AiProvider.lazyLine]. rewrite Hc.
  destruct line as [|d line].
  - change ("" +:+ String Js.LF rest) with (String Js.LF rest).
    cbv iota. now rewrite Ascii.eqb_refl.
  - change (String d line +:+ String Js.LF rest)
      with (String d (line +:+ String Js.LF rest)) in *.
    assert (Hd : Ascii.eqb d Js.LF = false).
    { simpl in Hline. apply andb_true_iff in Hline as [Hd _].
      apply negb_true_iff in Hd. unfold AiProvider.isLineTerminator in Hd.
      now apply orb_false_iff in Hd as [Hd _]. }
    cbv iota. rewrite Hd, IH by (congruence || assumption). reflexivity.
Qed.

(** The scan of [match] passes over the characters that are not a
    [q] or a [Q]. *)
Lemma matchQuestion_skip (a s : string) :
  Spec.allChars (fun c => negb (Ascii.eqb (Js.lowerChar c) "q")) a = true ->
  AiProvider.matchQuestion (a +:+ s) = AiProvider.matchQuestion s.
Proof.
  induction a as [|c a IH]; [reflexivity|]. intros Ha.
  simpl in Ha. apply andb_true_iff in Ha as [Hc Ha].
  apply negb_true_iff, Ascii.eqb_neq in Hc.
  change (String c a +:+ s) with (String c (a +:+ s)).
  cbn [AiProvider.matchQuestion].
  change (Js.toLowerCase (String c (a +:+ s)))
    with (String (Js.lowerChar c) (Js.toLowerCase (a +:+ s))).
  cbn [String.prefix].
  destruct (Ascii.ascii_dec "q" (Js.lowerChar c)) as [He|_]; [congruence|].
  now apply IH.
Qed.

Lemma fold_append {A} (g : A -> string) (l : list A) (init : string) :
  fold_left (fun acc x => acc +:+ g x) l init
  = init +:+ fold_left (fun acc x => acc +:+ g x) l "".
Proof.
  revert init. induction l as [|x l IH]; intros init; simpl.
  - now rewrite append_empty.
  - rewrite IH, (IH ("" +:+ g x)). now rewrite !append_assoc.
Qed.

(** The question pattern on a prompt of [generateAnswer]. *)
Lemma matchQuestion_prompt (question more : string) :
  Spec.allChars (fun c => negb (AiProvider.isLineTerminator c)) question = true ->
  AiProvider.matchQuestion
    ("Based on the following code context from the codebase, please answer this question:

Question: " +:+ question +:+ String Js.LF more)
  = Some ("Question: " +:+ question).
Proof.
  intros Hq.
  change (AiProvider.matchQuestion
            ("Based on the following code context from the codebase, please answer this "
             +:+ String "q" ("uestion:" +:+ Js.NL +:+ Js.NL
                             +:+ ("Question: " +:+ question) +:+ String Js.LF more))
          = Some ("Question: " +:+ question)).
  rewrite matchQuestion_skip by reflexivity.
  cbn [AiProvider.matchQuestion].
  set (line := "Question: " +:+ question).
  change (String.prefix "question:"
            (Js.toLowerCase (String "q" ("uestion:" +:+ Js.NL +:+ Js.NL
                                         +:+ line +:+ String Js.LF more))))
    with true. cbv iota.
  change (AiProvider.dropChars 9
            (String "q" ("uestion:" +:+ Js.NL +:+ Js.NL +:+ line
                         +:+ String Js.LF more)))
    with (String Js.LF (String Js.LF (String "Q" ("uestion: " +:+ question
                                                  +:+ String Js.LF more)))).
  cbn [AiProvider.spacesThenLazyLine].
  change (Js.isSpace Js.LF) with true. change (Js.isSpace "Q") with false.
  cbv iota.
  change (String "Q" ("uestion: " +:+ question +:+ String Js.LF more))
    with (line +:+ String Js.LF more).
  rewrite lazyLine_line; [reflexivity | discriminate | exact Hq].
Qed.

(** X19.  The demo completion and the prompt of [generateAnswer].  The
    question pattern is matched without regard to case, so in that
    prompt it first matches the words [this question:] of the opening
    sentence, and the text it extracts is the next line that holds
    text: for a question without line terminator the demo response
    announces [Question: ] followed by the question. *)
Theorem X19_demo_announces_question (question context : string) :
  Spec.allChars (fun c => negb (AiProvider.isLineTerminator c)) question = true ->
  let prompt := Qa.answerUserPrompt question context in
  AiProvider.matchQuestion prompt = Some ("Question: " +:+ question)
  /\ exists rest,
       AiProvider.generateDemoCompletion prompt
       = "## Demo Mode Response" +:+ Js.NL +:+ Js.NL
         +:+ "I analyzed your codebase to answer: "
         +:+ AiProvider.quote +:+ "Question: " +:+ question +:+ AiProvider.quote
         +:+ Js.NL +:+ Js.NL +:+ rest.
Proof.
  intros Hq prompt.
  assert (Hmatch : AiProvider.matchQuestion prompt = Some ("Question: " +:+ question)).
  { unfold prompt, Qa.answerUserPrompt. now apply matchQuestion_prompt. }
  split; [exact Hmatch|].
  unfold AiProvider.generateDemoCompletion. rewrite Hmatch. cbv zeta.
  case_bool_decide.
  - rewrite fold_append. eexists. rewrite !append_assoc. reflexivity.
  - eexists. rewrite !append_assoc. reflexivity.
Qed.

Lemma X19_witness :
  AiProvider.matchQuestion (Qa.answerUserPrompt "what does add do?" "")
  = Some "Question: what does add do?".
Proof.
  apply (X19_demo_announces_question "what does add do?" ""). reflexivity.
Defined.


(* ===================================================================== *)
(** * The status of the provider *)
(* ===================================================================== *)

Lemma getProviderStatus_keyed (env : Env) (st : State) (key : string)
    (configName model keyVar : string) (embedding : option string) :
  AiProvider.getProvider env = key ->
  AiProvider.providerConfigs env key
  = Some (AiProvider.mkConfig (Some configName) embedding (Some model)
                              (Some true) (Some keyVar) None) ->
  AiProvider.getProviderStatus env st
  = (Ok (AiProvider.mkStatus key (Some configName)
           (AiProvider.isTruthy (AiProvider.processEnv env (Some keyVar)))
           (if AiProvider.isTruthy (AiProvider.processEnv env (Some keyVar))
            then "Using " +:+ configName +:+ " with " +:+ model
            else "Missing " +:+ keyVar +:+ " environment variable")), st).
Proof.
  intros Hp Hc. unfold AiProvider.getProviderStatus, bind, askEnv.
  rewrite Hp, Hc. cbn [AiProvider.property ret AiProvider.name
                       AiProvider.requiresKey AiProvider.keyEnvVar
                       AiProvider.chatModel].
  rewrite bool_decide_eq_true_2 by reflexivity. reflexivity.
Qed.

Lemma getProviderStatus_keyless (env : Env) (st : State) (key : string)
    (configName : string) (embedding model url : option string) :
  AiProvider.getProvider env = key ->
  AiProvider.providerConfigs env key
  = Some (AiProvider.mkConfig (Some configName) embedding model
                              (Some false) None url) ->
  AiProvider.getProviderStatus env st
  = (Ok (AiProvider.mkStatus key (Some configName) true
           (if String.eqb key AiProvider.OLLAMA
            then "Using Ollama at " +:+ AiProvider.interpolate url
                 +:+ ". Make sure Ollama is running."
            else if String.eqb key AiProvider.DEMO
                 then "Demo mode - semantic search works, AI responses are simulated"
                 else "")), st).
Proof.
  intros Hp Hc. unfold AiProvider.getProviderStatus, bind, askEnv.
  rewrite Hp, Hc. cbn [AiProvider.property ret AiProvider.name
                       AiProvider.requiresKey AiProvider.baseUrl].
  rewrite bool_decide_eq_false_2 by discriminate.
  destruct (String.eqb key AiProvider.OLLAMA); [reflexivity|].
  now destruct (String.eqb key AiProvider.DEMO).
Qed.

(** X20.  The provider status for the four recognized keys.
    [getProviderStatus] returns, and importing the module logs the
    provider once.  The status carries the key and the name of the
    configuration.  It is not configured exactly when the provider
    needs an API key (OpenAI, Groq) and the environment variable of
    that key is unset or empty; its message then names the missing
    variable, and otherwise names the chat model, the Ollama address
    (by default [http://localhost:11434]) or the demo mode. *)
Theorem X20_getProviderStatus_recognized (env : Env) (st : State) :
  let provider := AiProvider.getProvider env in
  provider = "openai" \/ provider = "ollama" \/ provider = "groq"
  \/ provider = "demo" ->
  exists status,
    AiProvider.getProviderStatus env st = (Ok status, st)
    /\ AiProvider.moduleLoad env st
       = (Ok tt, after st [] [LogProvider (AiProvider.statusName status)
                                          (AiProvider.statusMessage status)])
    /\ AiProvider.statusProvider status = provider
    /\ AiProvider.statusName status = AiProvider.getProviderConfigName env
    /\ is_Some (AiProvider.statusName status)
    /\ (AiProvider.isConfigured status = false
        <-> (provider = "openai" /\ AiProvider.isTruthy (OPENAI_API_KEY env) = false)
            \/ (provider = "groq" /\ AiProvider.isTruthy (GROQ_API_KEY env) = false))
    /\ (provider = "openai" ->
        AiProvider.statusMessage status
        = if AiProvider.isTruthy (OPENAI_API_KEY env)
          then "Using OpenAI with gpt-4o-mini"
          else "Missing OPENAI_API_KEY environment variable")
    /\ (provider = "groq" ->
        AiProvider.statusMessage status
        = if AiProvider.isTruthy (GROQ_API_KEY env)
          then "Using Groq (Free Tier) with llama-3.1-8b-instant"
          else "Missing GROQ_API_KEY environment variable")
    /\ (provider = "ollama" ->
        AiProvider.statusMessage status
        = "Using Ollama at "
          +:+ AiProvider.orElse (OLLAMA_BASE_URL env) "http://localhost:11434"
          +:+ ". Make sure Ollama is running.")
    /\ (provider = "demo" ->
        AiProvider.statusMessage status
        = "Demo mode - semantic search works, AI responses are simulated").
Proof.
  intros provider Hp.
  assert (Hload : forall status,
            AiProvider.getProviderStatus env st = (Ok status, st) ->
            AiProvider.moduleLoad env st
            = (Ok tt, after st [] [LogProvider (AiProvider.statusName status)
                                               (AiProvider.statusMessage status)])).
  { intros status Hs. unfold AiProvider.moduleLoad, bind. rewrite Hs.
    unfold consoleWrite, after. now rewrite app_nil_r. }
  assert (Hstatus : exists status,
            AiProvider.getProviderStatus env st = (Ok status, st)
            /\ AiProvider.statusProvider status = provider
            /\ AiProvider.statusName status = AiProvider.getProviderConfigName env
            /\ is_Some (AiProvider.statusName status)
            /\ AiProvider.isConfigured status
               = (if String.eqb provider "openai"
                  then AiProvider.isTruthy (OPENAI_API_KEY env)
                  else if String.eqb provider "groq"
                       then AiProvider.isTruthy (GROQ_API_KEY env) else true)
            /\ AiProvider.statusMessage status
               = (if String.eqb provider "openai"
                  then if AiProvider.isTruthy (OPENAI_API_KEY env)
                       then "Using OpenAI with gpt-4o-mini"
                       else "Missing OPENAI_API_KEY environment variable"
                  else if String.eqb provider "groq"
                  then if AiProvider.isTruthy (GROQ_API_KEY env)
                       then "Using Groq (Free Tier) with llama-3.1-8b-instant"
                       else "Missing GROQ_API_KEY environment variable"
                  else if String.eqb provider "ollama"
                  then "Using Ollama at "
                       +:+ AiProvider.orElse (OLLAMA_BASE_URL env) "http://localhost:11434"
                       +:+ ". Make sure Ollama is running."
                  else "Demo mode - semantic search works, AI responses are simulated")).
  { unfold AiProvider.getProviderConfigName, AiProvider.getProviderConfig.
    cbn [snd]. fold provider.
    destruct Hp as [Hp|[Hp|[Hp|Hp]]]; rewrite Hp.
    - pose proof (getProviderStatus_keyed env st "openai" _ _ _ _ Hp eq_refl) as Hs.
      eexists. split; [exact Hs|].
      cbn [AiProvider.statusProvider AiProvider.statusName AiProvider.isConfigured
           AiProvider.statusMessage].
      repeat (split; [reflexivity || eauto|]).
      now destruct (AiProvider.isTruthy _).
    - pose proof (getProviderStatus_keyless env st "ollama" _ _ _ _ Hp eq_refl) as Hs.
      eexists. split; [exact Hs|].
      cbn [AiProvider.statusProvider AiProvider.statusName AiProvider.isConfigured
           AiProvider.statusMessage].
      repeat (split; [reflexivity || eauto|]). reflexivity.
    - pose proof (getProviderStatus_keyed env st "groq" _ _ _ _ Hp eq_refl) as Hs.
      eexists. split; [exact Hs|].
      cbn [AiProvider.statusProvider AiProvider.statusName AiProvider.isConfigured
           AiProvider.statusMessage].
      repeat (split; [reflexivity || eauto|]).
      now destruct (AiProvider.isTruthy _).
    - pose proof (getProviderStatus_keyless env st "demo" _ _ _ _ Hp eq_refl) as Hs.
      eexists. split; [exact Hs|].
      cbn [AiProvider.statusProvider AiProvider.statusName AiProvider.isConfigured
           AiProvider.statusMessage].
      repeat (split; [reflexivity || eauto|]). reflexivity. }
  destruct Hstatus as (status & Hrun & Hkey & Hn & Hsome & Hconf & Hmsg).
  exists status. split; [exact Hrun|]. split; [now apply Hload|].
  split; [exact Hkey|]. split; [exact Hn|]. split; [exact Hsome|].
  rewrite Hconf, Hmsg. clear Hconf Hmsg.
  split; [|split; [|split; [|split]]].
  - destruct Hp as [Hp|[Hp|[Hp|Hp]]]; rewrite Hp; cbn [String.eqb Ascii.eqb Bool.eqb].
    + split; [intros H; left; now split|].
      intros [[_ H]|[H _]]; [exact H | discriminate].
    + split; [discriminate|]. intros [[H _]|[H _]]; discriminate.
    + split; [intros H; right; now split|].
      intros [[H _]|[_ H]]; [discriminate | exact H].
    + split; [discriminate|]. intros [[H _]|[H _]]; discriminate.
  - now intros ->.
  - now intros ->.
  - now intros ->.
  - now intros ->.
Qed.

Lemma X20_witness :
  exists status,
    AiProvider.getProviderStatus (Sample.offline (Some "OpenAI")) (mkState ∅ [] [])
    = (Ok status, mkState ∅ [] [])
    /\ AiProvider.isConfigured status = false
    /\ AiProvider.statusMessage status = "Missing OPENAI_API_KEY environment variable".
Proof.
  destruct (X20_getProviderStatus_recognized (Sample.offline (Some "OpenAI"))
              (mkState ∅ [] [])) as (status & Hrun & _ & _ & _ & _ & Hconf & Hmsg & _).
  - left. reflexivity.
  - exists status. split; [exact Hrun|]. split.
    + apply Hconf. left. split; reflexivity.
    + now rewrite Hmsg.
Defined.


(* ===================================================================== *)
(** * Suggested questions *)
(* ===================================================================== *)

Lemma elem_iff (x : string) (l : list string) (b : bool) :
  bool_decide (x ∈ l) = b -> (x ∈ l <-> b = true).
Proof. intros <-. symmetry. apply bool_decide_eq_true. Qed.

Lemma elem_iff_lt (x : string) (l : list string) (n m : nat) :
  bool_decide (x ∈ l) = Nat.ltb n m -> (x ∈ l <-> n < m).
Proof. intros H. rewrite <- Nat.ltb_lt, <- H. symmetry. apply bool_decide_eq_true. Qed.

(** X21.  The suggested questions.  A project that does not exist or
    has no file gets none.  Every other project gets between 4 and 8
    questions without repetition: first the two general ones, then two
    more when a file is in TypeScript or JavaScript, one for each of
    the structure kinds component, class and interface that occurs, and
    at the end the question about authentication and the one about
    data validation; the cut to 8 removes the last one exactly when
    all the optional questions are present.  The state is not
    changed. *)
Theorem X21_getSuggestedQuestions (projectId : string) (env : Env) (st : State) :
  exists suggestions,
    Qa.getSuggestedQuestions projectId env st = (Ok suggestions, st)
    /\ length suggestions <= 8
    /\ NoDup suggestions
    /\ (forall store,
          vectorStores st !! projectId = Some store -> Store.files store = [] ->
          suggestions = [])
    /\ (vectorStores st !! projectId = None -> suggestions = [])
    /\ (forall store,
          vectorStores st !! projectId = Some store ->
          Store.files store <> [] ->
          let files := Store.files store in
          let scripted :=
            existsb (fun f => String.eqb (File.language f) "typescript"
                              || String.eqb (File.language f) "javascript") files in
          let optional :=
            (if scripted then 2 else 0)
            + (if Qa.hasStructure "component" files then 1 else 0)
            + (if Qa.hasStructure "class" files then 1 else 0)
            + (if Qa.hasStructure "interface" files then 1 else 0) in
          length suggestions = Nat.min 8 (4 + optional)
          /\ take 2 suggestions
             = ["What is the overall architecture of this codebase?";
                "What are the main entry points of this application?"]
          /\ "Where is authentication handled?" ∈ suggestions
          /\ ("Where is the main configuration located?" ∈ suggestions <-> scripted = true)
          /\ ("How is data validation implemented?" ∈ suggestions <-> optional < 5)).
Proof.
  unfold Qa.getSuggestedQuestions, bind.
  rewrite getProjectFiles_run.
  destruct (vectorStores st !! projectId) as [store|] eqn:Hstore;
    cbn [fmap option_fmap option_map].
  2: { exists []. split; [reflexivity|]. split; [simpl; lia|].
       split; [constructor|]. split; [intros; reflexivity|].
       split; [intros; reflexivity|]. intros store' Hs'. discriminate. }
  destruct (Store.files store) as [|f files] eqn:Hfiles.
  { exists []. split; [reflexivity|]. split; [simpl; lia|].
    split; [constructor|]. split; [intros; reflexivity|].
    split; [intros; reflexivity|].
    intros store' Hs' Hne. injection Hs' as <-. congruence. }
  cbn [length Nat.eqb]. cbv zeta. unfold ret.
  set (all := f :: files).
  assert (Hscripted :
            Js.includes (Js.distinct (map File.language all)) "typescript"
            || Js.includes (Js.distinct (map File.language all)) "javascript"
            = existsb (fun f => String.eqb (File.language f) "typescript"
                                || String.eqb (File.language f) "javascript") all).
  { unfold Js.includes.
    apply eq_true_iff_eq. rewrite orb_true_iff, !bool_decide_eq_true.
    rewrite !distinct_elem, existsb_exists. split.
    - intros [H|H]; apply list_elem_of_fmap in H as (g & Hg & Hin); exists g;
        (split; [now apply list_elem_of_In|]); rewrite <- Hg;
        rewrite String.eqb_refl; [reflexivity | apply orb_true_r].
    - intros (g & Hin & Hg). apply list_elem_of_In in Hin.
      apply orb_true_iff in Hg as [Hg|Hg]; apply String.eqb_eq in Hg;
        [left|right]; apply list_elem_of_fmap; exists g; eauto. }
  rewrite Hscripted.
  eexists. split; [reflexivity|].
  destruct (existsb _ all) eqn:Hs,
           (Qa.hasStructure "component" all) eqn:Hc,
           (Qa.hasStructure "class" all) eqn:Hk,
           (Qa.hasStructure "interface" all) eqn:Hi;
    (split; [vm_compute; lia|]);
    (split; [compute_done|]);
    (split; [intros store' Hs' He; injection Hs' as <-; congruence|]);
    (split; [discriminate|]);
    intros store' Hs' Hne; injection Hs' as <-; rewrite Hfiles; cbv zeta;
    fold all; rewrite Hs, Hc, Hk, Hi;
    (split; [reflexivity|]); (split; [reflexivity|]);
    (split; [compute_done|]);
    (split; [apply elem_iff | apply elem_iff_lt]); vm_compute; reflexivity.
Qed.


(* ===================================================================== *)
(** * The folder structure *)
(* ===================================================================== *)

Lemma distinctFrom_snoc (seen a : list string) (x : string) :
  Js.distinctFrom seen (a ++ [x])
  = (Js.distinctFrom seen a
     ++ if bool_decide (x ∈ seen \/ x ∈ a) then [] else [x])%list.
Proof.
  revert seen. induction a as [|y a IH]; intros seen; simpl.
  - case_bool_decide as H1; case_bool_decide as H2; try reflexivity.
    + exfalso. apply H2. now left.
    + exfalso. destruct H2 as [H2|H2]; [contradiction | now apply elem_of_nil in H2].
  - case_bool_decide as Hy.
    + rewrite IH. f_equal.
      apply (f_equal (fun b : bool => if b then [] else [x])).
      apply bool_decide_ext. rewrite elem_of_cons. split; [tauto|].
      intros [H|[->|H]]; tauto.
    + rewrite IH. cbn [app]. f_equal. f_equal.
      apply (f_equal (fun b : bool => if b then [] else [x])).
      apply bool_decide_ext. rewrite !elem_of_cons. tauto.
Qed.

Lemma distinct_snoc (a : list string) (x : string) :
  Js.distinct (a ++ [x])
  = (Js.distinct a ++ if bool_decide (x ∈ a) then [] else [x])%list.
Proof.
  unfold Js.distinct. rewrite distinctFrom_snoc. f_equal.
  apply (f_equal (fun b : bool => if b then [] else [x])).
  apply bool_decide_ext. rewrite elem_of_nil. tauto.
Qed.

Lemma setAdd_distinct (a : list string) (x : string) :
  Parser.setAdd x (Js.distinct a) = Js.distinct (a ++ [x]).
Proof.
  unfold Parser.setAdd. rewrite distinct_snoc.
  case_bool_decide as H1; case_bool_decide as H2; rewrite distinct_elem in H1;
    try contradiction; [now rewrite app_nil_r | reflexivity].
Qed.

Lemma has_spec (folder : string) (folders : list FolderInfo.t) :
  Parser.has folder folders = true <-> folder ∈ map FolderInfo.path folders.
Proof.
  unfold Parser.has. rewrite existsb_exists. split.
  - intros (info & Hin & He). apply String.eqb_eq in He. subst.
    apply list_elem_of_fmap. exists info. split; [reflexivity|].
    now apply list_elem_of_In.
  - intros H. apply list_elem_of_fmap in H as (info & -> & Hin).
    exists info. split; [now apply list_elem_of_In | apply String.eqb_refl].
Qed.

(** Updating a folder whose path occurs once. *)
Lemma update_map (folder : string) (f : FolderInfo.t -> FolderInfo.t)
    (F : string -> FolderInfo.t) (paths : list string) :
  (forall d, FolderInfo.path (F d) = d) ->
  NoDup paths ->
  Parser.update folder f (map F paths)
  = map (fun d => if String.eqb d folder then f (F d) else F d) paths.
Proof.
  intros Hpath. induction 1 as [|d paths Hd Hnd IH]; [reflexivity|].
  cbn [map Parser.update]. rewrite Hpath.
  destruct (String.eqb_spec d folder) as [->|Hne].
  - f_equal. apply map_ext_in. intros d' Hd'.
    destruct (String.eqb_spec d' folder) as [->|_]; [|reflexivity].
    apply list_elem_of_In in Hd'. contradiction.
  - now rewrite IH.
Qed.

Lemma filesIn_snoc (folder : string) (files : list File.t) (file : File.t) :
  Spec.filesIn folder (files ++ [file])
  = (Spec.filesIn folder files
     ++ if String.eqb (Spec.folderOf file) folder then [file] else [])%list.
Proof.
  unfold Spec.filesIn. rewrite filter_app. f_equal.
  rewrite filter_cons, filter_nil.
  destruct (String.eqb_spec (Spec.folderOf file) folder); now case_decide.
Qed.

Lemma filesIn_none (folder : string) (files : list File.t) :
  folder ∉ map Spec.folderOf files -> Spec.filesIn folder files = [].
Proof.
  intros Hn. unfold Spec.filesIn. apply filter_none, Forall_forall.
  intros f Hf He. apply Hn. apply list_elem_of_fmap. now exists f.
Qed.

(** One more file: the description of each folder. *)
Lemma folderInfoOf_snoc (files : list File.t) (file : File.t) (d : string) :
  Spec.folderInfoOf (files ++ [file]) d
  = if String.eqb d (Spec.folderOf file)
    then FolderInfo.mk d
           (FolderInfo.files (Spec.folderInfoOf files d) ++ [Spec.entryOf file])
           (S (FolderInfo.fileCount (Spec.folderInfoOf files d)))
           (Parser.setAdd (File.language file)
                          (FolderInfo.languages (Spec.folderInfoOf files d)))
    else Spec.folderInfoOf files d.
Proof.
  unfold Spec.folderInfoOf. rewrite filesIn_snoc, String.eqb_sym.
  cbn [FolderInfo.files FolderInfo.fileCount FolderInfo.languages].
  destruct (String.eqb d (Spec.folderOf file)).
  - rewrite !map_app, length_app, setAdd_distinct. cbn [map length].
    f_equal. lia.
  - now rewrite app_nil_r.
Qed.

Lemma getFolderStructure_spec (files : list File.t) :
  Parser.getFolderStructure files
  = map (Spec.folderInfoOf files) (Js.distinct (map Spec.folderOf files)).
Proof.
  induction files as [|file files IH] using rev_ind; [reflexivity|].
  unfold Parser.getFolderStructure in *. rewrite fold_left_app. cbn [fold_left].
  rewrite IH. unfold Parser.addFile. fold (Spec.folderOf file).
  set (folder := Spec.folderOf file).
  set (paths := Js.distinct (map Spec.folderOf files)).
  set (visit := fun folderInfo : FolderInfo.t => FolderInfo.mk _ _ _ _).
  rewrite map_app. cbn [map]. rewrite distinct_snoc. fold paths folder.
  assert (Hpaths : map FolderInfo.path (map (Spec.folderInfoOf files) paths) = paths).
  { rewrite map_map. apply map_id. }
  assert (Hstep : forall d,
            (if String.eqb d folder then visit (Spec.folderInfoOf files d)
             else Spec.folderInfoOf files d)
            = Spec.folderInfoOf (files ++ [file]) d).
  { intros d. rewrite folderInfoOf_snoc. fold folder.
    destruct (String.eqb d folder); reflexivity. }
  destruct (Parser.has folder _) eqn:Hhas.
  - apply has_spec in Hhas. rewrite Hpaths in Hhas.
    assert (Hin : folder ∈ map Spec.folderOf files) by now apply distinct_elem.
    rewrite (bool_decide_eq_true_2 _ Hin).
    rewrite app_nil_r, update_map by (reflexivity || apply distinct_NoDup).
    apply map_ext. exact Hstep.
  - assert (Hn : folder ∉ paths).
    { intros Hin. rewrite <- Hpaths in Hin. apply has_spec in Hin. congruence. }
    assert (Hout : folder ∉ map Spec.folderOf files) by now rewrite <- distinct_elem.
    rewrite (bool_decide_eq_false_2 _ Hout).
    assert (Hempty : FolderInfo.mk folder [] 0 [] = Spec.folderInfoOf files folder).
    { unfold Spec.folderInfoOf. now rewrite filesIn_none. }
    rewrite Hempty.
    replace (map (Spec.folderInfoOf files) paths ++ [Spec.folderInfoOf files folder])%list
      with (map (Spec.folderInfoOf files) (paths ++ [folder]))
      by now rewrite map_app.
    rewrite update_map; [apply map_ext; exact Hstep | reflexivity |].
    apply NoDup_app. split; [apply distinct_NoDup|]. split.
    + intros d Hd Hd'. apply list_elem_of_singleton in Hd'. congruence.
    + apply NoDup_singleton.
Qed.

Lemma sum_list_cons (x : nat) (l : list nat) : sum_list (x :: l) = x + sum_list l.
Proof. reflexivity. Qed.

Lemma filesIn_length (files : list File.t) (paths : list string) :
  NoDup paths ->
  (forall f, f ∈ files -> Spec.folderOf f ∈ paths) ->
  sum_list (map (fun d => length (Spec.filesIn d files)) paths) = length files.
Proof.
  intros Hnd. induction files as [|file files IH] using rev_ind; intros Hall.
  - clear Hnd Hall. induction paths; simpl; [reflexivity | assumption].
  - assert (Hin : Spec.folderOf file ∈ paths).
    { apply Hall. apply elem_of_app. right. apply list_elem_of_here. }
    rewrite length_app. cbn [length]. rewrite <- IH.
    2: { intros f Hf. apply Hall. apply elem_of_app. now left. }
    clear IH Hall. induction Hnd as [|d paths Hd Hnd IH]; [now apply elem_of_nil in Hin|].
    cbn [map]. rewrite !sum_list_cons, filesIn_snoc, length_app.
    apply elem_of_cons in Hin as [He|Hin].
    + rewrite <- He, String.eqb_refl. cbn [length].
      assert (Hrest : map (fun d0 => length (Spec.filesIn d0 (files ++ [file]))) paths
                      = map (fun d0 => length (Spec.filesIn d0 files)) paths).
      { apply map_ext_in. intros d' Hd'. rewrite filesIn_snoc.
        destruct (String.eqb_spec (Spec.folderOf file) d') as [He'|_];
          [|now rewrite app_nil_r].
        apply list_elem_of_In in Hd'. congruence. }
      rewrite Hrest. lia.
    + destruct (String.eqb_spec (Spec.folderOf file) d) as [He|_]; [congruence|].
      cbn [length]. rewrite (IH Hin). lia.
Qed.

(** X22.  The folder structure of a list of files.  The folders are
    the distinct folders of the files ([/] for a file without folder),
    each once, in the order in which they first occur.  Each folder
    lists its files in the order of the input, [fileCount] is their
    number, and [languages] are their distinct languages in order of
    first occurrence.  Every file is counted in exactly one folder:
    the counts add up to the number of files. *)
Theorem X22_getFolderStructure (files : list File.t) :
  let folders := Parser.getFolderStructure files in
  folders = map (Spec.folderInfoOf files) (Js.distinct (map Spec.folderOf files))
  /\ NoDup (map FolderInfo.path folders)
  /\ (forall folder, folder ∈ map FolderInfo.path folders
                     <-> exists f, f ∈ files /\ Spec.folderOf f = folder)
  /\ Forall (fun info =>
               FolderInfo.files info
               = map Spec.entryOf (Spec.filesIn (FolderInfo.path info) files)
               /\ FolderInfo.fileCount info = length (FolderInfo.files info)
               /\ 0 < FolderInfo.fileCount info
               /\ NoDup (FolderInfo.languages info)
               /\ (forall l, l ∈ FolderInfo.languages info
                             <-> exists e, e ∈ FolderInfo.files info
                                           /\ FolderFile.language e = l))
            folders
  /\ sum_list (map FolderInfo.fileCount folders) = length files.
Proof.
  intros folders.
  assert (Hspec : folders = map (Spec.folderInfoOf files)
                                (Js.distinct (map Spec.folderOf files)))
    by apply getFolderStructure_spec.
  assert (Hpaths : map FolderInfo.path folders = Js.distinct (map Spec.folderOf files)).
  { rewrite Hspec, map_map. apply map_id. }
  split; [exact Hspec|]. split; [rewrite Hpaths; apply distinct_NoDup|].
  split; [|split].
  - intros folder. rewrite Hpaths, distinct_elem. split.
    + intros H. apply list_elem_of_fmap in H as (f & -> & Hf). now exists f.
    + intros (f & Hf & <-). apply list_elem_of_fmap. now exists f.
  - rewrite Hspec. apply Forall_forall. intros info Hinfo.
    apply list_elem_of_fmap in Hinfo as (d & -> & Hd).
    apply distinct_elem, list_elem_of_fmap in Hd as (f & -> & Hf).
    unfold Spec.folderInfoOf.
    cbn [FolderInfo.files FolderInfo.fileCount FolderInfo.languages FolderInfo.path].
    split; [reflexivity|]. split; [now rewrite length_map|]. split.
    { assert (Hin : f ∈ Spec.filesIn (Spec.folderOf f) files).
      { unfold Spec.filesIn. now apply list_elem_of_filter. }
      destruct (Spec.filesIn _ files); [now apply elem_of_nil in Hin | simpl; lia]. }
    split; [apply distinct_NoDup|].
    intros l. rewrite distinct_elem. split.
    + intros H. apply list_elem_of_fmap in H as (g & -> & Hg).
      exists (Spec.entryOf g). split; [|reflexivity].
      apply list_elem_of_fmap. now exists g.
    + intros (e & He & <-). apply list_elem_of_fmap in He as (g & -> & Hg).
      apply list_elem_of_fmap. now exists g.
  - rewrite Hspec, map_map. unfold Spec.folderInfoOf. cbn [FolderInfo.fileCount].
    apply filesIn_length; [apply distinct_NoDup|].
    intros f Hf. apply distinct_elem, list_elem_of_fmap. now exists f.
Qed.


(* ===================================================================== *)
(** * The question routes *)
(* ===================================================================== *)

Lemma serverAfter_nil (sv : Server) : Spec.serverAfter sv [] [] = sv.
Proof. destruct sv. unfold Spec.serverAfter. cbn. now rewrite !app_nil_r. Qed.

Lemma serverAfter_after (sv : Server) (r1 r2 : list Request)
    (l1 l2 : list ServerLine) :
  Spec.serverAfter (Spec.serverAfter sv r1 l1) r2 l2
  = Spec.serverAfter sv (r1 ++ r2) (l1 ++ l2).
Proof. unfold Spec.serverAfter. cbn. now rewrite !app_assoc. Qed.

(** A service that leaves the project map alone does so under a
    handler, and its lines reach the console of the server. *)
Lemma service_run {A} (m : M A) (env : Env) (sv : Server) (result : Result A)
    (reqs : list Request) (lines : list LogLine) :
  m env (Spec.serviceState sv) = (result, after (Spec.serviceState sv) reqs lines) ->
  Routes.service m env sv
  = (result, Spec.serverAfter sv reqs (map FromService lines)).
Proof.
  intros Hrun. unfold Routes.service.
  change (mkState (projects sv) [] (traffic sv)) with (Spec.serviceState sv).
  rewrite Hrun. reflexivity.
Qed.

Lemma service_projectExists (projectId : string) (env : Env) (sv : Server) :
  Routes.service (VectorStore.projectExists projectId) env sv
  = (Ok (bool_decide (is_Some (projects sv !! projectId))), sv).
Proof.
  unfold Routes.service. rewrite projectExists_run. destruct sv. cbn.
  now rewrite app_nil_r.
Qed.

(** What [answerQuestion] does to the state. *)
Lemma answerQuestion_effect (projectId question : string) (options : Options.t)
    (env : Env) (st st1 : State) (result : Result Answer.t) :
  Qa.answerQuestion projectId question options env st = (result, st1) ->
  exists reqs lines,
    st1 = after st reqs (LogProcessingQuestion projectId question :: lines)
    /\ length reqs <= 2.
Proof.
  rewrite answerQuestion_run.
  set (logged := after st [] [LogProcessingQuestion projectId question]).
  destruct (vectorStores logged !! projectId) as [store|] eqn:Hstore.
  2: { rewrite searchCode_missing by assumption. intros [= _ <-].
       exists [], []. split; [reflexivity | simpl; lia]. }
  rewrite (searchCode_found _ _ _ _ _ store) by assumption.
  destruct (AiProvider.createEmbedding question env logged) as [[q|e] st2] eqn:Hq;
    apply createEmbedding_effect in Hq as (r1 & l1 & -> & Hr1 & _ & _).
  2: { intros [= _ <-]. exists r1, l1. unfold logged. rewrite after_after.
       split; [reflexivity | lia]. }
  destruct (VectorStore.rank q (Store.vectors store) _) as [|top rest].
  { intros [= _ <-]. exists r1, l1. unfold logged. rewrite after_after.
    split; [reflexivity | lia]. }
  rewrite generateAnswer_run.
  destruct (AiProvider.generateCompletion _ _ env _) as [[text|e] st3] eqn:Hc;
    apply generateCompletion_effect in Hc as (r2 & l2 & -> & Hr2);
    intros [= _ <-]; unfold logged; rewrite !after_after.
  - exists (r1 ++ r2)%list, (l1 ++ l2)%list. cbn [app].
    split; [reflexivity | rewrite length_app; lia].
  - exists (r1 ++ r2)%list, (l1 ++ l2 ++ [ErrGeneratingAnswer (messageOf e)])%list.
    cbn [app]. rewrite app_nil_r.
    split; [reflexivity | rewrite length_app; lia].
Qed.

Lemma blank_question (question : string) :
  negb (Js.truthy question) || Nat.eqb (String.length (Js.trim question)) 0
  = Spec.isBlank question.
Proof.
  apply eq_true_iff_eq. rewrite orb_true_iff, <- trim_empty. split.
  - intros [H|H].
    + destruct question; [reflexivity | discriminate].
    + apply Nat.eqb_eq in H. now destruct (Js.trim question).
  - intros H. right. now rewrite H.
Qed.

(** The handler of [/ask] once the request has passed its checks. *)
Lemma ask_run (p q : string) (options : option Options.t) (env : Env)
    (sv : Server) (store : Store.t) :
  Js.truthy p = true -> Spec.isBlank q = false -> projects sv !! p = Some store ->
  exists result reqs lines,
    let asked := mkServer (projects sv) (terminal sv ++ [LogQuestion p q])
                          (traffic sv) in
    Qa.answerQuestion p (Js.trim q)
      (match options with Some o => o | None => Options.none end) env
      (Spec.serviceState asked)
    = (result, after (Spec.serviceState asked) reqs
                 (LogProcessingQuestion p (Js.trim q) :: lines))
    /\ length reqs <= 2
    /\ Routes.ask (AskBody.mk (Some p) (Some q) options) env sv
       = match result with
         | Ok answer =>
             (Ok (mkResponse 200 (Answered answer)),
              Spec.serverAfter sv reqs
                (LogQuestion p q
                 :: FromService (LogProcessingQuestion p (Js.trim q))
                 :: map FromService lines))
         | Throw e =>
             (Ok (mkResponse 500
                    (Failure "Failed to answer question" (Some (messageOf e)))),
              Spec.serverAfter sv reqs
                (LogQuestion p q
                 :: FromService (LogProcessingQuestion p (Js.trim q))
                 :: map FromService lines ++ [ErrQA e]))
         end.
Proof.
  intros Hp Hq Hstore. cbv zeta.
  set (asked := mkServer (projects sv) (terminal sv ++ [LogQuestion p q])
                         (traffic sv)).
  set (o := match options with Some o => o | None => Options.none end).
  destruct (Qa.answerQuestion p (Js.trim q) o env (Spec.serviceState asked))
    as [result st1] eqn:Hrun.
  destruct (answerQuestion_effect _ _ _ _ _ _ _ Hrun) as (reqs & lines & -> & Hreqs).
  exists result, reqs, lines. split; [reflexivity|]. split; [exact Hreqs|].
  unfold Routes.ask, Routes.tryCatch, Routes.bind, Routes.respond, Routes.ret.
  cbn [AskBody.projectId AskBody.question AskBody.options].
  rewrite Hp, blank_question, Hq. cbn [negb].
  rewrite service_projectExists, Hstore.
  rewrite bool_decide_eq_true_2 by (now eexists). cbn [negb].
  change (Routes.consoleWrite (LogQuestion p q) env sv) with (Ok tt, asked).
  cbv beta iota. fold o. rewrite (service_run _ env asked _ _ _ Hrun).
  unfold asked, Routes.consoleWrite, Spec.serverAfter.
  cbn [projects terminal traffic map].
  destruct result as [answer|e]; cbn [projects terminal traffic];
    rewrite <- !app_assoc; reflexivity.
Qed.

Lemma ask_missing (p q : string) (options : option Options.t) (env : Env)
    (sv : Server) :
  Js.truthy p = true -> Spec.isBlank q = false -> projects sv !! p = None ->
  Routes.ask (AskBody.mk (Some p) (Some q) options) env sv
  = (Ok (mkResponse 404 Routes.projectNotFound), sv).
Proof.
  intros Hp Hq Hstore.
  unfold Routes.ask, Routes.tryCatch, Routes.bind, Routes.respond, Routes.ret.
  cbn [AskBody.projectId AskBody.question AskBody.options].
  rewrite Hp, blank_question, Hq. cbn [negb].
  rewrite service_projectExists, Hstore.
  rewrite bool_decide_eq_false_2 by (intros [? ?]; discriminate).
  reflexivity.
Qed.

(** X23.  The checks of [POST /ask].  The handler always answers and
    never throws.  A request without project id (missing, [null] or
    empty) is answered with status 400 and [Project ID is required];
    otherwise a request whose question is missing or consists of white
    space only is answered with status 400 and [Question is required];
    otherwise a project that is not indexed gives status 404.  In these
    three cases the server is left as it was: nothing is logged and
    nothing is sent.  Every other request is answered with status 200
    or 500; the question is logged as it was sent and passed on to
    [answerQuestion] trimmed, the project map is not changed, and at
    most two requests go to the provider. *)
Theorem X23_ask_validation (body : AskBody.t) (env : Env) (sv : Server) :
  exists response sv',
    Routes.ask body env sv = (Ok response, sv')
    /\ (VectorStore.optionTruthy (AskBody.projectId body) = false ->
        response = mkResponse 400 (Failure "Project ID is required" None)
        /\ sv' = sv)
    /\ (VectorStore.optionTruthy (AskBody.projectId body) = true ->
        (forall q, AskBody.question body = Some q -> Spec.isBlank q = true) ->
        response = mkResponse 400 (Failure "Question is required" None)
        /\ sv' = sv)
    /\ (forall p q,
          AskBody.projectId body = Some p -> Js.truthy p = true ->
          AskBody.question body = Some q -> Spec.isBlank q = false ->
          match projects sv !! p with
          | None => response = mkResponse 404 Routes.projectNotFound /\ sv' = sv
          | Some _ =>
              (status response = 200 \/ status response = 500)
              /\ exists reqs lines,
                   sv' = Spec.serverAfter sv reqs
                           (LogQuestion p q
                            :: FromService (LogProcessingQuestion p (Js.trim q))
                            :: lines)
                   /\ length reqs <= 2
          end).
Proof.
  destruct body as [[p|] question options].
  2: { exists (mkResponse 400 (Failure "Project ID is required" None)), sv.
       split; [reflexivity|]. split; [now intros _|].
       split; [discriminate|]. intros p q [=]. }
  cbn [AskBody.projectId AskBody.question VectorStore.optionTruthy].
  destruct (Js.truthy p) eqn:Hp.
  2: { exists (mkResponse 400 (Failure "Project ID is required" None)), sv.
       split.
       { unfold Routes.ask, Routes.tryCatch.
         cbn [AskBody.projectId AskBody.question AskBody.options].
         rewrite Hp. reflexivity. }
       split; [now intros _|]. split; [discriminate|].
       intros p' q [= <-]. congruence. }
  destruct question as [q|].
  2: { exists (mkResponse 400 (Failure "Question is required" None)), sv.
       split.
       { unfold Routes.ask, Routes.tryCatch.
         cbn [AskBody.projectId AskBody.question AskBody.options].
         rewrite Hp. reflexivity. }
       split; [discriminate|]. split; [now intros _ _|].
       intros p' q _ _ [=]. }
  destruct (Spec.isBlank q) eqn:Hq.
  { exists (mkResponse 400 (Failure "Question is required" None)), sv.
    split.
    { unfold Routes.ask, Routes.tryCatch.
      cbn [AskBody.projectId AskBody.question AskBody.options].
      rewrite Hp, blank_question, Hq. reflexivity. }
    split; [discriminate|]. split; [now intros _ _|].
    intros p' q' _ _ [= <-]. congruence. }
  destruct (projects sv !! p) as [store|] eqn:Hstore.
  - destruct (ask_run p q options env sv store Hp Hq Hstore)
      as (result & reqs & lines & _ & Hreqs & Hask).
    destruct result as [answer|e]; do 2 eexists; (split; [exact Hask|]);
      (split; [discriminate|]);
      (split; [intros _ Hblank; specialize (Hblank q eq_refl); congruence|]);
      intros p' q' [= <-] _ [= <-] _; rewrite Hstore;
      (split; [cbn; tauto|]); do 2 eexists; (split; [reflexivity | exact Hreqs]).
  - exists (mkResponse 404 Routes.projectNotFound), sv.
    split; [now apply ask_missing|]. split; [discriminate|].
    split; [intros _ Hblank; specialize (Hblank q eq_refl); congruence|].
    intros p' q' [= <-] _ [= <-] _. now rewrite Hstore.
Qed.

(** The errors a completion can throw: the error of the SDK, whether
    the request was rejected or the client could not be made, and the
    fixed error of the Ollama path. *)
Lemma generateCompletion_throw (systemPrompt userPrompt : string) (env : Env)
    (st st1 : State) (e : JsError) :
  AiProvider.generateCompletion systemPrompt userPrompt env st = (Throw e, st1) ->
  (exists reqs line, st1 = after st reqs [line] /\ length reqs <= 1)
  /\ ((AiProvider.getProvider env = "openai" \/ AiProvider.getProvider env = "groq")
      /\ (exists m n r,
            e = Error m
            /\ (sdkChat env n r = Rejected m \/ sdkChat env n r = NoClient m))
      \/ AiProvider.getProvider env = "ollama"
         /\ e = Error "Ollama is not running. Start it with: ollama serve").
Proof.
  intros Hrun.
  destruct (decide (AiProvider.getProvider env = "openai")) as [Hp|Hp1].
  { rewrite generateCompletion_openai in Hrun by assumption. cbv zeta in Hrun.
    destruct (sdkChat env _ _) as [v|m|m] eqn:Hchat; [discriminate| |];
      injection Hrun as <- <-;
      (split; [do 2 eexists; split; [reflexivity | simpl; lia]|]);
      left; (split; [now left|]); exists m; do 2 eexists;
      (split; [reflexivity|]); [left | right]; exact Hchat. }
  destruct (decide (AiProvider.getProvider env = "ollama")) as [Hp|Hp2].
  { rewrite generateCompletion_ollama in Hrun by assumption. cbv zeta in Hrun.
    destruct (fetchChat env _ _); try discriminate; injection Hrun as <- <-;
      (split; [do 2 eexists; split; [reflexivity | simpl; lia]|]);
      right; now split. }
  destruct (decide (AiProvider.getProvider env = "groq")) as [Hp|Hp3].
  { rewrite generateCompletion_groq in Hrun by assumption. cbv zeta in Hrun.
    destruct (sdkChat env _ _) as [v|m|m] eqn:Hchat; [discriminate| |];
      injection Hrun as <- <-;
      (split; [do 2 eexists; split; [reflexivity | simpl; lia]|]);
      left; (split; [now right|]); exists m; do 2 eexists;
      (split; [reflexivity|]); [left | right]; exact Hchat. }
  rewrite generateCompletion_offline in Hrun by assumption. discriminate.
Qed.

(** A completion that succeeds writes nothing. *)
Lemma generateCompletion_ok (systemPrompt userPrompt : string) (env : Env)
    (st st1 : State) (text : string) :
  AiProvider.generateCompletion systemPrompt userPrompt env st = (Ok text, st1) ->
  exists reqs, st1 = after st reqs [] /\ length reqs <= 1.
Proof.
  intros Hrun.
  destruct (decide (AiProvider.getProvider env = "openai")) as [Hp|Hp1].
  { rewrite generateCompletion_openai in Hrun by assumption. cbv zeta in Hrun.
    destruct (sdkChat env _ _) as [v|m|m]; [|discriminate|discriminate].
    injection Hrun as _ <-. eexists. split; [reflexivity | simpl; lia]. }
  destruct (decide (AiProvider.getProvider env = "ollama")) as [Hp|Hp2].
  { rewrite generateCompletion_ollama in Hrun by assumption. cbv zeta in Hrun.
    destruct (fetchChat env _ _); try discriminate.
    injection Hrun as _ <-. eexists. split; [reflexivity | simpl; lia]. }
  destruct (decide (AiProvider.getProvider env = "groq")) as [Hp|Hp3].
  { rewrite generateCompletion_groq in Hrun by assumption. cbv zeta in Hrun.
    destruct (sdkChat env _ _) as [v|m|m]; [|discriminate|discriminate].
    injection Hrun as _ <-. eexists. split; [reflexivity | simpl; lia]. }
  rewrite generateCompletion_offline in Hrun by assumption.
  injection Hrun as _ <-. exists []. split; [now rewrite after_nil | simpl; lia].
Qed.

(** What [answerQuestion] returns or throws on a project that exists. *)
Lemma answerQuestion_outcome (p q : string) (o : Options.t) (env : Env)
    (st st1 : State) (store : Store.t) (result : Result Answer.t) :
  vectorStores st !! p = Some store ->
  Qa.answerQuestion p q o env st = (result, st1) ->
  match result with
  | Ok answer =>
      length (Answer.references answer) <= 8
      /\ (Answer.references answer = [] -> Answer.answer answer = Qa.noResultsAnswer)
  | Throw e =>
      exists m,
        e = Error m
        /\ (AiProvider.getProvider env = "openai"
            /\ (exists n r,
                  sdkEmbedding env n r = Rejected m
                  \/ sdkEmbedding env n r = NoClient m)
            \/ exists cause,
                 m = "Failed to generate answer: " +:+ cause
                 /\ ((AiProvider.getProvider env = "openai"
                      \/ AiProvider.getProvider env = "groq")
                     /\ (exists n r,
                           sdkChat env n r = Rejected cause
                           \/ sdkChat env n r = NoClient cause)
                     \/ AiProvider.getProvider env = "ollama"
                        /\ cause = "Ollama is not running. Start it with: ollama serve"))
  end
  /\ (AiProvider.getProvider env <> "openai" ->
      AiProvider.getProvider env <> "ollama" ->
      AiProvider.getProvider env <> "groq" ->
      (exists answer, result = Ok answer) /\ requests st1 = requests st).
Proof.
  intros Hstore. rewrite answerQuestion_run.
  set (logged := after st [] [LogProcessingQuestion p q]).
  rewrite (searchCode_found _ _ _ _ _ store) by exact Hstore.
  set (o8 := Options.mk (Options.language o) (Options.folder o) (Some 8%Z)).
  destruct (AiProvider.createEmbedding q env logged) as [[v|e] st2] eqn:Hq.
  2: { intros [= <- <-]. split.
       - destruct (decide (AiProvider.getProvider env = "openai")) as [Hp|Hp].
         + rewrite createEmbedding_openai in Hq by assumption. cbv zeta in Hq.
           destruct (sdkEmbedding env _ _) as [w|m|m] eqn:Hcall; [discriminate| |];
             injection Hq as <- _; exists m; (split; [reflexivity|]); left;
             (split; [exact Hp|]); do 2 eexists; [left | right]; exact Hcall.
         + apply createEmbedding_effect in Hq as (_ & _ & _ & _ & _ & Hok).
           destruct (Hok Hp) as (w & [=]).
       - intros Hp _ _.
         apply createEmbedding_effect in Hq as (_ & _ & _ & _ & _ & Hok).
         destruct (Hok Hp) as (w & [=]). }
  assert (Hlen : length (VectorStore.rank v (Store.vectors store) o8) <= 8).
  { pose proof (rank_length v (Store.vectors store) o8) as H.
    cbn in H. apply H. lia. }
  assert (Hoff : AiProvider.getProvider env <> "openai" ->
                 AiProvider.getProvider env <> "ollama" ->
                 requests st2 = requests st).
  { intros Hp1 Hp2. rewrite createEmbedding_offline in Hq by assumption.
    injection Hq as _ <-. unfold logged. cbn. now rewrite app_nil_r. }
  destruct (VectorStore.rank v (Store.vectors store) o8) as [|top rest] eqn:Hrank.
  { intros [= <- <-]. split; [split; [simpl; lia | reflexivity]|].
    intros Hp1 Hp2 _. split; [now eexists | now apply Hoff]. }
  rewrite generateAnswer_run.
  destruct (AiProvider.generateCompletion _ _ env st2) as [[text|e] st3] eqn:Hc;
    intros [= <- <-].
  - split.
    + cbn [Answer.references Answer.answer]. unfold Qa.formatReferences.
      split; [|discriminate]. cbn [length] in *. now rewrite length_map.
    + intros Hp1 Hp2 Hp3. split; [now eexists|].
      rewrite generateCompletion_offline in Hc by assumption.
      injection Hc as _ <-. now apply Hoff.
  - destruct (generateCompletion_throw _ _ _ _ _ _ Hc) as (_ & Hcause). split.
    + eexists. split; [reflexivity|]. right. exists (messageOf e).
      split; [reflexivity|].
      destruct Hcause as [(Hp & m & n & r & -> & Hchat) | (Hp & ->)].
      * left. split; [exact Hp|]. now exists n, r.
      * right. now split.
    + intros Hp1 Hp2 Hp3.
      rewrite generateCompletion_offline in Hc by assumption. discriminate.
Qed.

(** X24.  What [POST /ask] answers for a request that passes its checks
    on a project that exists.  Either the status is 200 and the body
    carries the answer, with at most 8 references, and with the fixed
    message when there is none; or the status is 500, the error is the
    last line of the console, and its message comes from the provider:
    with OpenAI the message of the rejected embedding request, or, with
    OpenAI and Groq, [Failed to generate answer: ] followed by the
    message of the rejected chat request, or, with Ollama,
    [Failed to generate answer: Ollama is not running. Start it with: ollama serve].
    Where a request of the SDK can be rejected, the client may also
    fail to be made (no API key): the message is then the one of that
    error.
    The error [Project ... not found] of the search never reaches the
    client.  With every other provider key the status is 200 and
    nothing is sent. *)
Theorem X24_ask_outcome (p q : string) (options : option Options.t) (env : Env)
    (sv : Server) (store : Store.t) :
  Js.truthy p = true -> Spec.isBlank q = false -> projects sv !! p = Some store ->
  exists response sv',
    Routes.ask (AskBody.mk (Some p) (Some q) options) env sv = (Ok response, sv')
    /\ ((exists answer,
           response = mkResponse 200 (Answered answer)
           /\ length (Answer.references answer) <= 8
           /\ (Answer.references answer = [] ->
               Answer.answer answer = Qa.noResultsAnswer))
        \/ (exists m,
              response
              = mkResponse 500 (Failure "Failed to answer question" (Some m))
              /\ last (terminal sv') = Some (ErrQA (Error m))
              /\ (AiProvider.getProvider env = "openai"
                  /\ (exists n r,
                        sdkEmbedding env n r = Rejected m
                        \/ sdkEmbedding env n r = NoClient m)
                  \/ exists cause,
                       m = "Failed to generate answer: " +:+ cause
                       /\ ((AiProvider.getProvider env = "openai"
                            \/ AiProvider.getProvider env = "groq")
                           /\ (exists n r,
                                 sdkChat env n r = Rejected cause
                                 \/ sdkChat env n r = NoClient cause)
                           \/ AiProvider.getProvider env = "ollama"
                              /\ cause
                                 = "Ollama is not running. Start it with: ollama serve"))))
    /\ (AiProvider.getProvider env <> "openai" ->
        AiProvider.getProvider env <> "ollama" ->
        AiProvider.getProvider env <> "groq" ->
        status response = 200 /\ traffic sv' = traffic sv).
Proof.
  intros Hp Hq Hstore.
  destruct (ask_run p q options env sv store Hp Hq Hstore)
    as (result & reqs & lines & Hrun & Hreqs & Hask).
  cbv zeta in Hrun.
  apply answerQuestion_outcome with (store := store) in Hrun as (Hout & Hoff);
    [|exact Hstore].
  destruct result as [answer|e]; do 2 eexists; (split; [exact Hask|]).
  - split.
    + left. exists answer. split; [reflexivity | exact Hout].
    + intros Hp1 Hp2 Hp3. split; [reflexivity|].
      destruct (Hoff Hp1 Hp2 Hp3) as (_ & Hreq). cbn in Hreq. exact Hreq.
  - destruct Hout as (m & -> & Hcause). split.
    + right. exists m. split; [reflexivity|]. split; [|exact Hcause].
      unfold Spec.serverAfter. cbn [terminal].
      change (LogQuestion p q
              :: FromService (LogProcessingQuestion p (Js.trim q))
              :: map FromService lines ++ [ErrQA (Error m)])%list
        with ((LogQuestion p q
               :: FromService (LogProcessingQuestion p (Js.trim q))
               :: map FromService lines) ++ [ErrQA (Error m)])%list.
      rewrite app_assoc. apply last_snoc.
    + intros Hp1 Hp2 Hp3. destruct (Hoff Hp1 Hp2 Hp3) as ((answer & [=]) & _).
Qed.

(** X24 for a question to an Ollama server whose chat endpoint cannot
    be reached, on the project [p]. *)
Lemma X24_witness :
  exists response sv',
    Routes.ask (AskBody.mk (Some "p") (Some " query ") None) Sample.ollamaOnes
      (Sample.serving (Sample.oneProject Sample.opposite []))
    = (Ok response, sv')
    /\ ((exists answer,
           response = mkResponse 200 (Answered answer)
           /\ length (Answer.references answer) <= 8
           /\ (Answer.references answer = [] ->
               Answer.answer answer = Qa.noResultsAnswer))
        \/ (exists m,
              response
              = mkResponse 500 (Failure "Failed to answer question" (Some m))
              /\ last (terminal sv') = Some (ErrQA (Error m))
              /\ (AiProvider.getProvider Sample.ollamaOnes = "openai"
                  /\ (exists n r,
                        sdkEmbedding Sample.ollamaOnes n r = Rejected m
                        \/ sdkEmbedding Sample.ollamaOnes n r = NoClient m)
                  \/ exists cause,
                       m = "Failed to generate answer: " +:+ cause
                       /\ ((AiProvider.getProvider Sample.ollamaOnes = "openai"
                            \/ AiProvider.getProvider Sample.ollamaOnes = "groq")
                           /\ (exists n r,
                                 sdkChat Sample.ollamaOnes n r = Rejected cause
                                 \/ sdkChat Sample.ollamaOnes n r = NoClient cause)
                           \/ AiProvider.getProvider Sample.ollamaOnes = "ollama"
                              /\ cause
                                 = "Ollama is not running. Start it with: ollama serve"))))
    /\ (AiProvider.getProvider Sample.ollamaOnes <> "openai" ->
        AiProvider.getProvider Sample.ollamaOnes <> "ollama" ->
        AiProvider.getProvider Sample.ollamaOnes <> "groq" ->
        status response = 200 /\ traffic sv' = []).
Proof.
  apply (X24_ask_outcome "p" " query " None Sample.ollamaOnes
           (Sample.serving (Sample.oneProject Sample.opposite []))
           (Store.mk Sample.opposite [] "2024-01-01T00:00:00.000Z"
              (Stats.mk 0 2 []))); reflexivity.
Defined.

(* ===================================================================== *)
(** * Explaining a file *)
(* ===================================================================== *)

(** [find] returns the first element that passes the test. *)
Lemma find_first {A} (test : A -> bool) (before rest : list A) (x : A) :
  test x = true -> Forall (fun y => test y = false) before ->
  List.find test (before ++ x :: rest) = Some x.
Proof.
  intros Hx Hb. induction Hb as [|y before Hy _ IH]; cbn.
  - now rewrite Hx.
  - now rewrite Hy.
Qed.

Lemma explainFile_found (projectId filePath : string) (env : Env) (st : State)
    (file : File.t) :
  Qa.findFile (Store.files <$> vectorStores st !! projectId) filePath = Some file ->
  Qa.explainFile projectId filePath env st
  = match AiProvider.generateCompletion Qa.explainSystemPrompt
            (Qa.explainUserPrompt file) env st with
    | (Ok text, st1) =>
        (Ok (Explanation.mk text (File.path file) (File.fileName file)
               (File.language file) (File.lineCount file) (File.structures file)
               (AiProvider.getProviderConfigName env)),
         st1)
    | (Throw e, st1) => (Throw e, after st1 [] [ErrExplainingFile (messageOf e)])
    end.
Proof.
  intros Hfind. unfold Qa.explainFile, bind. rewrite getProjectFiles_run, Hfind.
  unfold tryCatch, bind.
  destruct (AiProvider.generateCompletion _ _ env st) as [[text|e] st1];
    [reflexivity|].
  unfold consoleWrite, throw, after. cbn. now rewrite app_nil_r.
Qed.

(** The handler of [/explain-file] once the request has passed its
    checks. *)
Lemma explain_run (p f : string) (env : Env) (sv : Server) (store : Store.t)
    (result : Result Explanation.t) (reqs : list Request) (lines : list LogLine) :
  Js.truthy p = true -> Js.truthy f = true -> projects sv !! p = Some store ->
  Qa.explainFile p f env (Spec.serviceState sv)
  = (result, after (Spec.serviceState sv) reqs lines) ->
  Routes.explainFile (ExplainBody.mk (Some p) (Some f)) env sv
  = match result with
    | Ok explanation =>
        (Ok (mkResponse 200 (Explained explanation)),
         Spec.serverAfter sv reqs (map FromService lines))
    | Throw e =>
        (Ok (mkResponse 500 (Failure "Failed to explain file" (Some (messageOf e)))),
         Spec.serverAfter sv reqs (map FromService lines ++ [ErrExplainFile e]))
    end.
Proof.
  intros Hp Hf Hstore Hrun.
  unfold Routes.explainFile, Routes.tryCatch, Routes.bind, Routes.respond, Routes.ret.
  cbn [ExplainBody.projectId ExplainBody.filePath].
  rewrite Hp, Hf. cbn [negb].
  rewrite service_projectExists, Hstore.
  rewrite bool_decide_eq_true_2 by (now eexists). cbn [negb].
  rewrite (service_run _ env sv _ _ _ Hrun).
  destruct result as [explanation|e]; [reflexivity|].
  unfold Routes.consoleWrite, Spec.serverAfter. cbn [projects terminal traffic].
  now rewrite <- !app_assoc.
Qed.

(** X25.  What [POST /explain-file] answers for a request that passes
    its checks on a project that exists.  The handler always answers,
    does not change the project map and sends at most one request.  A
    path that no file of the project has gives status 500, not 404,
    with the message [File ... not found in project]; nothing is sent.
    Otherwise the file explained is the first one with that path.  On
    success the status is 200, the body carries the explanation with
    the path, name, language, line count and structures of that file,
    and nothing is logged; with a provider key other than [openai],
    [groq] and [ollama] the explanation is the demo completion and
    nothing is sent.  On failure the status is 500 and the message is
    the one of the provider's error, not wrapped: with OpenAI and Groq
    the message of the rejected request, or the error of the SDK when
    the client cannot be made (no API key), in which case nothing is
    sent; and [Ollama is not running. Start it with: ollama serve] with
    Ollama.  Three lines are logged, the last two being the error line
    of [explainFile] and the one of the handler.  The provider name in
    the body is the one of [getProviderConfig()], which is [undefined]
    for a key that is not one of the four recognized ones. *)
Theorem X25_explainFile_route (p f : string) (env : Env) (sv : Server)
    (store : Store.t) :
  Js.truthy p = true -> Js.truthy f = true -> projects sv !! p = Some store ->
  exists response reqs lines,
    Routes.explainFile (ExplainBody.mk (Some p) (Some f)) env sv
    = (Ok response, Spec.serverAfter sv reqs lines)
    /\ length reqs <= 1
    /\ (Forall (fun file => File.path file <> f) (Store.files store) ->
        response
        = mkResponse 500
            (Failure "Failed to explain file"
                     (Some ("File " +:+ f +:+ " not found in project")))
        /\ reqs = []
        /\ lines = [ErrExplainFile (Qa.fileNotFound f)])
    /\ (forall before file rest,
          Store.files store = (before ++ file :: rest)%list ->
          File.path file = f ->
          Forall (fun g => File.path g <> f) before ->
          (exists text,
             response
             = mkResponse 200
                 (Explained
                    (Explanation.mk text (File.path file) (File.fileName file)
                       (File.language file) (File.lineCount file)
                       (File.structures file)
                       (AiProvider.getProviderConfigName env)))
             /\ lines = []
             /\ (AiProvider.getProvider env <> "openai" ->
                 AiProvider.getProvider env <> "ollama" ->
                 AiProvider.getProvider env <> "groq" ->
                 text = AiProvider.generateDemoCompletion (Qa.explainUserPrompt file)
                 /\ reqs = []))
          \/ (exists e line,
                response
                = mkResponse 500
                    (Failure "Failed to explain file" (Some (messageOf e)))
                /\ lines = [FromService line;
                            FromService (ErrExplainingFile (messageOf e));
                            ErrExplainFile e]
                /\ ((AiProvider.getProvider env = "openai"
                     \/ AiProvider.getProvider env = "groq")
                    /\ (exists m n r,
                          e = Error m
                          /\ (sdkChat env n r = Rejected m
                              \/ sdkChat env n r = NoClient m))
                    \/ AiProvider.getProvider env = "ollama"
                       /\ e = Error "Ollama is not running. Start it with: ollama serve"))).
Proof.
  intros Hp Hf Hstore.
  assert (Hfiles : Store.files <$> vectorStores (Spec.serviceState sv) !! p
                   = Some (Store.files store)).
  { cbn [Spec.serviceState vectorStores]. now rewrite Hstore. }
  destruct (List.find (fun g => String.eqb (File.path g) f) (Store.files store))
    as [file|] eqn:Hfind.
  2: { assert (Hrun : Qa.explainFile p f env (Spec.serviceState sv)
                      = (Throw (Qa.fileNotFound f),
                         after (Spec.serviceState sv) [] [])).
       { rewrite after_nil. apply explainFile_missing. now rewrite Hfiles. }
       exists (mkResponse 500
                 (Failure "Failed to explain file"
                          (Some ("File " +:+ f +:+ " not found in project")))),
         [], [ErrExplainFile (Qa.fileNotFound f)].
       split; [now rewrite (explain_run p f env sv store _ _ _ Hp Hf Hstore Hrun)|].
       split; [simpl; lia|]. split; [now intros _|].
       intros before file rest Hsplit Hpath Hbefore.
       rewrite Hsplit, find_first in Hfind; [discriminate | now apply String.eqb_eq |].
       eapply Forall_impl; [exact Hbefore|]. intros g Hg. now apply String.eqb_neq. }
  assert (Hfirst : forall before file' rest,
             Store.files store = (before ++ file' :: rest)%list ->
             File.path file' = f ->
             Forall (fun g => File.path g <> f) before -> file' = file).
  { intros before file' rest Hsplit Hpath Hbefore.
    rewrite Hsplit, find_first in Hfind; [congruence | now apply String.eqb_eq |].
    eapply Forall_impl; [exact Hbefore|]. intros g Hg. now apply String.eqb_neq. }
  assert (Hnone : ~ Forall (fun file => File.path file <> f) (Store.files store)).
  { intros Hall. rewrite find_none in Hfind by exact Hall. discriminate. }
  pose proof (explainFile_found p f env (Spec.serviceState sv) file) as Hrun.
  rewrite Hfiles in Hrun. specialize (Hrun Hfind).
  destruct (AiProvider.generateCompletion Qa.explainSystemPrompt
              (Qa.explainUserPrompt file) env (Spec.serviceState sv))
    as [[text|e] st1] eqn:Hc.
  - destruct (generateCompletion_ok _ _ _ _ _ _ Hc) as (reqs & -> & Hreqs).
    eexists _, reqs, [].
    split; [now rewrite (explain_run p f env sv store _ _ _ Hp Hf Hstore Hrun)|].
    split; [exact Hreqs|]. split; [intros Hall; now destruct Hnone|].
    intros before file' rest Hsplit Hpath Hbefore.
    rewrite (Hfirst before file' rest Hsplit Hpath Hbefore).
    left. exists text. split; [reflexivity|]. split; [reflexivity|].
    intros Hp1 Hp2 Hp3. rewrite generateCompletion_offline in Hc by assumption.
    injection Hc as <- Hst. split; [reflexivity|].
    destruct reqs; [reflexivity|].
    apply (f_equal length) in Hst. rewrite length_app in Hst. cbn in Hst. lia.
  - destruct (generateCompletion_throw _ _ _ _ _ _ Hc)
      as ((reqs & line & -> & Hreqs) & Hcause).
    rewrite after_after, app_nil_r in Hrun. cbn [app] in Hrun.
    eexists _, reqs, _.
    split; [now rewrite (explain_run p f env sv store _ _ _ Hp Hf Hstore Hrun)|].
    split; [exact Hreqs|]. split; [intros Hall; now destruct Hnone|].
    intros before file' rest Hsplit Hpath Hbefore.
    right. exists e, line. split; [reflexivity|]. split; [reflexivity|].
    exact Hcause.
Qed.

(** X25 for the file [app.js] of the project [p]: explained in demo
    mode, and asked of OpenAI without an API key, where the client
    cannot be made, the answer is the error of the SDK with status 500
    and nothing is sent. *)
Lemma X25_witness :
  (exists response reqs lines,
      Routes.explainFile (ExplainBody.mk (Some "p") (Some "app.js"))
        (Sample.offline None) (Sample.serving Sample.emptyProject)
      = (Ok response, Spec.serverAfter (Sample.serving Sample.emptyProject) reqs lines)
      /\ status response = 200
      /\ reqs = [] /\ lines = [])
  /\ (let sv := Sample.serving Sample.emptyProject in
      exists response reqs lines,
        Routes.explainFile (ExplainBody.mk (Some "p") (Some "app.js"))
          Sample.openaiNoKey sv
        = (Ok response, Spec.serverAfter sv reqs lines)
        /\ response
           = mkResponse 500
               (Failure "Failed to explain file" (Some Sample.missingKey))
        /\ reqs = []).
Proof.
  split.
  - destruct (X25_explainFile_route "p" "app.js" (Sample.offline None)
                (Sample.serving Sample.emptyProject)
                (Store.mk [] [Sample.appJs] "2024-01-01T00:00:00.000Z"
                   (Stats.mk 1 0 ["javascript"]))
                eq_refl eq_refl eq_refl)
      as (response & reqs & lines & Hrun & _ & _ & Hfound).
    exists response, reqs, lines. split; [exact Hrun|].
    destruct (Hfound [] Sample.appJs [] eq_refl eq_refl (List.Forall_nil _))
      as [(text & -> & -> & Hoff) | (e & line & _ & _ & Hcause)].
    + split; [reflexivity|]. split; [|reflexivity].
      apply Hoff; vm_compute; discriminate.
    + exfalso.
      destruct Hcause as [([H|H] & _) | (H & _)]; vm_compute in H; discriminate.
  - intros sv.
    destruct (X25_explainFile_route "p" "app.js" Sample.openaiNoKey sv
                (Store.mk [] [Sample.appJs] "2024-01-01T00:00:00.000Z"
                   (Stats.mk 1 0 ["javascript"]))
                eq_refl eq_refl eq_refl)
      as (response & reqs & lines & Hrun & _ & _ & Hfound).
    exists response, reqs, lines. split; [exact Hrun|].
    destruct (Hfound [] Sample.appJs [] eq_refl eq_refl (List.Forall_nil _))
      as [(text & -> & -> & _) | (e & line & -> & -> & Hcause)].
    + exfalso. vm_compute in Hrun. discriminate Hrun.
    + destruct Hcause as [(_ & m & n & r & -> & [H|H]) | (H & _)];
        try discriminate H.
      injection H as <-. split; [reflexivity|].
      vm_compute in Hrun. injection Hrun as _ Hreqs. now symmetry.
Defined.

Lemma explainFile_effect (projectId filePath : string) (env : Env)
    (st st1 : State) (result : Result Explanation.t) :
  Qa.explainFile projectId filePath env st = (result, st1) ->
  exists reqs lines, st1 = after st reqs lines /\ length reqs <= 1.
Proof.
  destruct (Qa.findFile (Store.files <$> vectorStores st !! projectId) filePath)
    as [file|] eqn:Hfind.
  - rewrite (explainFile_found _ _ _ _ file Hfind).
    destruct (AiProvider.generateCompletion _ _ env st) as [[text|e] st2] eqn:Hc;
      apply generateCompletion_effect in Hc as (reqs & lines & -> & Hreqs);
      intros [= _ <-].
    + now exists reqs, lines.
    + rewrite after_after, app_nil_r. now do 2 eexists.
  - rewrite explainFile_missing by exact Hfind. intros [= _ <-].
    exists [], []. split; [now rewrite after_nil | simpl; lia].
Qed.

(** [getSuggestedQuestions] returns at most 8 questions and leaves the
    state as it is; it returns none exactly for a project without a
    file. *)
Lemma getSuggestedQuestions_run (projectId : string) (env : Env) (st : State) :
  exists suggestions,
    Qa.getSuggestedQuestions projectId env st = (Ok suggestions, st)
    /\ length suggestions <= 8
    /\ (suggestions = []
        <-> forall store,
              vectorStores st !! projectId = Some store -> Store.files store = []).
Proof.
  unfold Qa.getSuggestedQuestions, bind. rewrite getProjectFiles_run.
  destruct (vectorStores st !! projectId) as [store|];
    cbn [fmap option_fmap option_map].
  2: { exists []. split; [reflexivity|]. split; [simpl; lia|].
       split; [discriminate | reflexivity]. }
  destruct (Store.files store) as [|f files] eqn:Hfiles.
  { exists []. split; [reflexivity|]. split; [simpl; lia|].
    split; [now intros _ store' [= <-] | reflexivity]. }
  cbn [length Nat.eqb]. cbv zeta. unfold ret.
  eexists. split; [reflexivity|].
  destruct (Js.includes _ "typescript" || Js.includes _ "javascript"),
           (Qa.hasStructure "component" (f :: files)),
           (Qa.hasStructure "class" (f :: files)),
           (Qa.hasStructure "interface" (f :: files));
    (split; [vm_compute; lia|]);
    (split; [discriminate|]);
    intros Hall; specialize (Hall store eq_refl); congruence.
Qed.

(** X26.  The checks of [POST /explain-file] and
    [GET /suggestions/:projectId].  Both handlers always answer, never
    throw and never change the project map.  [explain-file] answers a
    request without project id with status 400 and
    [Project ID is required], otherwise one without file path with
    status 400 and [File path is required], otherwise one for a project
    that is not indexed with status 404; in these cases nothing is
    logged or sent, and in every case at most one request is sent.
    [suggestions] never answers 500 and leaves the server as it was:
    the status is 404 for a project that is not indexed and 200
    otherwise, with at most 8 questions, none exactly when the project
    has no file. *)
Theorem X26_route_checks (env : Env) (sv : Server) :
  (forall body,
      exists response reqs lines,
        Routes.explainFile body env sv
        = (Ok response, Spec.serverAfter sv reqs lines)
        /\ length reqs <= 1
        /\ (VectorStore.optionTruthy (ExplainBody.projectId body) = false ->
            response = mkResponse 400 (Failure "Project ID is required" None)
            /\ reqs = [] /\ lines = [])
        /\ (VectorStore.optionTruthy (ExplainBody.projectId body) = true ->
            VectorStore.optionTruthy (ExplainBody.filePath body) = false ->
            response = mkResponse 400 (Failure "File path is required" None)
            /\ reqs = [] /\ lines = [])
        /\ (forall p f,
              ExplainBody.projectId body = Some p -> Js.truthy p = true ->
              ExplainBody.filePath body = Some f -> Js.truthy f = true ->
              match projects sv !! p with
              | None =>
                  response = mkResponse 404 Routes.projectNotFound
                  /\ reqs = [] /\ lines = []
              | Some _ => status response = 200 \/ status response = 500
              end))
  /\ (forall projectId,
        exists response,
          Routes.suggestions projectId env sv = (Ok response, sv)
          /\ match projects sv !! projectId with
             | None => response = mkResponse 404 Routes.projectNotFound
             | Some store =>
                 exists suggestions,
                   response = mkResponse 200 (Suggested suggestions)
                   /\ length suggestions <= 8
                   /\ (suggestions = [] <-> Store.files store = [])
             end).
Proof.
  split.
  - intros [[p|] path].
    2: { eexists _, [], []. rewrite serverAfter_nil.
         split; [reflexivity|]. split; [simpl; lia|].
         split; [now intros _|]. split; [discriminate|]. intros p f [=]. }
    cbn [ExplainBody.projectId ExplainBody.filePath VectorStore.optionTruthy].
    destruct (Js.truthy p) eqn:Hp.
    2: { eexists _, [], []. rewrite serverAfter_nil. split.
         { unfold Routes.explainFile, Routes.tryCatch.
           cbn [ExplainBody.projectId ExplainBody.filePath]. rewrite Hp.
           reflexivity. }
         split; [simpl; lia|]. split; [now intros _|]. split; [discriminate|].
         intros p' f [= <-]. congruence. }
    destruct path as [f|].
    2: { eexists _, [], []. rewrite serverAfter_nil. split.
         { unfold Routes.explainFile, Routes.tryCatch.
           cbn [ExplainBody.projectId ExplainBody.filePath]. rewrite Hp.
           reflexivity. }
         split; [simpl; lia|]. split; [discriminate|]. split; [now intros _ _|].
         intros p' f _ _ [=]. }
    destruct (Js.truthy f) eqn:Hf.
    2: { eexists _, [], []. rewrite serverAfter_nil. split.
         { unfold Routes.explainFile, Routes.tryCatch.
           cbn [ExplainBody.projectId ExplainBody.filePath]. rewrite Hp, Hf.
           reflexivity. }
         split; [simpl; lia|]. split; [discriminate|]. split; [now intros _ _|].
         intros p' f' _ _ [= <-]. congruence. }
    destruct (projects sv !! p) as [store|] eqn:Hstore.
    + destruct (Qa.explainFile p f env (Spec.serviceState sv)) as [result st1] eqn:Hrun.
      destruct (explainFile_effect _ _ _ _ _ _ Hrun) as (reqs & lines & -> & Hreqs).
      pose proof (explain_run p f env sv store _ _ _ Hp Hf Hstore Hrun) as Hroute.
      destruct result as [explanation|e]; do 3 eexists;
        (split; [exact Hroute|]); (split; [exact Hreqs|]);
        (split; [discriminate|]);
        (split; [intros _ H; cbn in H; congruence|]);
        intros p' f' [= <-] _ [= <-] _; rewrite Hstore; cbn; tauto.
    + eexists _, [], []. rewrite serverAfter_nil. split.
      { unfold Routes.explainFile, Routes.tryCatch, Routes.bind.
        cbn [ExplainBody.projectId ExplainBody.filePath]. rewrite Hp, Hf.
        cbn [negb]. rewrite service_projectExists, Hstore.
        rewrite bool_decide_eq_false_2 by (intros [? ?]; discriminate).
        reflexivity. }
      split; [simpl; lia|]. split; [discriminate|].
      split; [intros _ H; cbn in H; congruence|].
      intros p' f' [= <-] _ [= <-] _. now rewrite Hstore.
  - intros projectId.
    unfold Routes.suggestions, Routes.tryCatch, Routes.bind.
    rewrite service_projectExists.
    destruct (projects sv !! projectId) as [store|] eqn:Hstore.
    2: { rewrite bool_decide_eq_false_2 by (intros [? ?]; discriminate).
         eexists. split; reflexivity. }
    rewrite bool_decide_eq_true_2 by (now eexists). cbn [negb].
    destruct (getSuggestedQuestions_run projectId env (Spec.serviceState sv))
      as (suggestions & Hrun & Hlen & Hnil).
    rewrite <- (after_nil (Spec.serviceState sv)) in Hrun at 2.
    rewrite (service_run _ env sv _ _ _ Hrun), serverAfter_nil.
    eexists. split; [reflexivity|]. exists suggestions.
    split; [reflexivity|]. split; [exact Hlen|].
    rewrite Hnil. cbn [Spec.serviceState vectorStores]. rewrite Hstore. split.
    + intros H. now apply H.
    + now intros H store' [= <-].
Qed.


(* ===================================================================== *)
(** * The summary of a file *)
(* ===================================================================== *)

Lemma fold_concat {A} (g : A -> string) (l : list A) :
  fold_left (fun acc x => acc +:+ g x) l "" = String.concat "" (map g l).
Proof.
  induction l as [|x l IH]; [reflexivity|].
  cbn [fold_left map]. rewrite fold_append, IH.
  change ("" +:+ g x) with (g x).
  destruct l as [|y l]; [now rewrite append_empty|]. reflexivity.
Qed.

(** X27.  The text of the summary chunk.  The summary of a file is its
    path and its language, then, when the file has structures, one line
    for each of them in order, then the first 20 lines of the content.
    That preview is a prefix of the content and is the whole content
    when the file has at most 20 lines.  The summary is never blank. *)
Theorem X27_createFileSummary (file : File.t) :
  let lines := Js.splitLines (File.content file) in
  let preview := Js.joinLines (take 20 lines) in
  let header :=
    "File: " +:+ File.path file +:+ Js.NL
    +:+ "Language: " +:+ File.language file +:+ Js.NL in
  let structures :=
    match File.structures file with
    | [] => ""
    | _ => Js.NL +:+ "Code structures:" +:+ Js.NL
           +:+ String.concat "" (map Chunker.structureLine (File.structures file))
    end in
  Chunker.createFileSummary file
  = header +:+ structures +:+ Js.NL +:+ "Content preview:" +:+ Js.NL +:+ preview
  /\ (exists rest, File.content file = preview +:+ rest)
  /\ Js.splitLines preview = take 20 lines
  /\ (length lines <= 20 -> preview = File.content file)
  /\ Spec.isBlank (Chunker.createFileSummary file) = false.
Proof.
  intros lines preview header structures.
  assert (Hsum : Chunker.createFileSummary file
                 = header +:+ structures +:+ Js.NL +:+ "Content preview:"
                   +:+ Js.NL +:+ preview).
  { unfold Chunker.createFileSummary. cbv zeta.
    unfold Js.slice. rewrite drop_0, Nat.sub_0_r. fold lines. fold preview.
    unfold structures. destruct (File.structures file) as [|s l] eqn:Hs.
    - rewrite bool_decide_eq_false_2 by (simpl; lia).
      fold header. reflexivity.
    - rewrite bool_decide_eq_true_2 by (simpl; lia).
      rewrite fold_append, fold_concat. fold header.
      now rewrite !append_assoc. }
  destruct (preview_lines (File.content file) 20 ltac:(lia)) as (Hprefix & Hsplit).
  unfold Js.slice in Hprefix, Hsplit. rewrite drop_0, Nat.sub_0_r in Hprefix, Hsplit.
  split; [exact Hsum|]. split; [exact Hprefix|]. split; [exact Hsplit|]. split.
  - intros Hlen. unfold preview. rewrite take_ge by exact Hlen.
    apply joinLines_splitLines.
  - rewrite Hsum. unfold header. rewrite !isBlank_app. reflexivity.
Qed.
